(** * GaganYatra (FlightBooker): booking flow, search ordering, PNR lookup

    A shallow embedding of the React pages of the repository that carry the
    fare, passenger, seat, sorting, cancellation and PNR logic, and of the
    three backend steps (fare computation, hold creation, payment
    confirmation) that the pages talk to.

    Conventions.
    - A JavaScript [Number] is an IEEE-754 binary64 value: Rocq's primitive
      [float].  Nothing below rounds, reorders or re-associates an
      arithmetic expression of the source.
    - A property that may be missing ([undefined] / [null]) is an [option].
    - A JavaScript string is a [string]; characters are taken in the 7-bit
      ASCII range (airport codes, tiers, PNRs, digits), where [trim] and
      [toUpperCase] below are the built-ins.
    - An object used as a dictionary is a [gmap].
    - [Array.prototype.sort] is an operation of the engine, known by the
      laws ECMAScript gives it: its result is fixed for a consistent
      comparison function only.
    - A React component is a record of state cells, an initial state and a
      transition function over the events (clicks, effects, resolved
      requests) the rendered page can deliver. *)

From Stdlib Require Import ZArith QArith Qminmax List String Ascii Bool Lia Lqa Sorted.
From Stdlib Require Import Floats.PrimFloat Floats.SpecFloat Floats.FloatOps Floats.FloatAxioms.
From Stdlib Require Import Numbers.Cyclic.Int63.Uint63.
From stdpp Require Import base option list gmap strings pretty.

Close Scope Q_scope.
Set Warnings "-inexact-float".
Set Default Proof Using "Type".

(* ===================================================================== *)
(** * The fragment of the JavaScript built-ins the pages use              *)
(* ===================================================================== *)

Module JS.

(** [x !== x] holds of NaN only. *)
Definition isNaN (x : float) : bool := negb (PrimFloat.eqb x x).

(** ToBoolean on numbers: [+0], [-0] and NaN are falsy. *)
Definition truthy (x : float) : bool :=
  negb (PrimFloat.eqb x 0%float || isNaN x).

(** [a || b] where both sides are numbers that may be missing. *)
Definition or (a b : option float) : option float :=
  match a with
  | Some x => if truthy x then a else b
  | None => b
  end.

(** [a || d] where [d] is a number literal. *)
Definition orNum (a : option float) (d : float) : float :=
  match a with
  | Some x => if truthy x then x else d
  | None => d
  end.

(** [s || d] on strings: the empty string is falsy. *)
Definition orStr (a : option string) (d : string) : string :=
  match a with
  | Some EmptyString | None => d
  | Some s => s
  end.

(** [!s] on a string. *)
Definition isEmpty (s : string) : bool :=
  match s with
  | EmptyString => true
  | String _ _ => false
  end.

(** The Number of an array length. *)
Definition ofNat (n : nat) : float :=
  PrimFloat.of_uint63 (Uint63.of_Z (Z.of_nat n)).

(** WhiteSpace and LineTerminator code points below 128. *)
Definition isWhiteSpace (c : ascii) : bool :=
  let n := nat_of_ascii c in
  ((9 <=? n)%nat && (n <=? 13)%nat) || (n =? 32)%nat.

Fixpoint trimStart (s : string) : string :=
  match s with
  | String c r => if isWhiteSpace c then trimStart r else s
  | EmptyString => EmptyString
  end.

Fixpoint trimEnd (s : string) : string :=
  match s with
  | String c r =>
      match trimEnd r with
      | EmptyString => if isWhiteSpace c then EmptyString else String c EmptyString
      | r' => String c r'
      end
  | EmptyString => EmptyString
  end.

(** [String.prototype.trim]. *)
Definition trim (s : string) : string := trimEnd (trimStart s).

Definition upperChar (c : ascii) : ascii :=
  let n := nat_of_ascii c in
  if ((97 <=? n)%nat && (n <=? 122)%nat) then ascii_of_nat (n - 32) else c.

(** [String.prototype.toUpperCase]. *)
Fixpoint toUpperCase (s : string) : string :=
  match s with
  | String c r => String (upperChar c) (toUpperCase r)
  | EmptyString => EmptyString
  end.

(** The value of a character as a digit of the given radix (10 or 16). *)
Definition digitVal (radix : Z) (c : ascii) : option Z :=
  let n := Z.of_nat (nat_of_ascii c) in
  let v :=
    if (48 <=? n)%Z && (n <=? 57)%Z then Some (n - 48)%Z
    else if (97 <=? n)%Z && (n <=? 122)%Z then Some (n - 87)%Z
    else if (65 <=? n)%Z && (n <=? 90)%Z then Some (n - 55)%Z
    else None in
  match v with
  | Some d => if (d <? radix)%Z then Some d else None
  | None => None
  end.

(** The longest prefix of radix digits, as a number; [acc] is [None] until
    a first digit has been read. *)
Fixpoint parseDigits (radix : Z) (s : string) (acc : option Z) : option Z :=
  match s with
  | String c r =>
      match digitVal radix c with
      | Some d => parseDigits radix r (Some (radix * default 0 acc + d)%Z)
      | None => acc
      end
  | EmptyString => acc
  end.

(** [parseInt(s)] with no radix argument; [None] is NaN.  Leading white
    space is skipped, a sign and a [0x] prefix are read, and parsing stops
    at the first character that is not a digit. *)
Definition parseInt (s : string) : option Z :=
  let s1 := trimStart s in
  let '(sign, s2) :=
    match s1 with
    | String "-"%char r => ((-1)%Z, r)
    | String "+"%char r => (1%Z, r)
    | _ => (1%Z, s1)
    end in
  let '(radix, s3) :=
    match s2 with
    | String "0"%char (String "x"%char r) => (16%Z, r)
    | String "0"%char (String "X"%char r) => (16%Z, r)
    | _ => (10%Z, s2)
    end in
  match parseDigits radix s3 None with
  | Some m => Some (sign * m)%Z
  | None => None
  end.

(** ToLength of an array-like's [length]: NaN and negatives give 0, the
    rest is capped at 2^53 - 1. *)
Definition toLength (n : option Z) : Z :=
  match n with
  | Some z => if (z <=? 0)%Z then 0%Z else Z.min z (2 ^ 53 - 1)
  | None => 0%Z
  end.

(** [Array.from({ length: n }, () => x)].  (From 2^32 elements on the
    array constructor throws and the component does not render; such a
    list stands for no page.) *)
Definition arrayFrom {A} (n : option Z) (x : A) : list A :=
  replicate (Z.to_nat (toLength n)) x.

(** The names every object inherits from [Object.prototype]: reading one
    of them from an object literal yields a function (or, for [__proto__],
    an object), never [undefined]. *)
Definition objectPrototypeKeys : list string :=
  [ "constructor"; "toString"; "toLocaleString"; "valueOf";
    "hasOwnProperty"; "isPrototypeOf"; "propertyIsEnumerable";
    "__proto__"; "__defineGetter__"; "__defineSetter__";
    "__lookupGetter__"; "__lookupSetter__" ]%string.

Definition inherited (k : string) : bool :=
  bool_decide (k ∈ objectPrototypeKeys).

(** The outcome of an awaited request: the response body, or the
    [err.response?.data?.detail] of the rejection. *)
Inductive ApiResult (A : Type) : Type :=
| ApiOk (data : A)
| ApiErr (detail : option string).
Arguments ApiOk {A} data.
Arguments ApiErr {A} detail.

(** The built-ins taken as given: ToNumber on strings (string compared
    with a number), and [new Date(s).toISOString().split('T')[0]], which
    throws on an invalid date ([None]). *)
Class Host := {
  toNumber : string -> float;
  isoDate : string -> option string
}.

End JS.

(* ===================================================================== *)
(** * BookingPage (src/unnamed/part_004)                                  *)
(* ===================================================================== *)

Module BookingPage.
Import JS.

Module User.
Record t := mk { id : Z; first_name : string; last_name : string }.
End User.

Module Seat.
Record t := mk {
  id : Z;
  seat_number : string;
  seat_position : string;
  surcharge : option float
}.
End Seat.

(** The flight as [flightAPI.getFlightById] returns it (fields read by the
    page's logic). *)
Module Flight.
Record t := mk {
  flight_number : string;
  departure_time : string;
  dynamic_price : option float;
  current_price : option float;
  base_price : option float
}.
End Flight.

(** The booking as [POST /bookings/] and [POST /payments/] return it. *)
Module Booking.
Record t := mk {
  booking_reference : string;
  total_fare : float;
  pnr : string
}.
End Booking.

Module Payload.
Record passenger := mkPassenger {
  passenger_name : string;
  age : option Z;
  gender : string;
  seat_id : option Z
}.
Record booking := mkBooking {
  user_id : Z;
  flight_number : string;
  departure_date : string;
  passengers : list passenger;
  seat_class : string;
  selected_seat_ids : list Z
}.
Record payment := mkPayment {
  booking_reference : string;
  amount : float;
  method : string
}.
End Payload.

Inductive Request : Type :=
| PostBookings (body : Payload.booking)
| PostPayments (body : Payload.payment).

Record Passenger := mkPassenger {
  passenger_name : string;
  age : string;
  gender : string
}.

Record CardDetails := mkCard {
  number : string;
  name : string;
  expiry : string;
  cvv : string
}.

(** The URL parameters and the auth context the component is rendered
    with.  [urlPrice] is [parseFloat(searchParams.get('price') || '0')]. *)
Record Props := mkProps {
  flightParam : option string;
  passengersParam : option string;
  tierParam : option string;
  urlPrice : float;
  user : option User.t;
  authLoading : bool
}.

Definition flightId (p : Props) : option string := flightParam p.
Definition passengersCount (p : Props) : option Z :=
  parseInt (orStr (passengersParam p) "1").
Definition seatTier (p : Props) : string := orStr (tierParam p) "ECONOMY".

Record State := mkState {
  currentStep : Z;
  flight : option Flight.t;
  loading : bool;
  submitting : bool;
  error : string;
  lockedPrice : float;
  passengers : list Passenger;
  selectedSeats : list Seat.t;
  seatSurcharge : float;
  paymentMethod : string;
  cardDetails : CardDetails;
  upiId : string;
  selectedBank : string
}.

Definition setCurrentStep (st : State) (v : Z) : State :=
  mkState v (flight st) (loading st) (submitting st) (error st)
    (lockedPrice st) (passengers st) (selectedSeats st) (seatSurcharge st)
    (paymentMethod st) (cardDetails st) (upiId st) (selectedBank st).
Definition setFlight (st : State) (v : option Flight.t) : State :=
  mkState (currentStep st) v (loading st) (submitting st) (error st)
    (lockedPrice st) (passengers st) (selectedSeats st) (seatSurcharge st)
    (paymentMethod st) (cardDetails st) (upiId st) (selectedBank st).
Definition setLoading (st : State) (v : bool) : State :=
  mkState (currentStep st) (flight st) v (submitting st) (error st)
    (lockedPrice st) (passengers st) (selectedSeats st) (seatSurcharge st)
    (paymentMethod st) (cardDetails st) (upiId st) (selectedBank st).
Definition setSubmitting (st : State) (v : bool) : State :=
  mkState (currentStep st) (flight st) (loading st) v (error st)
    (lockedPrice st) (passengers st) (selectedSeats st) (seatSurcharge st)
    (paymentMethod st) (cardDetails st) (upiId st) (selectedBank st).
Definition setError (st : State) (v : string) : State :=
  mkState (currentStep st) (flight st) (loading st) (submitting st) v
    (lockedPrice st) (passengers st) (selectedSeats st) (seatSurcharge st)
    (paymentMethod st) (cardDetails st) (upiId st) (selectedBank st).
Definition setLockedPrice (st : State) (v : float) : State :=
  mkState (currentStep st) (flight st) (loading st) (submitting st) (error st)
    v (passengers st) (selectedSeats st) (seatSurcharge st)
    (paymentMethod st) (cardDetails st) (upiId st) (selectedBank st).
Definition setPassengers (st : State) (v : list Passenger) : State :=
  mkState (currentStep st) (flight st) (loading st) (submitting st) (error st)
    (lockedPrice st) v (selectedSeats st) (seatSurcharge st)
    (paymentMethod st) (cardDetails st) (upiId st) (selectedBank st).
Definition setSelectedSeats (st : State) (v : list Seat.t) : State :=
  mkState (currentStep st) (flight st) (loading st) (submitting st) (error st)
    (lockedPrice st) (passengers st) v (seatSurcharge st)
    (paymentMethod st) (cardDetails st) (upiId st) (selectedBank st).
Definition setSeatSurcharge (st : State) (v : float) : State :=
  mkState (currentStep st) (flight st) (loading st) (submitting st) (error st)
    (lockedPrice st) (passengers st) (selectedSeats st) v
    (paymentMethod st) (cardDetails st) (upiId st) (selectedBank st).
Definition setPaymentMethod (st : State) (v : string) : State :=
  mkState (currentStep st) (flight st) (loading st) (submitting st) (error st)
    (lockedPrice st) (passengers st) (selectedSeats st) (seatSurcharge st)
    v (cardDetails st) (upiId st) (selectedBank st).
Definition setCardDetails (st : State) (v : CardDetails) : State :=
  mkState (currentStep st) (flight st) (loading st) (submitting st) (error st)
    (lockedPrice st) (passengers st) (selectedSeats st) (seatSurcharge st)
    (paymentMethod st) v (upiId st) (selectedBank st).
Definition setUpiId (st : State) (v : string) : State :=
  mkState (currentStep st) (flight st) (loading st) (submitting st) (error st)
    (lockedPrice st) (passengers st) (selectedSeats st) (seatSurcharge st)
    (paymentMethod st) (cardDetails st) v (selectedBank st).
Definition setSelectedBank (st : State) (v : string) : State :=
  mkState (currentStep st) (flight st) (loading st) (submitting st) (error st)
    (lockedPrice st) (passengers st) (selectedSeats st) (seatSurcharge st)
    (paymentMethod st) (cardDetails st) (upiId st) v.

Definition blankPassenger : Passenger := mkPassenger "" "" "".

(** The [useState] initialisers. *)
Definition initialState (p : Props) : State :=
  {| currentStep := 1;
     flight := None;
     loading := true;
     submitting := false;
     error := "";
     lockedPrice := urlPrice p;
     passengers := arrayFrom (passengersCount p) blankPassenger;
     selectedSeats := [];
     seatSurcharge := 0%float;
     paymentMethod := "card";
     cardDetails := mkCard "" "" "" "";
     upiId := "";
     selectedBank := "" |}.

(** [addPassenger]. *)
Definition addPassenger (st : State) : State :=
  if (9 <=? length (passengers st))%nat then
    setError st "Maximum 9 passengers allowed per booking"
  else
    let st := setPassengers st (passengers st ++ [blankPassenger]) in
    let st := setSelectedSeats st [] in
    let st := setSeatSurcharge st 0%float in
    setError st "".

(** [removePassenger]: [prev.filter((_, i) => i !== index)]. *)
Definition removePassenger (st : State) (index : nat) : State :=
  if (length (passengers st) <=? 1)%nat then st
  else
    let st := setPassengers st (delete index (passengers st)) in
    let st := setSelectedSeats st [] in
    let st := setSeatSurcharge st 0%float in
    setError st "".

(** The reducer of [handleSeatSelect]:
    [seats.reduce((sum, seat) => sum + (seat.surcharge || 0), 0)]. *)
Definition totalSurcharge (seats : list Seat.t) : float :=
  fold_left (fun sum seat => (sum + orNum (Seat.surcharge seat) 0)%float)
    seats 0%float.

(** [handleSeatSelect]. *)
Definition handleSeatSelect (st : State) (seats : list Seat.t) : State :=
  setSeatSurcharge (setSelectedSeats st seats) (totalSurcharge seats).

(** The [multipliers] table of the fetch effect. *)
Definition multipliers : gmap string float :=
  list_to_map
    [ ("ECONOMY"%string, 1.0%float);
      ("ECONOMY_FLEX"%string, 1.2%float);
      ("BUSINESS"%string, 1.8%float);
      ("FIRST"%string, 2.5%float) ].

(** [data.dynamic_price || data.current_price || data.base_price || 0]. *)
Definition basePrice (data : Flight.t) : float :=
  orNum (or (or (Flight.dynamic_price data) (Flight.current_price data))
            (Flight.base_price data)) 0%float.

(** [basePrice * (multipliers[seatTier] || 1.0)].  A tier that names a
    member of [Object.prototype] reads a function, whose product with a
    number is NaN. *)
Definition computed (basePrice : float) (seatTier : string) : float :=
  match multipliers !! seatTier with
  | Some m => (basePrice * (if truthy m then m else 1.0))%float
  | None =>
      if inherited seatTier then PrimFloat.nan
      else (basePrice * 1.0)%float
  end.

Definition isFalsyStr (o : option string) : bool :=
  match o with
  | Some EmptyString | None => true
  | Some _ => false
  end.

(** [fetchFlight], with the awaited response given. *)
Definition fetchFlight (p : Props) (st : State) (r : ApiResult Flight.t) : State :=
  if isFalsyStr (flightId p) then
    setLoading (setError st "No flight selected") false
  else
    match r with
    | ApiOk data =>
        let st := setFlight st (Some data) in
        let st :=
          if PrimFloat.eqb (urlPrice p) 0%float then
            setLockedPrice st (computed (basePrice data) (seatTier p))
          else st in
        setLoading st false
    | ApiErr _ =>
        setLoading (setError st "Failed to load flight details") false
    end.

(** The derived prices of a render. *)
Definition tierPrice (st : State) : float := lockedPrice st.
Definition baseTotalPrice (st : State) : float :=
  (tierPrice st * ofNat (length (passengers st)))%float.
Definition totalPrice (st : State) : float :=
  (baseTotalPrice st + seatSurcharge st)%float.

Inductive Field := f_passenger_name | f_age | f_gender.

Definition updateField (field : Field) (value : string) (p : Passenger) : Passenger :=
  match field with
  | f_passenger_name => mkPassenger value (age p) (gender p)
  | f_age => mkPassenger (passenger_name p) value (gender p)
  | f_gender => mkPassenger (passenger_name p) (age p) value
  end.

(** [handlePassengerChange], for the index of a rendered passenger card. *)
Definition handlePassengerChange (st : State) (index : nat) (field : Field)
    (value : string) : State :=
  setPassengers st (alter (updateField field value) index (passengers st)).

(** The effect that pre-fills the first passenger with the logged-in user. *)
Definition prefillUser (p : Props) (st : State) : State :=
  match user p, passengers st with
  | Some u, p0 :: _ =>
      if String.eqb (passenger_name p0) "" then
        setPassengers st
          (alter (updateField f_passenger_name
                    (User.first_name u +:+ " " +:+ User.last_name u))
                 0%nat (passengers st))
      else st
  | _, _ => st
  end.

Section WithHost.
Context `{Host}.

(** The loop of [validateStep] for step 1; [i] is the loop index. *)
Fixpoint validatePassengers (i : nat) (ps : list Passenger) : option string :=
  match ps with
  | [] => None
  | p :: rest =>
      if isEmpty (trim (passenger_name p)) then
        Some ("Please enter name for Passenger " +:+ pretty (i + 1)%nat)
      else if isEmpty (age p)
              || PrimFloat.ltb (toNumber (age p)) 1%float
              || PrimFloat.ltb 120%float (toNumber (age p)) then
        Some ("Please enter valid age for Passenger " +:+ pretty (i + 1)%nat)
      else if isEmpty (gender p) then
        Some ("Please select gender for Passenger " +:+ pretty (i + 1)%nat)
      else validatePassengers (S i) rest
  end.

(** [s.replace(/\s/g, '')]. *)
Fixpoint removeWhiteSpace (s : string) : string :=
  match s with
  | String c r =>
      if isWhiteSpace c then removeWhiteSpace r
      else String c (removeWhiteSpace r)
  | EmptyString => EmptyString
  end.

Definition isDigit (c : ascii) : bool :=
  let n := nat_of_ascii c in (48 <=? n)%nat && (n <=? 57)%nat.

(** [/^\d{2}\/\d{2}$/.test(s)]. *)
Definition isExpiry (s : string) : bool :=
  match s with
  | String a (String b (String "/"%char (String c (String d EmptyString)))) =>
      isDigit a && isDigit b && isDigit c && isDigit d
  | _ => false
  end.

(** [s.includes('@')]. *)
Fixpoint includesAt (s : string) : bool :=
  match s with
  | String c r => Ascii.eqb c "@"%char || includesAt r
  | EmptyString => false
  end.

(** The step-4 block of [validateStep]. *)
Definition validatePayment (st : State) : option string :=
  if String.eqb (paymentMethod st) "card" then
    let cd := cardDetails st in
    if isEmpty (number cd)
       || negb (String.length (removeWhiteSpace (number cd)) =? 16)%nat then
      Some "Please enter valid 16-digit card number"%string
    else if isEmpty (trim (name cd)) then
      Some "Please enter cardholder name"%string
    else if isEmpty (expiry cd) || negb (isExpiry (expiry cd)) then
      Some "Please enter valid expiry date (MM/YY)"%string
    else if isEmpty (cvv cd) || (String.length (cvv cd) <? 3)%nat then
      Some "Please enter valid CVV"%string
    else None
  else if String.eqb (paymentMethod st) "upi" then
    if isEmpty (upiId st) || negb (includesAt (upiId st)) then
      Some "Please enter valid UPI ID"%string
    else None
  else if String.eqb (paymentMethod st) "netbanking" then
    if isEmpty (selectedBank st) then
      Some "Please select a bank for Net Banking"%string
    else None
  else None.

(** [validateStep]: [Some msg] is [setError(msg); return false], [None] is
    [setError(''); return true]. *)
Definition validateStep (st : State) : option string :=
  let r1 :=
    if (currentStep st =? 1)%Z then validatePassengers 0 (passengers st)
    else None in
  match r1 with
  | Some e => Some e
  | None =>
      let r2 :=
        if (currentStep st =? 2)%Z then
          if negb (length (selectedSeats st) =? length (passengers st))%nat then
            Some ("Please select " +:+ pretty (length (passengers st))
                  +:+ " seat(s) for all passengers. Currently selected: "
                  +:+ pretty (length (selectedSeats st)))
          else None
        else None in
      match r2 with
      | Some e => Some e
      | None =>
          if (currentStep st =? 4)%Z then validatePayment st else None
      end
  end.

(** [handleNext]. *)
Definition handleNext (st : State) : State :=
  match validateStep st with
  | Some e => setError st e
  | None =>
      let st := setError st "" in
      setCurrentStep st (Z.min (currentStep st + 1) 4)
  end.

(** [handleBack]. *)
Definition handleBack (st : State) : State :=
  let st := setError st "" in
  setCurrentStep st (Z.max (currentStep st - 1) 1).

(** [paymentMethodMap]. *)
Definition paymentMethodMap : gmap string string :=
  list_to_map
    [ ("card", "Card"); ("upi", "UPI");
      ("netbanking", "NetBanking"); ("wallet", "Wallet") ]%string.

(** [selectedSeatIds[idx] || null]. *)
Definition seatIdAt (ids : list Z) (idx : nat) : option Z :=
  match ids !! idx with
  | Some i => if (i =? 0)%Z then None else Some i
  | None => None
  end.

Definition bookingPayload (u : User.t) (f : Flight.t) (departureDate : string)
    (p : Props) (st : State) : Payload.booking :=
  let selectedSeatIds := map Seat.id (selectedSeats st) in
  {| Payload.user_id := User.id u;
     Payload.flight_number := Flight.flight_number f;
     Payload.departure_date := departureDate;
     Payload.passengers :=
       imap (fun idx p =>
               Payload.mkPassenger (passenger_name p) (parseInt (age p))
                 (gender p) (seatIdAt selectedSeatIds idx))
            (passengers st);
     Payload.seat_class := seatTier p;
     Payload.selected_seat_ids := selectedSeatIds |}.

Definition paymentPayload (booking : Booking.t) (st : State) : Payload.payment :=
  {| Payload.booking_reference := Booking.booking_reference booking;
     Payload.amount := Booking.total_fare booking;
     Payload.method :=
       default (paymentMethod st) (paymentMethodMap !! paymentMethod st) |}.

Record SubmitOutcome := mkOutcome {
  after : State;
  requests : list Request;
  navigated : option string
}.

Definition failedBooking : string :=
  "Failed to complete booking. Please try again.".

(** The [catch] and [finally] of [handleSubmit]:
    [setError(err.response?.data?.detail || '...')], [setSubmitting(false)]. *)
Definition caught (st : State) (detail : option string) : State :=
  setSubmitting (setError st (orStr detail failedBooking)) false.

(** [handleSubmit], with the two awaited responses given.  Reading
    [flight.departure_time] of a missing flight, [user.id] of a missing
    user, or the ISO form of an invalid date throws into the [catch]
    before any request is sent. *)
Definition handleSubmit (p : Props) (st : State)
    (hold pay : ApiResult Booking.t) : SubmitOutcome :=
  match validateStep st with
  | Some e => mkOutcome (setError st e) [] None
  | None =>
      let st := setError st "" in
      let st := setSubmitting st true in
      let st := setError st "" in
      match flight st, user p with
      | Some f, Some u =>
          match isoDate (Flight.departure_time f) with
          | None => mkOutcome (caught st None) [] None
          | Some departureDate =>
              let rq1 := PostBookings (bookingPayload u f departureDate p st) in
              match hold with
              | ApiErr d => mkOutcome (caught st d) [rq1] None
              | ApiOk booking =>
                  let rq2 := PostPayments (paymentPayload booking st) in
                  match pay with
                  | ApiErr d => mkOutcome (caught st d) [rq1; rq2] None
                  | ApiOk confirmedBooking =>
                      mkOutcome (setSubmitting st false) [rq1; rq2]
                        (Some ("/booking/confirmation/"
                               +:+ Booking.pnr confirmedBooking))
                  end
              end
          end
      | _, _ => mkOutcome (caught st None) [] None
      end
  end.

(** What the rendered page can deliver. *)
Inductive Event : Type :=
| FetchFlight (r : ApiResult Flight.t)
| PrefillUser
| AddPassenger
| RemovePassenger (index : nat)
| PassengerChange (index : nat) (field : Field) (value : string)
| SeatSelect (seats : list Seat.t)
| SetPaymentMethod (v : string)
| SetCardDetails (v : CardDetails)
| SetUpiId (v : string)
| SetSelectedBank (v : string)
| Next
| Back
| Submit (hold pay : ApiResult Booking.t).

(** The form is rendered once auth and the flight have loaded, and not on
    the error page ([error && !flight]). *)
Definition formRendered (p : Props) (st : State) : bool :=
  negb (authLoading p || loading st)
  && negb (negb (isEmpty (error st)) && negb (bool_decide (is_Some (flight st)))).

(** Which element (or effect) exists to deliver an event: the effects run
    when a user is logged in (on mount, and again when one of their
    dependencies changes); each control is rendered in the block of its
    step, the payment radios offering card, upi and netbanking.  The
    [disabled] attributes are not taken into account: a handler is allowed
    to run whenever its control is rendered. *)
Definition enabled (p : Props) (st : State) (e : Event) : bool :=
  match e with
  | FetchFlight _ | PrefillUser => bool_decide (is_Some (user p))
  | AddPassenger => formRendered p st && (currentStep st =? 1)%Z
  | RemovePassenger index =>
      formRendered p st && (currentStep st =? 1)%Z
      && (1 <? length (passengers st))%nat
      && (index <? length (passengers st))%nat
  | PassengerChange index _ _ =>
      formRendered p st && (currentStep st =? 1)%Z
      && (index <? length (passengers st))%nat
  | SeatSelect _ => formRendered p st && (currentStep st =? 2)%Z
  | SetPaymentMethod v =>
      formRendered p st && (currentStep st =? 4)%Z
      && bool_decide (v ∈ ["card"; "upi"; "netbanking"]%string)
  | SetCardDetails _ | SetUpiId _ | SetSelectedBank _ =>
      formRendered p st && (currentStep st =? 4)%Z
  | Next => formRendered p st && (currentStep st <? 4)%Z
  | Back => formRendered p st && (1 <? currentStep st)%Z
  | Submit _ _ => formRendered p st && negb (currentStep st <? 4)%Z
  end.

Definition step (p : Props) (st : State) (e : Event) : State :=
  match e with
  | FetchFlight r => fetchFlight p st r
  | PrefillUser => prefillUser p st
  | AddPassenger => addPassenger st
  | RemovePassenger index => removePassenger st index
  | PassengerChange index field value =>
      handlePassengerChange st index field value
  | SeatSelect seats => handleSeatSelect st seats
  | SetPaymentMethod v => setPaymentMethod st v
  | SetCardDetails v => setCardDetails st v
  | SetUpiId v => setUpiId st v
  | SetSelectedBank v => setSelectedBank st v
  | Next => handleNext st
  | Back => handleBack st
  | Submit hold pay => after (handleSubmit p st hold pay)
  end.

(** The states of the page: the initial one and those an enabled event
    leads to. *)
Inductive reachable (p : Props) : State -> Prop :=
| reach_init : reachable p (initialState p)
| reach_step st e :
    reachable p st -> enabled p st e = true -> reachable p (step p st e).

(** Running a list of events from a state, stopping at one that no
    rendered control delivers. *)
Fixpoint run (p : Props) (st : State) (es : list Event) : option State :=
  match es with
  | [] => Some st
  | e :: es' => if enabled p st e then run p (step p st e) es' else None
  end.

End WithHost.

End BookingPage.

(* ===================================================================== *)
(** * FlightsPage (src/frontend/src/pages/FlightsPage.jsx)                *)
(* ===================================================================== *)

Module FlightsPage.
Import JS.

Record SeatClass := mkClass { value : string; label : string; short : string }.

Definition SEAT_CLASSES : list SeatClass :=
  [ mkClass "ECONOMY" "Economy" "ECO";
    mkClass "BUSINESS" "Business" "BUS";
    mkClass "FIRST" "First" "FST" ].

(** [f.airline] as the search response carries it: a name, an object with
    an optional [name], or nothing. *)
Inductive Airline : Type :=
| AirlineString (s : string)
| AirlineObject (name : option string)
| AirlineMissing.

(** A flight of the search response.  [departure_time] and [arrival_time]
    are the time values of [new Date(...)] in milliseconds (NaN for a
    string that is no date). *)
Record Flight := mkFlight {
  id : Z;
  airline : Airline;
  departure_time : float;
  arrival_time : float;
  price_map : option (gmap string float);
  dynamic_price : option float;
  current_price : option float;
  base_price : option float
}.

(** [getFlightPrice], for a tier of [SEAT_CLASSES]. *)
Definition getFlightPrice (flight : Flight) (tier : string) : float :=
  match price_map flight with
  | Some pm =>
      match pm !! tier with
      | Some x =>
          if truthy x then x
          else orNum (or (or (dynamic_price flight) (current_price flight))
                         (base_price flight)) 0%float
      | None =>
          orNum (or (or (dynamic_price flight) (current_price flight))
                    (base_price flight)) 0%float
      end
  | None =>
      orNum (or (or (dynamic_price flight) (current_price flight))
                (base_price flight)) 0%float
  end.

(** [f.airline?.name || f.airline], when it is a string; an object is
    equal to no string. *)
Definition airlineName (f : Flight) : option string :=
  match airline f with
  | AirlineString s => Some s
  | AirlineObject (Some n) => if isEmpty n then None else Some n
  | AirlineObject None => None
  | AirlineMissing => None
  end.

Record State := mkState {
  flights : list Flight;
  selectedClasses : gmap Z string;
  sortBy : string;
  filterAirline : string
}.

(** [selectedClasses[a.id] || 'ECONOMY']. *)
Definition selectedTier (st : State) (a : Flight) : string :=
  orStr (selectedClasses st !! id a) "ECONOMY".

(** The comparator passed to [sort]. *)
Definition comparator (st : State) (a b : Flight) : float :=
  if String.eqb (sortBy st) "price" then
    let priceA := getFlightPrice a (selectedTier st a) in
    let priceB := getFlightPrice b (selectedTier st b) in
    (priceA - priceB)%float
  else if String.eqb (sortBy st) "duration" then
    let durationA := (arrival_time a - departure_time a)%float in
    let durationB := (arrival_time b - departure_time b)%float in
    (durationA - durationB)%float
  else if String.eqb (sortBy st) "departure" then
    (departure_time a - departure_time b)%float
  else 0%float.

(** The array ECMAScript prescribes for [Array.prototype.sort(comparefn)]
    when [comparefn] is a consistent comparison function for the
    elements: the sort is stable and puts [a] before [b] whenever
    [comparefn(a, b) < 0], which determines the result; insertion from
    the right computes it ([x] moves past the elements it is strictly
    greater than). *)
Section Sort.
Context {A : Type} (comparefn : A -> A -> float).

Fixpoint insert (x : A) (l : list A) : list A :=
  match l with
  | [] => [x]
  | y :: ys =>
      if PrimFloat.ltb 0%float (comparefn x y) then y :: insert x ys
      else x :: y :: ys
  end.

Definition stableSort (l : list A) : list A := foldr insert [] l.

(** ECMAScript's consistent comparison function for the elements of [l]:
    no result is NaN, every element is equal to itself, equality is
    symmetric and transitive, and so are less-than and greater-than. *)
Definition consistent (l : list A) : bool :=
  forallb (fun a =>
    PrimFloat.eqb (comparefn a a) 0%float
    && forallb (fun b =>
         negb (isNaN (comparefn a b))
         && implb (PrimFloat.eqb (comparefn a b) 0%float)
                  (PrimFloat.eqb (comparefn b a) 0%float)
         && forallb (fun c =>
              implb (PrimFloat.eqb (comparefn a b) 0%float
                     && PrimFloat.eqb (comparefn b c) 0%float)
                    (PrimFloat.eqb (comparefn a c) 0%float)
              && implb (PrimFloat.ltb (comparefn a b) 0%float
                        && PrimFloat.ltb (comparefn b c) 0%float)
                       (PrimFloat.ltb (comparefn a c) 0%float)
              && implb (PrimFloat.ltb 0%float (comparefn a b)
                        && PrimFloat.ltb 0%float (comparefn b c))
                       (PrimFloat.ltb 0%float (comparefn a c))) l) l) l.

End Sort.

(** [Array.prototype.sort] as the engine the page runs on provides it.
    The sorted array always holds the elements of the array; for a
    consistent comparison function it is the array ECMAScript
    prescribes.  For any other comparison function (one whose result is
    NaN for some pair, say) the order is left to the engine, and nothing
    more is known of it. *)
Class Engine := {
  sort : forall A : Type, (A -> A -> float) -> list A -> list A;
  sort_permutation :
    forall (A : Type) (comparefn : A -> A -> float) (l : list A),
      sort A comparefn l ≡ₚ l;
  sort_consistent :
    forall (A : Type) (comparefn : A -> A -> float) (l : list A),
      consistent comparefn l = true ->
      sort A comparefn l = stableSort comparefn l
}.
Arguments sort {_ A} comparefn l.

(** An engine that sorts by insertion from the right whatever the
    comparison function. *)
Definition insertionEngine : Engine.
Proof.
  refine {| sort := @stableSort |}.
  - intros A comparefn l. induction l as [|x l IH]; simpl; [ reflexivity | ].
    rewrite <- IH at 2. generalize (stableSort comparefn l). clear.
    intros l. induction l as [|z l IH]; simpl; [ reflexivity | ].
    destruct (PrimFloat.ltb _ _); [ | reflexivity ].
    rewrite IH. apply Permutation_swap.
  - reflexivity.
Defined.

Definition passesFilter (st : State) (f : Flight) : bool :=
  String.eqb (filterAirline st) "all"
  || bool_decide (airlineName f = Some (filterAirline st)).

(** [filteredFlights]. *)
Definition filteredFlights `{Engine} (st : State) : list Flight :=
  sort (comparator st) (filter (fun f => passesFilter st f = true) (flights st)).

End FlightsPage.

(* ===================================================================== *)
(** * FlightSearchForm (src/frontend/src/components/home/...)             *)
(* ===================================================================== *)

Module FlightSearchForm.

(** The [<option>]s of the [travelClass] select: value and text. *)
Definition travelClassOptions : list (string * string) :=
  [ ("ECONOMY", "Economy");
    ("ECONOMY_FLEX", "Economy Flex");
    ("BUSINESS", "Business");
    ("FIRST", "First Class") ]%string.

Definition offeredTiers : list string := map fst travelClassOptions.

End FlightSearchForm.

(* ===================================================================== *)
(** * MyBookingsPage (src/frontend/src/pages/MyBookingsPage.jsx)          *)
(* ===================================================================== *)

Module MyBookingsPage.
Import JS.

Record Ticket := mkTicket {
  flight_number : option string;
  departure_city : option string;
  arrival_city : option string;
  departure_time : option string
}.

(** A booking of [GET /users/my-bookings]. *)
Record Booking := mkBooking {
  pnr : option string;
  status : option string;
  booking_reference : option string;
  created_at : option string;
  paid_amount : option float;
  total_fare : option float;
  tickets : option (list Ticket)
}.

Record State := mkState {
  bookings : list Booking;
  loading : bool;
  error : string;
  filter : string;
  cancellingId : option string;
  downloadingId : option string
}.

Definition setBookings (st : State) (v : list Booking) : State :=
  mkState v (loading st) (error st) (filter st) (cancellingId st)
    (downloadingId st).
Definition setCancellingId (st : State) (v : option string) : State :=
  mkState (bookings st) (loading st) (error st) (filter st) v
    (downloadingId st).

(** [{ ...b, status: 'Cancelled' }]. *)
Definition withCancelled (b : Booking) : Booking :=
  mkBooking (pnr b) (Some "Cancelled"%string) (booking_reference b)
    (created_at b) (paid_amount b) (total_fare b) (tickets b).

(** The updater passed to [setBookings]. *)
Definition markCancelled (p : option string) (prev : list Booking) : list Booking :=
  map (fun b => if bool_decide (pnr b = p) then withCancelled b else b) prev.

Record CancelOutcome := mkOutcome {
  after : State;
  deleted : list string;
  alerted : option string
}.

(** The path of the DELETE request: a missing PNR prints as [null]. *)
Definition deletePath (p : option string) : string :=
  "/bookings/" +:+ default "null"%string p.

(** [handleCancelBooking], given the answer to [confirm(...)] and the
    outcome of the awaited DELETE. *)
Definition handleCancelBooking (st : State) (p : option string)
    (confirmed : bool) (r : ApiResult unit) : CancelOutcome :=
  if negb confirmed then mkOutcome st [] None
  else
    let st := setCancellingId st p in
    match r with
    | ApiOk _ =>
        let st := setBookings st (markCancelled p (bookings st)) in
        mkOutcome (setCancellingId st None) [deletePath p] None
    | ApiErr d =>
        mkOutcome (setCancellingId st None) [deletePath p]
          (Some (orStr d "Failed to cancel booking"))
    end.

End MyBookingsPage.

(* ===================================================================== *)
(** * Navbar (src/unnamed/part_007): the public PNR-status lookup         *)
(* ===================================================================== *)

Module Navbar.
Import JS.

Section Lookup.
(** The body of a PNR-status response. *)
Context {PnrStatus : Type}.

Record State := mkState {
  isPnrModalOpen : bool;
  pnrInput : string;
  pnrStatus : option PnrStatus;
  pnrLoading : bool;
  pnrError : string
}.

Definition setPnrStatus (st : State) (v : option PnrStatus) : State :=
  mkState (isPnrModalOpen st) (pnrInput st) v (pnrLoading st) (pnrError st).
Definition setPnrLoading (st : State) (v : bool) : State :=
  mkState (isPnrModalOpen st) (pnrInput st) (pnrStatus st) v (pnrError st).
Definition setPnrError (st : State) (v : string) : State :=
  mkState (isPnrModalOpen st) (pnrInput st) (pnrStatus st) (pnrLoading st) v.

(** The path requested for an entered PNR. *)
Definition pnrStatusPath (input : string) : string :=
  "/bookings/pnr-status/" +:+ toUpperCase (trim input).

Record CheckOutcome := mkOutcome {
  after : State;
  got : list string
}.

(** [handlePnrCheck]; [server] answers a GET of a path. *)
Definition handlePnrCheck (server : string -> ApiResult PnrStatus)
    (st : State) : CheckOutcome :=
  if isEmpty (trim (pnrInput st)) then
    mkOutcome (setPnrError st "Please enter a PNR number") []
  else
    let st := setPnrLoading st true in
    let st := setPnrError st "" in
    let st := setPnrStatus st None in
    let path := pnrStatusPath (pnrInput st) in
    match server path with
    | ApiOk data =>
        mkOutcome (setPnrLoading (setPnrStatus st (Some data)) false) [path]
    | ApiErr d =>
        mkOutcome
          (setPnrLoading
             (setPnrError st
                (orStr d "PNR not found. Please check and try again."))
             false)
          [path]
    end.

End Lookup.
Arguments State : clear implicits.
Arguments CheckOutcome : clear implicits.

End Navbar.

(* ===================================================================== *)
(** * The backend steps the pages rely on                                 *)
(* ===================================================================== *)

Module Backend.

Inductive Tier := Economy | EconomyFlex | Business | First.

Inductive ErrorKind :=
| InvalidArgument
| HoldExpired
| InvalidState
| AmountMismatch
| PaymentFailed.

(** Modelled from the spec: the fare snapshot of the glossary: per-tier base fares (a tier may be
    missing from the map), seat counts, hours to departure (negative once
    the flight has left) and the demand index. *)
Record Snapshot := mkSnapshot {
  base_fare : Tier -> option Q;
  seats_available : Tier -> Z;
  seats_total : Tier -> Z;
  hours_until_departure : Q;
  demand_index : Q
}.

(** Modelled from the spec: the class factors of section 4.1. *)
Definition class_factor (t : Tier) : Q :=
  match t with
  | Economy => 1
  | EconomyFlex => 12 # 10
  | Business => 18 # 10
  | First => 25 # 10
  end.

Section Pricing.
(** The factor curves, whose constants the spec leaves to the implementer. *)
Variables f_inv f_time f_demand : Q -> Q.

(** Modelled from the spec: the pricing engine
    (backend/app/services/pricing_engine.py is not among the sources),
    after section 4.1: the product of the base fare and the four factors,
    then the hard cap at ten times the base fare, then the floor at the
    base fare; a negative input or a tier missing from the base-fare map
    is rejected, and a departure in the past gives the cap. *)
Definition PricingEngine (s : Snapshot) (t : Tier) : ErrorKind + Q :=
  match base_fare s t with
  | None => inl InvalidArgument
  | Some b =>
      if Qlt_le_dec b 0 then inl InvalidArgument
      else if (seats_available s t <? 0)%Z then inl InvalidArgument
      else if (seats_total s t <? 0)%Z then inl InvalidArgument
      else if Qlt_le_dec (demand_index s) 0 then inl InvalidArgument
      else if Qlt_le_dec (hours_until_departure s) 0 then inr (10 * b)%Q
      else
        let inventory_factor :=
          f_inv (1 - inject_Z (seats_available s t)
                       / inject_Z (seats_total s t))%Q in
        let time_factor := f_time (hours_until_departure s) in
        let demand_factor := f_demand (demand_index s) in
        let fare :=
          (b * inventory_factor * time_factor * demand_factor
           * class_factor t)%Q in
        let fare := Qmin fare (10 * b)%Q in
        let fare := Qmax fare b in
        inr fare
  end.

End Pricing.

Inductive Status := Held | PendingPayment | Confirmed | Cancelled | Expired.

(** Modelled from the spec: the booking row of section 3, without its
    seats and tickets. *)
Record Booking := mkBooking {
  booking_reference : string;
  status : Status;
  total_fare : float;
  paid_amount : option float;
  hold_expires_at : Z;
  transaction_id : option string;
  pnr : option string
}.

(** Modelled from the spec: payment and confirmation
    (the backend payment route is not among the sources), after section
    4.4.2: the booking must be Held or PendingPayment and its hold not
    expired; the amount must be at least [total_fare]; a refused payment
    leaves it PendingPayment; a successful one sets Confirmed,
    [paid_amount = amount], the transaction id and the PNR.  [total_fare]
    is never written. *)
Definition pay (b : Booking) (now : Z) (amount : float) (adapter_ok : bool)
    (txn new_pnr : string) : Booking * option ErrorKind :=
  match status b with
  | Held | PendingPayment =>
      if (hold_expires_at b <=? now)%Z then (b, Some HoldExpired)
      else if negb (PrimFloat.leb (total_fare b) amount) then
        (b, Some AmountMismatch)
      else if negb adapter_ok then
        (mkBooking (booking_reference b) PendingPayment (total_fare b)
           (paid_amount b) (hold_expires_at b) (transaction_id b) (pnr b),
         Some PaymentFailed)
      else
        (mkBooking (booking_reference b) Confirmed (total_fare b)
           (Some amount) (hold_expires_at b) (Some txn) (Some new_pnr),
         None)
  | _ => (b, Some InvalidState)
  end.

(** What [POST /bookings/] answers for a held booking. *)
Definition holdResponse (b : Booking) : BookingPage.Booking.t :=
  BookingPage.Booking.mk (booking_reference b) (total_fare b)
    (default ""%string (pnr b)).

End Backend.

(* ===================================================================== *)
(** * Sample inputs                                                       *)
(* ===================================================================== *)

Module Samples.
Import JS.

(** A host whose ToNumber reads plain integers and whose dates are
    already in ISO form. *)
Definition host : Host :=
  {| toNumber := fun s =>
       match parseInt s with
       | Some z => PrimFloat.of_uint63 (Uint63.of_Z z)
       | None => PrimFloat.nan
       end;
     isoDate := fun s => Some s |}.

Definition traveller : BookingPage.User.t := BookingPage.User.mk 7 "Asha" "Rao".

Definition flight (price : float) : BookingPage.Flight.t :=
  BookingPage.Flight.mk "6E123" "2025-12-25" (Some price) None None.

(** /booking/new?flight=42&passengers=2&tier=ECONOMY_FLEX&price=6000 *)
Definition quoted : BookingPage.Props :=
  BookingPage.mkProps (Some "42") (Some "2") (Some "ECONOMY_FLEX")
    6000%float (Some traveller) false.

(** /booking/new?flight=42&passengers=2&tier=ECONOMY_FLEX *)
Definition unquoted : BookingPage.Props :=
  BookingPage.mkProps (Some "42") (Some "2") (Some "ECONOMY_FLEX")
    0%float (Some traveller) false.

(** /booking/new?flight=42&passengers=10&tier=ECONOMY&price=5000 *)
Definition tenPassengers : BookingPage.Props :=
  BookingPage.mkProps (Some "42") (Some "10") (Some "ECONOMY")
    5000%float (Some traveller) false.

Definition seat (i : Z) (n : string) (s : option float) : BookingPage.Seat.t :=
  BookingPage.Seat.mk i n "Window" s.

Definition card : BookingPage.CardDetails :=
  BookingPage.mkCard "4111 1111 1111 1111" "ASHA RAO" "12/30" "123".

Definition fillPassenger (i : nat) (n a g : string) : list BookingPage.Event :=
  [ BookingPage.PassengerChange i BookingPage.f_passenger_name n;
    BookingPage.PassengerChange i BookingPage.f_age a;
    BookingPage.PassengerChange i BookingPage.f_gender g ].

(** Load the flight, fill in two passengers, pick two seats, go to the
    review step. *)
Definition toReview : list BookingPage.Event :=
  [ BookingPage.FetchFlight (ApiOk (flight 5000%float));
    BookingPage.PrefillUser ]
  ++ fillPassenger 0 "Asha Rao" "30" "F"
  ++ fillPassenger 1 "Ravi Rao" "31" "M"
  ++ [ BookingPage.Next;
       BookingPage.SeatSelect [ seat 11 "1A" (Some 200%float); seat 12 "1B" None ];
       BookingPage.Next ].

(** ... and on to the payment step, with a card filled in. *)
Definition toPayment : list BookingPage.Event :=
  toReview ++ [ BookingPage.Next; BookingPage.SetCardDetails card ].

(** Ten passengers, ten seats, up to the payment step. *)
Definition tenToPayment : list BookingPage.Event :=
  [ BookingPage.FetchFlight (ApiOk (flight 5000%float)) ]
  ++ flat_map (fun i => fillPassenger i "Asha Rao" "30" "F") (seq 0 10)
  ++ [ BookingPage.Next;
       BookingPage.SeatSelect
         (map (fun i => seat (Z.of_nat i + 1) "1A" None) (seq 0 10));
       BookingPage.Next; BookingPage.Next;
       BookingPage.SetCardDetails card ].

Definition stateAfter (p : BookingPage.Props) (es : list BookingPage.Event)
    : BookingPage.State :=
  default (BookingPage.initialState p)
    (BookingPage.run (H := host) p (BookingPage.initialState p) es).

Definition reviewState : BookingPage.State := stateAfter quoted toReview.
Definition paymentState : BookingPage.State := stateAfter quoted toPayment.
Definition tenState : BookingPage.State := stateAfter tenPassengers tenToPayment.

(** Scenario S1 of the specification: Economy, 3 of 3 seats free, base
    fare 5000, demand index 10, departure in 72 hours. *)
Definition s1 : Backend.Snapshot :=
  Backend.mkSnapshot
    (fun t => match t with Backend.Economy => Some 5000%Q | _ => None end)
    (fun _ => 3%Z) (fun _ => 3%Z) 72%Q 10%Q.

(** One admissible choice of factor curves. *)
Definition f_inv (fill : Q) : Q := (1 + fill)%Q.
Definition f_time (hours : Q) : Q :=
  if Qlt_le_dec hours 24 then (15 # 10)%Q else 1%Q.
Definition f_demand (d : Q) : Q :=
  if Qlt_le_dec d 25 then 1%Q
  else if Qlt_le_dec d 50 then (115 # 100)%Q
  else if Qlt_le_dec d 75 then (135 # 100)%Q
  else (16 # 10)%Q.

(** Two flights at the same fare and the same times, fetched with the
    higher id first. *)
Definition flightNo (i : Z) : FlightsPage.Flight :=
  FlightsPage.mkFlight i (FlightsPage.AirlineString "IndiGo")
    1766635200000%float 1766642400000%float
    (Some (list_to_map [ ("ECONOMY"%string, 5000%float) ])) None None None.

Definition tied (key : string) : FlightsPage.State :=
  FlightsPage.mkState [ flightNo 2; flightNo 1 ] ∅ key "all".

(** The held booking behind the hold of [paymentState]. *)
Definition held : Backend.Booking :=
  Backend.mkBooking "BK-1" Backend.Held 12200%float None 900 None None.

End Samples.

(* ===================================================================== *)
(** * The cabin classes as the specification names them                   *)
(* ===================================================================== *)

Module Spec.

(** [before a b l]: an occurrence of [a] in [l] is followed, later in
    [l], by an occurrence of [b]. *)
Inductive before {A : Type} (a b : A) : list A -> Prop :=
| before_here l : In b l -> before a b (a :: l)
| before_later x l : before a b l -> before a b (x :: l).

(** The tier value a cabin class has in URLs and payloads. *)
Definition tierValue (t : Backend.Tier) : string :=
  match t with
  | Backend.Economy => "ECONOMY"
  | Backend.EconomyFlex => "ECONOMY_FLEX"
  | Backend.Business => "BUSINESS"
  | Backend.First => "FIRST"
  end.

(** [class_factor = {Economy: 1.0, EconomyFlex: 1.2, Business: 1.8,
    First: 2.5}], as Numbers. *)
Definition class_factor (t : Backend.Tier) : float :=
  match t with
  | Backend.Economy => 1.0
  | Backend.EconomyFlex => 1.2
  | Backend.Business => 1.8
  | Backend.First => 2.5
  end.

(** The sum of a list of Numbers, from the left. *)
Definition sumFrom (acc : float) (l : list float) : float :=
  fold_left PrimFloat.add l acc.

(** A seat's [surcharge || 0]. *)
Definition surchargeOf (s : BookingPage.Seat.t) : float :=
  JS.orNum (BookingPage.Seat.surcharge s) 0%float.

(** What every handler of the booking page keeps true: the surcharge cell
    is the surcharge of the selected seats, and from the review step on
    there are as many selected seats as passengers. *)
Record BookingInv (st : BookingPage.State) : Prop := mkBookingInv {
  inv_surcharge :
    BookingPage.seatSurcharge st
    = BookingPage.totalSurcharge (BookingPage.selectedSeats st);
  inv_seats :
    (3 <= BookingPage.currentStep st)%Z ->
    length (BookingPage.selectedSeats st) = length (BookingPage.passengers st)
}.

(** The tiers that have a class option on the flight-results page. *)
Definition resultTiers : list string :=
  map FlightsPage.value FlightsPage.SEAT_CLASSES.

(** The navbar state with another text in the PNR input. *)
Definition withInput {P} (st : Navbar.State P) (s : string) : Navbar.State P :=
  Navbar.mkState (Navbar.isPnrModalOpen st) s (Navbar.pnrStatus st)
    (Navbar.pnrLoading st) (Navbar.pnrError st).

(** What a PNR check sends and what it leaves to be shown. *)
Definition result {P} (out : Navbar.CheckOutcome P)
    : list string * option P * string * bool :=
  (Navbar.got out, Navbar.pnrStatus (Navbar.after out),
   Navbar.pnrError (Navbar.after out), Navbar.pnrLoading (Navbar.after out)).

End Spec.

(* ===================================================================== *)
(** * Create Hold (section 4.4.1 of the specification)                    *)
(* ===================================================================== *)

Module Hold.
Import JS.

Inductive SeatStatus := Available | SeatHeld | Sold.

(** Modelled from the spec: the seat row of section 3, with the fields
    the hold reads. *)
Record Seat := mkSeat {
  id : Z;
  class : Backend.Tier;
  surcharge : float;
  status : SeatStatus
}.

Inductive Error :=
| SeatUnavailable
| PriceChanged
| FlightNotBookable
| PassengerCountExceedsLimit
| InvalidTier.

(** Modelled from the spec: the tier a request names by its value. *)
Definition tierOf (seat_class : string) : option Backend.Tier :=
  find (fun t => String.eqb (Spec.tierValue t) seat_class)
    [ Backend.Economy; Backend.EconomyFlex; Backend.Business; Backend.First ].

Definition setHeld (i : Z) (seats : list Seat) : list Seat :=
  map (fun s => if (id s =? i)%Z
                then mkSeat (id s) (class s) (surcharge s) SeatHeld else s)
      seats.

(** Modelled from the spec: step 2 for requested seat ids, one after the
    other: the row must exist and be Available, and is then Held (so an
    id requested twice fails at its second occurrence).  The result
    lists the rows taken, in the order of the request. *)
Fixpoint holdRequested (seats : list Seat) (ids : list Z) : option (list Seat) :=
  match ids with
  | [] => Some []
  | i :: rest =>
      match find (fun s => (id s =? i)%Z) seats with
      | Some s =>
          match status s with
          | Available =>
              match holdRequested (setHeld i seats) rest with
              | Some taken => Some (s :: taken)
              | None => None
              end
          | _ => None
          end
      | None => None
      end
  end.

(** Modelled from the spec: step 2 when no seat is requested: the next
    Available seats of the tier, [seats] being in seat-number order. *)
Definition holdNext (seats : list Seat) (tier : Backend.Tier) (n : nat)
    : option (list Seat) :=
  let free :=
    List.filter
      (fun s => match status s with Available => true | _ => false end
                && String.eqb (Spec.tierValue (class s)) (Spec.tierValue tier))
      seats in
  if (n <=? length free)%nat then Some (take n free) else None.

(** Modelled from the spec: Create Hold
    (the backend booking route is not among the sources), after section
    4.4.1, for the request the booking page posts: the flight must be
    bookable, there are at most 9 passengers, the tier must exist; the
    seats the passengers request (or, if none is requested, the next
    free seats of the tier) are held; [unit_fare] is the fare the pricing
    engine gives at [now] (the request carries no quoted fare, so there
    is no price check); [total_fare = passengers * unit_fare + the sum
    of the held seats' surcharges]; the booking row is Held and expires
    15 minutes (900 seconds) after [now].  The result is the booking row
    and the seats held. *)
Definition createHold (seats : list Seat) (bookable : bool) (unit_fare : float)
    (now : Z) (reference : string) (body : BookingPage.Payload.booking)
    : Error + (Backend.Booking * list Seat) :=
  let passengers := BookingPage.Payload.passengers body in
  if negb bookable then inl FlightNotBookable
  else if (9 <? length passengers)%nat then inl PassengerCountExceedsLimit
  else
    match tierOf (BookingPage.Payload.seat_class body) with
    | None => inl InvalidTier
    | Some tier =>
        let requested := omap BookingPage.Payload.seat_id passengers in
        let taken :=
          match requested with
          | [] => holdNext seats tier (length passengers)
          | _ => holdRequested seats requested
          end in
        match taken with
        | None => inl SeatUnavailable
        | Some held =>
            let total_fare :=
              (ofNat (length passengers) * unit_fare
               + Spec.sumFrom 0 (map surcharge held))%float in
            inr (Backend.mkBooking reference Backend.Held total_fare None
                   (now + 900)%Z None None,
                 held)
        end
    end.

(** The seat rows behind the two seats of [Samples.toReview]. *)
Definition sampleRows : list Seat :=
  [ mkSeat 10 Backend.EconomyFlex 0 Available;
    mkSeat 11 Backend.EconomyFlex 200 Available;
    mkSeat 12 Backend.EconomyFlex 0 Available ].

End Hold.

(* ===================================================================== *)
(** * More of the pages: form handlers, search, filters, auth             *)
(* ===================================================================== *)

(** The inputs of the payment form of BookingPage (src/unnamed/part_004,
    lines 317-327 and 672-733). *)
Module BookingForms.
Import JS BookingPage.

(** [s.replace(/[^0-9]/gi, '')], also [s.replace(/\D/g, '')]. *)
Fixpoint keepDigits (s : string) : string :=
  match s with
  | String c r => if isDigit c then String c (keepDigits r) else keepDigits r
  | EmptyString => EmptyString
  end.

(** Whether every character is a digit. *)
Fixpoint allDigits (s : string) : bool :=
  match s with
  | String c r => isDigit c && allDigits r
  | EmptyString => true
  end.

(** The digits a string starts with. *)
Fixpoint digitRun (s : string) : string :=
  match s with
  | String c r => if isDigit c then String c (digitRun r) else EmptyString
  | EmptyString => EmptyString
  end.

(** The first match of [/\d{4,16}/]: at the leftmost position where at
    least four digits follow, as many of them as there are, up to
    sixteen. *)
Fixpoint firstMatch (s : string) : option string :=
  let run := digitRun s in
  if (4 <=? String.length run)%nat then Some (substring 0 16 run)
  else
    match s with
    | String _ r => firstMatch r
    | EmptyString => None
    end.

(** The loop [for (i = 0; i < len; i += 4) parts.push(match.substring(i,
    i + 4))]. *)
Fixpoint parts (m : string) : list string :=
  match m with
  | String a (String b (String c (String d r))) =>
      String a (String b (String c (String d EmptyString))) :: parts r
  | EmptyString => []
  | _ => [m]
  end.

(** [formatCardNumber]. *)
Definition formatCardNumber (value : string) : string :=
  let v := keepDigits (removeWhiteSpace value) in
  let matched := default EmptyString (firstMatch v) in
  match parts matched with
  | [] => v
  | ps => String.concat " " ps
  end.

(** The [onChange] of the expiry input. *)
Definition formatExpiry (value : string) : string :=
  let v := keepDigits value in
  if (2 <=? String.length v)%nat then
    substring 0 2 v +:+ "/" +:+ substring 2 2 v
  else v.

(** The [onChange] of the CVV input. *)
Definition formatCvv (value : string) : string :=
  substring 0 4 (keepDigits value).

(** The four [onChange] handlers of the card form, on the typed text. *)
Definition changeCardNumber (st : State) (value : string) : State :=
  let prev := cardDetails st in
  setCardDetails st
    (mkCard (formatCardNumber value) (name prev) (expiry prev) (cvv prev)).
Definition changeCardName (st : State) (value : string) : State :=
  let prev := cardDetails st in
  setCardDetails st
    (mkCard (number prev) (toUpperCase value) (expiry prev) (cvv prev)).
Definition changeExpiry (st : State) (value : string) : State :=
  let prev := cardDetails st in
  setCardDetails st
    (mkCard (number prev) (name prev) (formatExpiry value) (cvv prev)).
Definition changeCvv (st : State) (value : string) : State :=
  let prev := cardDetails st in
  setCardDetails st
    (mkCard (number prev) (name prev) (expiry prev) (formatCvv value)).

(** The card form after its four inputs have received the given texts. *)
Definition fillCard (st : State) (num nm ex cv : string) : State :=
  changeCvv (changeExpiry (changeCardName (changeCardNumber st num) nm) ex) cv.

(** The three checks the step-1 loop of [validateStep] makes on one
    passenger, as one test. *)
Definition passengerOk `{Host} (p : Passenger) : bool :=
  negb (isEmpty (trim (passenger_name p)))
  && negb (isEmpty (age p)
           || PrimFloat.ltb (toNumber (age p)) 1%float
           || PrimFloat.ltb 120%float (toNumber (age p)))
  && negb (isEmpty (gender p)).

(** The three messages the loop can set for passenger number [n]. *)
Definition passengerMessages (n : nat) : list string :=
  [ "Please enter name for Passenger " +:+ pretty n;
    "Please enter valid age for Passenger " +:+ pretty n;
    "Please select gender for Passenger " +:+ pretty n ].

(** The two effects of the page, as opposed to the handlers of the form
    (lines 111-147 and 163-174). *)
Definition isEffect (e : Event) : bool :=
  match e with
  | FetchFlight _ | PrefillUser => true
  | _ => false
  end.

End BookingForms.

(** The search form and the class buttons of FlightsPage
    (src/frontend/src/pages/FlightsPage.jsx, lines 62-101 and 151-154). *)
Module FlightsSearch.
Import JS FlightsPage.

(** [handleClassSelect]: [{ ...prev, [flightId]: tier }]. *)
Definition handleClassSelect (st : State) (flightId : Z) (tier : string) : State :=
  mkState (flights st) (<[flightId := tier]> (selectedClasses st))
    (sortBy st) (filterAirline st).

(** The page: the search form cells, the request cells, and the cells the
    result list is computed from. *)
Record Page := mkPage {
  origin : string;
  destination : string;
  date : string;
  passengers : Z;
  loading : bool;
  error : string;
  searched : bool;
  results : State
}.

(** The object given to [URLSearchParams], key by key. *)
Definition searchParams (pg : Page) : list (string * string) :=
  [ ("origin"%string, origin pg); ("destination"%string, destination pg) ]
  ++ (if isEmpty (date pg) then [] else [ ("date"%string, date pg) ])
  ++ [ ("passengers"%string, pretty (passengers pg));
       ("tier"%string, "all"%string) ].

(** The [forEach] that selects ECONOMY for every fetched flight. *)
Definition initialClasses (data : list Flight) : gmap Z string :=
  foldl (fun m f => <[id f := "ECONOMY"%string]> m) ∅ data.

Record SearchOutcome := mkOutcome {
  after : Page;
  requested : list (list (string * string));
  navigated : list (list (string * string))
}.

(** [handleSearch], with the awaited response given. *)
Definition handleSearch (pg : Page) (r : ApiResult (list Flight)) : SearchOutcome :=
  if isEmpty (origin pg) || isEmpty (destination pg) then
    mkOutcome
      (mkPage (origin pg) (destination pg) (date pg) (passengers pg)
         (loading pg) "Please select origin and destination" (searched pg)
         (results pg))
      [] []
  else
    let params := searchParams pg in
    match r with
    | ApiOk data =>
        mkOutcome
          (mkPage (origin pg) (destination pg) (date pg) (passengers pg)
             false "" true
             (mkState data (initialClasses data) (sortBy (results pg))
                (filterAirline (results pg))))
          [params] [params]
    | ApiErr d =>
        mkOutcome
          (mkPage (origin pg) (destination pg) (date pg) (passengers pg)
             false (orStr d "Failed to search flights") true
             (mkState [] (selectedClasses (results pg)) (sortBy (results pg))
                (filterAirline (results pg))))
          [params] []
    end.

End FlightsSearch.

(** The home search form (src/frontend/src/components/home/
    FlightSearchForm.jsx, lines 10-60) and the way the results page reads
    its URL (FlightsPage.jsx, lines 22-60 and 376-380). *)
Module HomeForm.
Import JS.

(** [formData]; the passenger count is kept as the text it has in the
    URL ([1] at first, then the value of the chosen option). *)
Record FormData := mkForm {
  origin : string;
  destination : string;
  date : string;
  passengers : string;
  tripType : string;
  travelClass : string
}.

Definition initialForm : FormData := mkForm "" "" "" "1" "oneway" "ECONOMY".

(** The [name] of a form control. *)
Inductive Name := n_origin | n_destination | n_date | n_passengers | n_travelClass.

(** [handleChange]: [{ ...prev, [name]: value }]. *)
Definition handleChange (prev : FormData) (name : Name) (value : string) : FormData :=
  match name with
  | n_origin =>
      mkForm value (destination prev) (date prev) (passengers prev)
        (tripType prev) (travelClass prev)
  | n_destination =>
      mkForm (origin prev) value (date prev) (passengers prev)
        (tripType prev) (travelClass prev)
  | n_date =>
      mkForm (origin prev) (destination prev) value (passengers prev)
        (tripType prev) (travelClass prev)
  | n_passengers =>
      mkForm (origin prev) (destination prev) (date prev) value
        (tripType prev) (travelClass prev)
  | n_travelClass =>
      mkForm (origin prev) (destination prev) (date prev) (passengers prev)
        (tripType prev) value
  end.

(** [swapLocations]. *)
Definition swapLocations (prev : FormData) : FormData :=
  mkForm (destination prev) (origin prev) (date prev) (passengers prev)
    (tripType prev) (travelClass prev).

(** The query [handleSubmit] navigates to [/flights] with. *)
Definition submitParams (formData : FormData) : list (string * string) :=
  [ ("origin", origin formData);
    ("destination", destination formData);
    ("date", date formData);
    ("passengers", passengers formData);
    ("tier", travelClass formData) ]%string.

End HomeForm.

Module FlightsUrl.
Import JS FlightsPage FlightsSearch.

(** [searchParams.get(key)]. *)
Fixpoint get (key : string) (query : list (string * string)) : option string :=
  match query with
  | [] => None
  | (k, v) :: rest => if String.eqb k key then Some v else get key rest
  end.

(** [parseInt(searchParams.get('passengers')) || 1]: a missing parameter
    reads as the text [null]. *)
Definition passengersOf (query : list (string * string)) : Z :=
  match parseInt (default "null"%string (get "passengers" query)) with
  | Some z => if (z =? 0)%Z then 1%Z else z
  | None => 1%Z
  end.

(** The [useState] initialisers of the results page for a query. *)
Definition fromUrl (query : list (string * string)) : Page :=
  mkPage (orStr (get "origin" query) "") (orStr (get "destination" query) "")
    (orStr (get "date" query) "") (passengersOf query)
    false "" false (mkState [] ∅ "price" "all").

(** Whether the mount effect runs [handleSearch]. *)
Definition autoSearches (query : list (string * string)) : bool :=
  negb (BookingPage.isFalsyStr (get "origin" query))
  && negb (BookingPage.isFalsyStr (get "destination" query)).

(** The Book button of a flight card navigates to
    [/booking/new?flight=..&passengers=..&tier=..&price=..], a template
    literal that is not escaped; the booking page reads the query back.
    The three definitions below say what each kind of value reads back
    as, and give [None] where the text carries a character the query
    changes and the result is not modelled. *)

(** An integer Number: its text is its decimal form below 1e21. *)
Definition intText (n : Z) : option string :=
  if (Z.abs n <? 10 ^ 21)%Z then Some (pretty n) else None.

(** A string of letters, digits and underscores is read back as it is. *)
Definition plainChar (c : ascii) : bool :=
  let n := nat_of_ascii c in
  ((48 <=? n) && (n <=? 57) || (65 <=? n) && (n <=? 90)
   || (97 <=? n) && (n <=? 122) || (n =? 95))%nat.

Definition plainText (s : string) : option string :=
  if forallb plainChar (list_ascii_of_string s) then Some s else None.

(** [parseFloat] of the text of a Number.  Both zeros are written [0];
    below 1e21 in magnitude the text is a decimal, with a negative
    exponent when it is small, and reads back as the same Number, as do
    [Infinity], [-Infinity] and [NaN].  A finite Number of magnitude 1e21
    or more is written with [e+]; the query decodes the sign as a space
    and [parseFloat] stops there, which is not modelled. *)
Definition priceRead (x : float) : option float :=
  if PrimFloat.eqb x 0%float then Some 0%float
  else if PrimFloat.ltb (PrimFloat.abs x) 1e21%float then Some x
  else if PrimFloat.ltb (PrimFloat.abs x) PrimFloat.infinity then None
  else Some x.

(** The booking page as the Book button of a flight card opens it
    (lines 290-291 and 378). *)
Definition bookingProps (pg : Page) (flight : Flight)
    (user : option BookingPage.User.t) (authLoading : bool)
    : option BookingPage.Props :=
  let selectedTier := selectedTier (results pg) flight in
  let selectedPrice := getFlightPrice flight selectedTier in
  flightText ← intText (id flight);
  passengersText ← intText (passengers pg);
  tierText ← plainText selectedTier;
  price ← priceRead selectedPrice;
  Some (BookingPage.mkProps (Some flightText) (Some passengersText)
          (Some tierText) price user authLoading).

End FlightsUrl.

(** The list and the buttons of MyBookingsPage
    (src/frontend/src/pages/MyBookingsPage.jsx, lines 104-107 and
    239-279). *)
Module MyBookingsView.
Import JS MyBookingsPage.

Definition lowerChar (c : ascii) : ascii :=
  let n := nat_of_ascii c in
  if ((65 <=? n)%nat && (n <=? 90)%nat) then ascii_of_nat (n + 32) else c.

(** [String.prototype.toLowerCase]. *)
Fixpoint toLowerCase (s : string) : string :=
  match s with
  | String c r => String (lowerChar c) (toLowerCase r)
  | EmptyString => EmptyString
  end.

(** [booking.status?.toLowerCase() === s]. *)
Definition statusIs (b : Booking) (s : string) : bool :=
  match status b with
  | Some t => String.eqb (toLowerCase t) s
  | None => false
  end.

(** [filteredBookings]. *)
Definition filteredBookings (st : State) : list Booking :=
  List.filter
    (fun booking =>
       if String.eqb (filter st) "all" then true
       else statusIs booking (filter st))
    (bookings st).

(** Whether a booking card shows the Cancel button, the Download button. *)
Definition offersCancel (b : Booking) : bool :=
  statusIs b "confirmed" || statusIs b "pending".
Definition offersDownload (b : Booking) : bool := statusIs b "confirmed".

Definition setFilter (st : State) (v : string) : State :=
  mkState (bookings st) (loading st) (error st) v (cancellingId st)
    (downloadingId st).

End MyBookingsView.

(** The PNR modal of the navbar (src/unnamed/part_007, lines 68-73 and
    the input's [onChange]). *)
Module NavbarModal.
Import JS Navbar.

(** [onChange={(e) => setPnrInput(e.target.value.toUpperCase())}]. *)
Definition changePnrInput {P} (st : State P) (value : string) : State P :=
  mkState (isPnrModalOpen st) (toUpperCase value) (pnrStatus st)
    (pnrLoading st) (pnrError st).

(** [closePnrModal]. *)
Definition closePnrModal {P} (st : State P) : State P :=
  mkState false "" None (pnrLoading st) "".

End NavbarModal.

(** AuthContext (src/unnamed/part_000) and the interceptors of the API
    client (src/unnamed/part_001). *)
Module Auth.
Import JS.

Record User := mkUser { email : string; role : string }.

(** The provider's state cells. *)
Record State := mkState {
  user : option User;
  token : option string;
  loading : bool
}.

(** The provider together with [localStorage]'s [token] entry. *)
Record World := mkWorld {
  ctx : State;
  stored : option string
}.

(** The [useState] initialisers: the token cell starts as the stored
    token. *)
Definition initial (storedToken : option string) : World :=
  mkWorld (mkState None storedToken true) storedToken.

(** [initAuth], with the awaited [/auth/me] response given. *)
Definition initAuth (w : World) (r : ApiResult User) : World :=
  let storedToken := stored w in
  if BookingPage.isFalsyStr storedToken then
    mkWorld (mkState (user (ctx w)) (token (ctx w)) false) (stored w)
  else
    match r with
    | ApiOk data => mkWorld (mkState (Some data) storedToken false) (stored w)
    | ApiErr _ => mkWorld (mkState None None false) None
    end.

(** The request interceptor: the [Authorization] header of the outgoing
    request, given the one the caller set. *)
Definition requestAuthorization (storedToken : option string)
    (callerHeader : option string) : option string :=
  match storedToken with
  | Some t => if isEmpty t then callerHeader else Some ("Bearer " +:+ t)
  | None => callerHeader
  end.

(** The response interceptor's error branch: what it leaves stored, given
    [error.code] and [error.response?.status]. *)
Definition onResponseError (code : option string) (status : option Z)
    (storedToken : option string) : option string :=
  if bool_decide (code = Some "ECONNABORTED"%string) then storedToken
  else if bool_decide (code = Some "ERR_NETWORK"%string) then storedToken
  else if bool_decide (status = Some 401%Z) then None
  else storedToken.

(** A rejected request as the response interceptor and then the caller's
    [catch] see it: [error.code], [error.response?.status] and
    [error.response?.data?.detail]. *)
Record Rejection := mkRejection {
  code : option string;
  status : option Z;
  detail : option string
}.

(** The outcome of an awaited request of [api]. *)
Inductive Reply (A : Type) : Type :=
| Fulfilled (data : A)
| Rejected (e : Rejection).
Arguments Fulfilled {A} data.
Arguments Rejected {A} e.

(** The world once the response interceptor has seen a rejection: it
    runs before the [catch] of the caller. *)
Definition intercepted (w : World) (e : Rejection) : World :=
  mkWorld (ctx w) (onResponseError (code e) (status e) (stored w)).

(** What [login] returns. *)
Inductive LoginResult : Type :=
| LoginOk (u : User)
| LoginFailed (message : string).

(** [login], with the awaited response ([access_token] and user) given.
    A rejection passes through the response interceptor, then the
    [catch] builds the message. *)
Definition login (w : World) (r : Reply (string * User))
    : World * LoginResult :=
  match r with
  | Fulfilled (access_token, userData) =>
      (mkWorld (mkState (Some userData) (Some access_token) (loading (ctx w)))
         (Some access_token),
       LoginOk userData)
  | Rejected e =>
      (intercepted w e, LoginFailed (orStr (detail e) "Login failed"))
  end.

(** [logout]: the response of [/auth/logout] is ignored. *)
Definition logout (w : World) (r : ApiResult unit) : World :=
  mkWorld (mkState None None (loading (ctx w))) None.

(** [updateProfile]; a rejection passes through the response
    interceptor. *)
Definition updateProfile (w : World) (r : Reply User) : World :=
  match r with
  | Fulfilled data =>
      mkWorld (mkState (Some data) (token (ctx w)) (loading (ctx w))) (stored w)
  | Rejected e => intercepted w e
  end.

(** The argument of [hasRole]: one role or an array of roles. *)
Inductive Roles : Type :=
| OneRole (r : string)
| AnyOf (rs : list string).

(** [hasRole]. *)
Definition hasRole (st : State) (roles : Roles) : bool :=
  match user st with
  | None => false
  | Some u =>
      match roles with
      | AnyOf rs => bool_decide (role u ∈ rs)
      | OneRole r => String.eqb (role u) r
      end
  end.

Definition isAdmin (st : State) : bool := hasRole st (OneRole "admin").
Definition isAirlineStaff (st : State) : bool :=
  hasRole st (OneRole "airline_staff").
Definition isAirportAuthority (st : State) : bool :=
  hasRole st (OneRole "airport_authority").
Definition isStaff (st : State) : bool :=
  hasRole st (AnyOf [ "admin"; "airline_staff"; "airport_authority" ]%string).

(** [isAuthenticated]: [!!user && !!token]. *)
Definition isAuthenticated (st : State) : bool :=
  bool_decide (is_Some (user st)) && negb (BookingPage.isFalsyStr (token st)).

(** What can happen to the provider and the stored token. *)
Inductive Event : Type :=
| InitAuth (r : ApiResult User)
| Login (r : Reply (string * User))
| Logout (r : ApiResult unit)
| UpdateProfile (r : Reply User)
| ResponseError (code : option string) (status : option Z).

Definition step (w : World) (e : Event) : World :=
  match e with
  | InitAuth r => initAuth w r
  | Login r => fst (login w r)
  | Logout r => logout w r
  | UpdateProfile r => updateProfile w r
  | ResponseError code status =>
      intercepted w (mkRejection code status None)
  end.

Inductive reachable (storedToken : option string) : World -> Prop :=
| reach_init : reachable storedToken (initial storedToken)
| reach_step w e :
    reachable storedToken w -> reachable storedToken (step w e).

End Auth.

(* ===================================================================== *)
(** * Properties of the booking page                                      *)
(* ===================================================================== *)

Module BookingFacts.
Import JS BookingPage Spec.

Lemma fold_surcharge acc seats :
  fold_left (fun sum seat => (sum + orNum (Seat.surcharge seat) 0)%float)
    seats acc
  = sumFrom acc (map surchargeOf seats).
Proof.
  revert acc. induction seats as [|s seats IH]; intros acc; simpl.
  - reflexivity.
  - apply IH.
Qed.

Lemma length_delete_le {A} (l : list A) (i : nat) :
  (length (delete i l) <= length l)%nat.
Proof.
  revert i. induction l as [|x l IH]; intros [|i]; simpl; auto.
  specialize (IH i). lia.
Qed.

Lemma totalSurcharge_sum seats :
  totalSurcharge seats = sumFrom 0%float (map surchargeOf seats).
Proof. apply fold_surcharge. Qed.

Section WithHost.
Context `{Host}.
Variable p : Props.

Lemma validateStep_seats st :
  validateStep st = None -> currentStep st = 2%Z ->
  length (selectedSeats st) = length (passengers st).
Proof.
  unfold validateStep. intros Hv Hs. rewrite Hs in Hv. simpl in Hv.
  destruct (length (selectedSeats st) =? length (passengers st))%nat eqn:E;
    simpl in Hv; [ | discriminate ].
  now apply Nat.eqb_eq.
Qed.

Lemma enabled_step1 st e :
  enabled p st e = true ->
  match e with
  | AddPassenger | RemovePassenger _ | PassengerChange _ _ _ =>
      currentStep st = 1%Z
  | SeatSelect _ => currentStep st = 2%Z
  | _ => True
  end.
Proof.
  destruct e; simpl; intros He; try exact I;
    repeat (apply andb_true_iff in He; destruct He as [He ?]);
    repeat match goal with
           | E : (_ =? _)%Z = true |- _ => apply Z.eqb_eq in E
           end; congruence.
Qed.

Lemma handleSubmit_after st hold pay :
  let st' := after (handleSubmit p st hold pay) in
  currentStep st' = currentStep st /\ lockedPrice st' = lockedPrice st
  /\ passengers st' = passengers st /\ selectedSeats st' = selectedSeats st
  /\ seatSurcharge st' = seatSurcharge st.
Proof.
  unfold handleSubmit, caught.
  destruct (validateStep st); simpl; [ tauto | ].
  destruct (flight st), (user p); simpl; try tauto.
  destruct (isoDate _); simpl; [ | tauto ].
  destruct hold; simpl; [ | tauto ].
  destruct pay; simpl; tauto.
Qed.

Lemma prefillUser_frame st :
  let st' := prefillUser p st in
  currentStep st' = currentStep st
  /\ length (passengers st') = length (passengers st)
  /\ selectedSeats st' = selectedSeats st
  /\ seatSurcharge st' = seatSurcharge st.
Proof.
  unfold prefillUser. destruct (user p); simpl; [ | tauto ].
  destruct (passengers st) as [|p0 ps] eqn:Ep; simpl; [ now rewrite Ep | ].
  destruct (String.eqb _ _); simpl; [ tauto | now rewrite Ep ].
Qed.

Lemma step_preserves st e :
  enabled p st e = true -> BookingInv st -> BookingInv (step p st e).
Proof.
  intros He [Hs Hc]. pose proof (enabled_step1 st e He) as H1.
  destruct e; simpl in *.
  - (* FetchFlight *)
    unfold fetchFlight. destruct (isFalsyStr _); [ split; simpl; auto | ].
    destruct r; [ | split; simpl; auto ].
    destruct (PrimFloat.eqb _ _); split; simpl; auto.
  - (* PrefillUser *)
    destruct (prefillUser_frame st) as (E1 & E2 & E3 & E4).
    split; [ now rewrite E3, E4 | rewrite E1, E2, E3; exact Hc ].
  - (* AddPassenger *)
    unfold addPassenger. destruct (9 <=? _)%nat; split; simpl; auto; lia.
  - (* RemovePassenger *)
    unfold removePassenger. destruct (_ <=? 1)%nat; split; simpl; auto; lia.
  - (* PassengerChange *)
    unfold handlePassengerChange. split; simpl; auto. lia.
  - (* SeatSelect *)
    unfold handleSeatSelect. split; simpl; auto. lia.
  - split; simpl; auto.
  - split; simpl; auto.
  - split; simpl; auto.
  - split; simpl; auto.
  - (* Next *)
    unfold handleNext. destruct (validateStep st) eqn:Ev; [ split; simpl; auto | ].
    split; simpl; auto. intros H3.
    destruct (Z.eq_dec (currentStep st) 2%Z) as [E2|N2].
    + now apply validateStep_seats.
    + apply Hc. lia.
  - (* Back *)
    unfold handleBack. split; simpl; auto. intros H3. apply Hc. lia.
  - (* Submit *)
    destruct (handleSubmit_after st hold pay) as (E1 & _ & E3 & E4 & E5).
    split; [ now rewrite E5, E4 | rewrite E1, E3, E4; exact Hc ].
Qed.

Lemma reachable_inv st : reachable p st -> BookingInv st.
Proof.
  induction 1 as [|st e _ IH He].
  - split; simpl; [ reflexivity | lia ].
  - now apply step_preserves.
Qed.

Lemma run_reachable es : forall st st',
  reachable p st -> run p st es = Some st' -> reachable p st'.
Proof.
  induction es as [|e es IH]; simpl; intros st st' Hr Hrun.
  - now inversion Hrun; subst.
  - destruct (enabled p st e) eqn:He; [ | discriminate ].
    eapply IH; [ | exact Hrun ]. now constructor.
Qed.

Lemma step_lockedPrice st e :
  PrimFloat.eqb (urlPrice p) 0%float = false ->
  lockedPrice (step p st e) = lockedPrice st.
Proof.
  intros Hq. destruct e; simpl; try reflexivity.
  - unfold fetchFlight. destruct (isFalsyStr _); [ reflexivity | ].
    destruct r; [ | reflexivity ]. now rewrite Hq.
  - unfold prefillUser. destruct (user p), (passengers st); try reflexivity.
    now destruct (String.eqb _ _).
  - unfold addPassenger. now destruct (9 <=? _)%nat.
  - unfold removePassenger. now destruct (_ <=? 1)%nat.
  - unfold handleNext. now destruct (validateStep st).
  - now destruct (handleSubmit_after st hold pay) as (_ & E & _).
Qed.

Lemma lockedPrice_frozen st :
  PrimFloat.eqb (urlPrice p) 0%float = false ->
  reachable p st -> lockedPrice st = urlPrice p.
Proof.
  intros Hq. induction 1 as [|st e _ IH _]; [ reflexivity | ].
  now rewrite step_lockedPrice.
Qed.

Lemma handleSubmit_payment st hold pay body :
  In (PostPayments body) (requests (handleSubmit p st hold pay)) ->
  exists booking, hold = ApiOk booking /\ body = paymentPayload booking st.
Proof.
  unfold handleSubmit.
  destruct (validateStep st); simpl; [ tauto | ].
  destruct (flight st), (user p); simpl; try tauto.
  destruct (isoDate _); simpl; [ | tauto ].
  destruct hold as [booking|d]; simpl.
  - destruct pay; simpl; intros [E|[E|[]]]; try discriminate;
      inversion E; subst; now exists booking.
  - intros [E|[]]; discriminate.
Qed.

Lemma handleSubmit_booking st hold pay body :
  In (PostBookings body) (requests (handleSubmit p st hold pay)) ->
  exists u f d, body = bookingPayload u f d p st.
Proof.
  unfold handleSubmit.
  destruct (validateStep st); simpl; [ tauto | ].
  destruct (flight st) as [f|], (user p) as [u|]; simpl; try tauto.
  destruct (isoDate _) as [d|]; simpl; [ | tauto ].
  destruct hold as [booking|dd]; simpl.
  - destruct pay; simpl; intros [E|[E|[]]]; try discriminate;
      inversion E; subst; now exists u, f, d.
  - intros [E|[]]; inversion E; subst; now exists u, f, d.
Qed.

(** No handler other than a successful add or remove changes how many
    passengers there are. *)
Lemma step_passenger_count st e :
  length (passengers (step p st e)) <> length (passengers st) ->
  selectedSeats (step p st e) = [] /\ seatSurcharge (step p st e) = 0%float.
Proof.
  destruct e; simpl; try congruence.
  - unfold fetchFlight. destruct (isFalsyStr _); simpl; [ congruence | ].
    destruct r; simpl; [ | congruence ].
    destruct (PrimFloat.eqb _ _); simpl; congruence.
  - destruct (prefillUser_frame st) as (_ & E & _). congruence.
  - unfold addPassenger. destruct (9 <=? _)%nat; simpl; [ congruence | auto ].
  - unfold removePassenger. destruct (_ <=? 1)%nat; simpl; [ congruence | auto ].
  - unfold handlePassengerChange; simpl. rewrite length_alter. congruence.
  - unfold handleNext. destruct (validateStep st); simpl; congruence.
  - destruct (handleSubmit_after st hold pay) as (_ & _ & E & _). congruence.
Qed.

End WithHost.

Lemma pay_confirmed b now amount ok txn new_pnr b' :
  Backend.pay b now amount ok txn new_pnr = (b', None) ->
  Backend.status b' = Backend.Confirmed
  /\ Backend.paid_amount b' = Some amount
  /\ Backend.total_fare b' = Backend.total_fare b
  /\ Backend.booking_reference b' = Backend.booking_reference b.
Proof.
  unfold Backend.pay.
  destruct (Backend.status b); try discriminate;
    destruct (_ <=? _)%Z; try discriminate;
    destruct (PrimFloat.leb _ _); simpl; try discriminate;
    destruct ok; simpl; try discriminate;
    intros E; inversion E; subst; simpl; auto.
Qed.

End BookingFacts.

Module BookingTheorems.
Import JS BookingPage Spec BookingFacts.

Lemma float_mul_comm (x y : float) : (x * y = y * x)%float.
Proof.
  rewrite <- (FloatAxioms.SF2Prim_Prim2SF (x * y)),
    <- (FloatAxioms.SF2Prim_Prim2SF (y * x)).
  rewrite !FloatAxioms.mul_spec. unfold FloatAxioms.SF64mul. f_equal.
  destruct (FloatOps.Prim2SF x) as [sx|sx| |sx mx ex],
    (FloatOps.Prim2SF y) as [sy|sy| |sy my ey]; simpl;
    try reflexivity; rewrite ?(xorb_comm sx sy); try reflexivity.
  now rewrite (Pos.mul_comm mx my), (Z.add_comm ex ey).
Qed.

(** The rows taken for requested ids carry these ids, in order. *)
Lemma holdRequested_ids (ids : list Z) :
  forall seats taken,
    Hold.holdRequested seats ids = Some taken -> map Hold.id taken = ids.
Proof.
  induction ids as [|i ids IH]; intros seats taken; simpl.
  - intros E. now inversion E.
  - destruct (find _ seats) as [s|] eqn:Ef; [ | discriminate ].
    destruct (Hold.status s); try discriminate.
    destruct (Hold.holdRequested _ ids) as [rest|] eqn:Er; [ | discriminate ].
    intros E. inversion E; subst taken. simpl.
    apply find_some in Ef. destruct Ef as [_ Ei]. apply Z.eqb_eq in Ei.
    rewrite Ei. f_equal. eapply IH, Er.
Qed.

(** The seat ids the posted passengers request are the selected seats'
    ids, when there is one selected seat per passenger and no id is 0. *)
Lemma requested_seat_ids (ps : list Passenger) :
  forall (ids : list Z) (g : nat -> option Z),
    length ids = length ps ->
    (forall k i, ids !! k = Some i -> g k = Some i) ->
    omap Payload.seat_id
      (imap (fun idx q =>
               Payload.mkPassenger (passenger_name q) (parseInt (age q))
                 (gender q) (g idx)) ps)
    = ids.
Proof.
  induction ps as [|q ps IH]; intros ids g Hl Hg.
  - destruct ids; [ reflexivity | discriminate ].
  - destruct ids as [|i ids]; [ discriminate | ]. simpl.
    rewrite (Hg 0%nat i eq_refl). simpl. f_equal.
    apply (IH ids (fun k => g (S k))); [ simpl in Hl; lia | ].
    intros k j Hk. now apply (Hg (S k) j).
Qed.

Lemma seatIdAt_lookup (ids : list Z) (k : nat) (i : Z) :
  Forall (fun j => j <> 0%Z) ids -> ids !! k = Some i ->
  seatIdAt ids k = Some i.
Proof.
  intros Hall Hk. unfold seatIdAt. rewrite Hk.
  rewrite Forall_forall in Hall.
  destruct (Z.eqb_spec i 0) as [->|_]; [ | reflexivity ].
  exfalso. apply (Hall 0%Z); [ | reflexivity ].
  eapply list_elem_of_lookup_2, Hk.
Qed.

(** C2: the total the booking page shows is, in every state, the
    per-passenger fare times the number of passengers plus the sum of the
    surcharges of the selected seats (each read as [surcharge || 0]), and
    nothing else; from the review step on there are as many selected
    seats as passengers.  The total charged is not this Number: the page
    posts the passengers and seat ids, and pays the [total_fare] of the
    hold.  For a hold created as the specification says, the amount the
    page pays, and the [paid_amount] of the booking it confirms, is the
    number of passengers on the page times the unit fare plus the sum of
    the surcharges of the seats held, which are the seats selected on
    the page; it is the total shown when the unit fare is the page's
    per-passenger fare and the seats carry the surcharges shown. *)
Theorem C2_total_is_fare_times_passengers_plus_surcharges
    `{Host} (p : Props) (st : State) :
  reachable p st ->
  totalPrice st
  = (lockedPrice st * ofNat (length (passengers st))
     + sumFrom 0 (map surchargeOf (selectedSeats st)))%float
  /\ ((3 <= currentStep st)%Z ->
      length (map surchargeOf (selectedSeats st)) = length (passengers st))
  /\ forall seats bookable unit_fare now reference pay first body booking held,
       requests (handleSubmit p st (ApiOk (Backend.holdResponse booking)) pay)
       = [ PostBookings first; PostPayments body ] ->
       Hold.createHold seats bookable unit_fare now reference first
       = inr (booking, held) ->
       Payload.amount body
       = (ofNat (length (passengers st)) * unit_fare
          + sumFrom 0 (map Hold.surcharge held))%float
       /\ (forall now' ok txn new_pnr b',
             Backend.pay booking now' (Payload.amount body) ok txn new_pnr
             = (b', None) ->
             Backend.paid_amount b'
             = Some (ofNat (length (passengers st)) * unit_fare
                     + sumFrom 0 (map Hold.surcharge held))%float)
       /\ ((3 <= currentStep st)%Z ->
           Forall (fun s => Seat.id s <> 0%Z) (selectedSeats st) ->
           map Hold.id held = map Seat.id (selectedSeats st))
       /\ (unit_fare = lockedPrice st ->
           map Hold.surcharge held = map surchargeOf (selectedSeats st) ->
           Payload.amount body = totalPrice st).
Proof.
  intros Hr. destruct (reachable_inv p st Hr) as [Hs Hc].
  assert (Hshown : totalPrice st
                   = (lockedPrice st * ofNat (length (passengers st))
                      + sumFrom 0 (map surchargeOf (selectedSeats st)))%float).
  { unfold totalPrice, baseTotalPrice, tierPrice.
    now rewrite Hs, totalSurcharge_sum. }
  split; [ exact Hshown | ]. split.
  { intros H3. rewrite length_map. now apply Hc. }
  intros seats bookable unit_fare now reference pay first body booking held
    Hrq Hhold.
  assert (Hfirst : exists u f d, first = bookingPayload u f d p st).
  { apply (handleSubmit_booking p st (ApiOk (Backend.holdResponse booking)) pay).
    rewrite Hrq. now left. }
  assert (Hbody : body = paymentPayload (Backend.holdResponse booking) st).
  { destruct (handleSubmit_payment p st (ApiOk (Backend.holdResponse booking))
                pay body) as (b0 & E0 & Eb).
    - rewrite Hrq. right. now left.
    - inversion E0; subst b0. exact Eb. }
  destruct Hfirst as (u & f & d & ->). subst body.
  unfold Hold.createHold in Hhold.
  destruct (negb bookable); [ discriminate | ].
  destruct (9 <? _)%nat; [ discriminate | ].
  destruct (Hold.tierOf _) as [tier|]; [ | discriminate ].
  cbn [Payload.passengers bookingPayload] in Hhold.
  rewrite length_imap in Hhold.
  remember (omap Payload.seat_id
              (imap (fun idx q =>
                       Payload.mkPassenger (passenger_name q) (parseInt (age q))
                         (gender q)
                         (seatIdAt (map Seat.id (selectedSeats st)) idx))
                    (passengers st))) as requested eqn:Ereq.
  destruct (match requested with
            | [] => Hold.holdNext seats tier (length (passengers st))
            | _ :: _ => Hold.holdRequested seats requested
            end) as [taken|] eqn:Et; [ | discriminate ].
  inversion Hhold; subst booking held. clear Hhold.
  assert (Hamount : Payload.amount
                      (paymentPayload
                         (Backend.holdResponse
                            (Backend.mkBooking reference Backend.Held
                               (ofNat (length (passengers st)) * unit_fare
                                + sumFrom 0 (map Hold.surcharge taken))
                               None (now + 900)%Z None None)) st)
                    = (ofNat (length (passengers st)) * unit_fare
                       + sumFrom 0 (map Hold.surcharge taken))%float)
    by reflexivity.
  split; [ exact Hamount | ]. split; [ | split ].
  - intros now' ok txn new_pnr b' Hpay.
    apply pay_confirmed in Hpay. destruct Hpay as (_ & Hp & _).
    now rewrite Hp, Hamount.
  - intros H3 Hnz.
    rewrite (requested_seat_ids (passengers st)
               (map Seat.id (selectedSeats st))
               (seatIdAt (map Seat.id (selectedSeats st)))) in Ereq.
    2: { rewrite length_map. now apply Hc. }
    2: { intros k i Hk. apply seatIdAt_lookup; [ | exact Hk ].
         apply List.Forall_map. exact Hnz. }
    subst requested.
    destruct (map Seat.id (selectedSeats st)) as [|i ids] eqn:Em.
    + assert (Hn : length (passengers st) = 0%nat).
      { rewrite <- (Hc H3), <- (length_map Seat.id), Em. reflexivity. }
      rewrite Hn in Et. unfold Hold.holdNext in Et. simpl in Et.
      inversion Et. reflexivity.
    + eapply holdRequested_ids, Et.
  - intros Hu Hsur. rewrite Hamount, Hshown, Hu, Hsur.
    now rewrite float_mul_comm.
Qed.

(** The payment step of a two-passenger booking at 6000 each, one seat
    with a surcharge of 200 and one without: 12200 is shown, and 12200 is
    paid for the hold the specification's backend creates. *)
Lemma C2_witness :
  totalPrice Samples.paymentState
  = (6000 * ofNat 2 + sumFrom 0 [200; 0])%float
  /\ Payload.amount
       (paymentPayload (Backend.holdResponse Samples.held) Samples.paymentState)
     = (ofNat 2 * 6000 + sumFrom 0 [200; 0])%float.
Proof.
  destruct (C2_total_is_fare_times_passengers_plus_surcharges
              (H := Samples.host) Samples.quoted Samples.paymentState)
    as (Hshown & _ & Hcharged).
  { apply (run_reachable (H := Samples.host) Samples.quoted Samples.toPayment
             (initialState Samples.quoted));
      [ constructor | vm_compute; reflexivity ]. }
  split; [ exact Hshown | ].
  refine (proj1 (Hcharged Hold.sampleRows true 6000%float 0%Z "BK-1"%string
                   (ApiErr None)
                   (bookingPayload Samples.traveller (Samples.flight 5000)
                      "2025-12-25" Samples.quoted Samples.paymentState)
                   (paymentPayload (Backend.holdResponse Samples.held)
                      Samples.paymentState)
                   Samples.held
                   [ Hold.mkSeat 11 Backend.EconomyFlex 200 Hold.Available;
                     Hold.mkSeat 12 Backend.EconomyFlex 0 Hold.Available ]
                   _ _)).
  - vm_compute. reflexivity.
  - vm_compute. reflexivity.
Defined.

(** C3: the tier price the booking page computes from a base price is the
    base price times the class factor: 1.0 for Economy, 1.2 for
    EconomyFlex, 1.8 for Business, 2.5 for First. *)
Theorem C3_tier_price_is_base_times_class_factor
    (b : float) (t : Backend.Tier) :
  computed b (Spec.tierValue t) = (b * Spec.class_factor t)%float.
Proof. destruct t; vm_compute; reflexivity. Qed.

(** When the URL carries no price, a loaded flight sets the locked price
    to the computed tier price. *)
Lemma fetch_locks_computed_price (p : Props) (st : State) (data : Flight.t) :
  isFalsyStr (flightId p) = false ->
  PrimFloat.eqb (urlPrice p) 0%float = true ->
  lockedPrice (fetchFlight p st (ApiOk data))
  = computed (basePrice data) (seatTier p).
Proof. intros Hf Hq. unfold fetchFlight. now rewrite Hf, Hq. Qed.

(** C1 (as amended): when the page is opened with a non-zero price in the
    URL, the per-passenger price stays that price in every state; when the
    URL carries no price (or 0), a loaded flight sets it to the flight's
    base price times the tier multiplier.  The payment request carries
    exactly the [total_fare] the hold returned, and a booking confirmed by
    that payment has [paid_amount] equal to the [total_fare] of the hold,
    which confirmation does not change. *)
Theorem C1_quoted_price_locked_and_hold_total_paid
    `{Host} (p : Props) (st : State) :
  reachable p st ->
  (PrimFloat.eqb (urlPrice p) 0%float = false -> lockedPrice st = urlPrice p)
  /\ (PrimFloat.eqb (urlPrice p) 0%float = true ->
      isFalsyStr (flightId p) = false ->
      forall data,
        lockedPrice (step p st (FetchFlight (ApiOk data)))
        = computed (basePrice data) (seatTier p))
  /\ forall booking pay body,
       In (PostPayments body)
          (requests (handleSubmit p st (ApiOk booking) pay)) ->
       Payload.amount body = Booking.total_fare booking
       /\ Payload.booking_reference body = Booking.booking_reference booking
       /\ forall b now ok txn new_pnr b',
            booking = Backend.holdResponse b ->
            Backend.pay b now (Payload.amount body) ok txn new_pnr = (b', None) ->
            Backend.status b' = Backend.Confirmed
            /\ Backend.paid_amount b' = Some (Backend.total_fare b)
            /\ Backend.total_fare b' = Backend.total_fare b.
Proof.
  intros Hr. split; [ intros Hq; now apply lockedPrice_frozen | ].
  split; [ intros Hq Hf data; now apply fetch_locks_computed_price | ].
  intros booking pay body Hin.
  destruct (handleSubmit_payment p st _ pay body Hin) as (bk & E & ->).
  inversion E; subst bk. simpl. split; [ reflexivity | ].
  split; [ reflexivity | ].
  intros b now ok txn new_pnr b' -> Hpay. simpl in Hpay.
  destruct (pay_confirmed _ _ _ _ _ _ _ Hpay) as (Hst & Hpaid & Htotal & _).
  auto.
Qed.

(** A two-passenger booking quoted at 6000 each: the price is still 6000
    at the payment step, the payment posted after a hold of 12200 is for
    12200, and the booking it confirms has 12200 paid. *)
Lemma C1_witness :
  lockedPrice Samples.paymentState = 6000%float
  /\ exists body b',
       requests (handleSubmit (H := Samples.host) Samples.quoted
                   Samples.paymentState
                   (ApiOk (Backend.holdResponse Samples.held))
                   (ApiErr None))
       = [ PostBookings
             (bookingPayload Samples.traveller (Samples.flight 5000)
                "2025-12-25" Samples.quoted Samples.paymentState);
           PostPayments body ]
       /\ Payload.amount body = 12200%float
       /\ Backend.pay Samples.held 100 (Payload.amount body) true "TXN-1" "K7M2QX"
          = (b', None)
       /\ Backend.paid_amount b' = Some 12200%float
       /\ Backend.total_fare b' = 12200%float.
Proof.
  assert (Hr : reachable (H := Samples.host) Samples.quoted Samples.paymentState).
  { apply (run_reachable (H := Samples.host) Samples.quoted Samples.toPayment
             (initialState Samples.quoted));
      [ constructor | vm_compute; reflexivity ]. }
  destruct (C1_quoted_price_locked_and_hold_total_paid
              (H := Samples.host) Samples.quoted Samples.paymentState Hr)
    as (Hl & _ & Hp).
  split; [ exact (Hl eq_refl) | ].
  exists (paymentPayload (Backend.holdResponse Samples.held) Samples.paymentState).
  eexists. split; [ vm_compute; reflexivity | ].
  split; [ reflexivity | ]. split; [ vm_compute; reflexivity | ].
  split; reflexivity.
Defined.

(** C1, as stated, fails: opened without a price in the URL, the page
    starts with the locked price 0 and, when the flight has loaded, sets
    it to a price it computes itself from the flight (5000 x 1.2), so the
    locked price is neither taken from the search results nor left
    unchanged. *)
Lemma C1_counterexample :
  reachable (H := Samples.host) Samples.unquoted
    (step (H := Samples.host) Samples.unquoted
       (initialState Samples.unquoted)
       (FetchFlight (ApiOk (Samples.flight 5000))))
  /\ lockedPrice (initialState Samples.unquoted) = 0%float
  /\ lockedPrice
       (step (H := Samples.host) Samples.unquoted
          (initialState Samples.unquoted)
          (FetchFlight (ApiOk (Samples.flight 5000))))
     = 6000%float
  /\ ~ (forall (st : State) (e : Event),
         reachable (H := Samples.host) Samples.unquoted st ->
         enabled Samples.unquoted st e = true ->
         lockedPrice (step (H := Samples.host) Samples.unquoted st e)
         = lockedPrice st).
Proof.
  split; [ apply reach_step; [ apply reach_init | reflexivity ] | ].
  split; [ reflexivity | ]. split; [ vm_compute; reflexivity | ].
  intros Hall.
  specialize (Hall (initialState Samples.unquoted)
                (FetchFlight (ApiOk (Samples.flight 5000)))
                (reach_init _) eq_refl).
  apply (f_equal (fun x => PrimFloat.eqb x 6000%float)) in Hall.
  vm_compute in Hall. discriminate.
Qed.

(** The guarded path of the passenger limit: [addPassenger] refuses a
    tenth passenger and leaves the list as it is. *)
Lemma addPassenger_refuses_tenth (st : State) :
  (9 <= length (passengers st))%nat ->
  passengers (addPassenger st) = passengers st
  /\ error (addPassenger st) = "Maximum 9 passengers allowed per booking".
Proof.
  intros H9. unfold addPassenger.
  destruct (9 <=? length (passengers st))%nat eqn:E; [ now split | ].
  apply Nat.leb_gt in E. lia.
Qed.

(** Started with at most nine passengers, the page never holds more. *)
Lemma passengers_bounded_from_bounded_start `{Host} (p : Props) (st : State) :
  (toLength (passengersCount p) <= 9)%Z ->
  reachable p st -> (length (passengers st) <= 9)%nat.
Proof.
  intros H0. induction 1 as [|st e _ IH _].
  - simpl. unfold arrayFrom. rewrite length_replicate.
    assert (0 <= toLength (passengersCount p))%Z.
    { unfold toLength. destruct (passengersCount p) as [z|]; [ | lia ].
      destruct (z <=? 0)%Z eqn:E; [ lia | ]. apply Z.leb_gt in E. lia. }
    lia.
  - destruct e; simpl; try exact IH.
    + unfold fetchFlight. destruct (isFalsyStr _); [ exact IH | ].
      destruct r; [ | exact IH ]. now destruct (PrimFloat.eqb _ _).
    + destruct (prefillUser_frame p st) as (_ & E & _). simpl in E. lia.
    + unfold addPassenger. destruct (9 <=? _)%nat eqn:E; simpl; [ exact IH | ].
      apply Nat.leb_gt in E. rewrite length_app. simpl. lia.
    + unfold removePassenger. destruct (_ <=? 1)%nat; simpl; [ exact IH | ].
      pose proof (length_delete_le (passengers st) index). lia.
    + unfold handlePassengerChange. simpl. now rewrite length_alter.
    + unfold handleNext. now destruct (validateStep st).
    + destruct (handleSubmit_after p st hold pay) as (_ & _ & E & _).
      now rewrite E.
Qed.

(** C4: the passenger count of the URL is not held to the limit.  Opened
    with [passengers=10] the page starts with ten passenger forms; adding
    one more is refused with the limit's message, but the ten remain, pass
    every step, and are posted as one booking. *)
Lemma C4_ten_passengers_from_url_are_booked :
  length (passengers (initialState Samples.tenPassengers)) = 10%nat
  /\ error (addPassenger (initialState Samples.tenPassengers))
     = "Maximum 9 passengers allowed per booking"
  /\ length (passengers (addPassenger (initialState Samples.tenPassengers)))
     = 10%nat
  /\ reachable (H := Samples.host) Samples.tenPassengers Samples.tenState
  /\ currentStep Samples.tenState = 4%Z
  /\ exists body rq,
       requests (handleSubmit (H := Samples.host) Samples.tenPassengers
                   Samples.tenState
                   (ApiOk (Backend.holdResponse Samples.held)) (ApiErr None))
       = [ PostBookings body; rq ]
       /\ length (Payload.passengers body) = 10%nat
       /\ length (Payload.selected_seat_ids body) = 10%nat.
Proof.
  split; [ vm_compute; reflexivity | ].
  split; [ vm_compute; reflexivity | ].
  split; [ vm_compute; reflexivity | ].
  split.
  { apply (run_reachable (H := Samples.host) Samples.tenPassengers
             Samples.tenToPayment (initialState Samples.tenPassengers));
      [ constructor | vm_compute; reflexivity ]. }
  split; [ vm_compute; reflexivity | ].
  eexists. eexists. split; [ vm_compute; reflexivity | ].
  split; vm_compute; reflexivity.
Qed.

(** C9: adding or removing a passenger that changes the list empties the
    seat selection and zeroes the surcharge; no handler changes the number
    of passengers without doing so; the surcharge in the total is always
    that of the current selection; and a posted booking carries as many
    selected seats as passengers, the seat of passenger [idx] being the
    [idx]-th selected one. *)
Theorem C9_seats_reset_with_passengers_and_one_seat_each
    `{Host} (p : Props) (st : State) :
  reachable p st ->
  (passengers (addPassenger st) <> passengers st ->
   selectedSeats (addPassenger st) = []
   /\ seatSurcharge (addPassenger st) = 0%float)
  /\ (forall index,
        passengers (removePassenger st index) <> passengers st ->
        selectedSeats (removePassenger st index) = []
        /\ seatSurcharge (removePassenger st index) = 0%float)
  /\ (forall e,
        length (passengers (step p st e)) <> length (passengers st) ->
        selectedSeats (step p st e) = []
        /\ seatSurcharge (step p st e) = 0%float)
  /\ totalPrice st
     = (baseTotalPrice st + totalSurcharge (selectedSeats st))%float
  /\ (forall hold pay body,
        enabled p st (Submit hold pay) = true ->
        In (PostBookings body) (requests (handleSubmit p st hold pay)) ->
        Payload.selected_seat_ids body = map Seat.id (selectedSeats st)
        /\ length (Payload.selected_seat_ids body) = length (passengers st)
        /\ length (Payload.passengers body) = length (passengers st)
        /\ forall idx pp,
             Payload.passengers body !! idx = Some pp ->
             Payload.seat_id pp
             = seatIdAt (Payload.selected_seat_ids body) idx).
Proof.
  intros Hr. destruct (reachable_inv p st Hr) as [Hs Hc].
  split; [ | split; [ | split; [ | split ] ] ].
  - unfold addPassenger. destruct (9 <=? _)%nat; simpl; [ congruence | auto ].
  - intros index. unfold removePassenger.
    destruct (_ <=? 1)%nat; simpl; [ congruence | auto ].
  - intros e. apply step_passenger_count.
  - unfold totalPrice. now rewrite Hs.
  - intros hold pay body He Hin.
    destruct (handleSubmit_booking p st hold pay body Hin) as (u & f & d & ->).
    simpl in He. apply andb_true_iff in He. destruct He as [_ He].
    apply negb_true_iff, Z.ltb_ge in He.
    assert (H3 : (3 <= currentStep st)%Z) by lia.
    specialize (Hc H3). unfold bookingPayload; simpl.
    split; [ reflexivity | ]. split; [ now rewrite length_map | ].
    split; [ now rewrite length_imap | ].
    intros idx pp Hpp. rewrite list_lookup_imap in Hpp.
    destruct (passengers st !! idx); simpl in Hpp; [ | discriminate ].
    now inversion Hpp.
Qed.

(** Adding a passenger on the loaded page leaves no seat selected, and
    at the payment step the total is the base total plus the surcharge of
    the two selected seats. *)
Lemma C9_witness :
  selectedSeats (step (H := Samples.host) Samples.quoted
                   (Samples.stateAfter Samples.quoted
                      [ FetchFlight (ApiOk (Samples.flight 5000)) ])
                   AddPassenger) = []
  /\ totalPrice Samples.paymentState
     = (baseTotalPrice Samples.paymentState
        + totalSurcharge (selectedSeats Samples.paymentState))%float.
Proof.
  split; [ vm_compute; reflexivity | ].
  apply (C9_seats_reset_with_passengers_and_one_seat_each
           (H := Samples.host) Samples.quoted Samples.paymentState).
  apply (run_reachable (H := Samples.host) Samples.quoted Samples.toPayment
           (initialState Samples.quoted));
    [ constructor | vm_compute; reflexivity ].
Defined.

End BookingTheorems.

(* ===================================================================== *)
(** * Properties of the pricing engine                                    *)
(* ===================================================================== *)

Module PricingTheorems.
Import Backend.

Lemma cap_above_floor (b : Q) : (0 < b)%Q -> (b <= 10 * b)%Q.
Proof. intros Hb. lra. Qed.

(** C5: for a tier with a positive base fare, every fare the pricing
    engine produces lies between the base fare and ten times the base
    fare, and the engine does produce a fare whenever the seat counts and
    the demand index are not negative. *)
Theorem C5_fare_between_floor_and_cap
    (f_inv f_time f_demand : Q -> Q) (s : Snapshot) (t : Tier) (b : Q) :
  base_fare s t = Some b ->
  (0 < b)%Q ->
  (forall fare,
      PricingEngine f_inv f_time f_demand s t = inr fare ->
      (b <= fare)%Q /\ (fare <= 10 * b)%Q)
  /\ ((0 <= seats_available s t)%Z -> (0 <= seats_total s t)%Z ->
      (0 <= demand_index s)%Q ->
      exists fare, PricingEngine f_inv f_time f_demand s t = inr fare).
Proof.
  intros Hb Hpos. unfold PricingEngine. rewrite Hb.
  destruct (Qlt_le_dec b 0) as [Hneg|_]; [ lra | ].
  split.
  - intros fare.
    destruct (seats_available s t <? 0)%Z; [ discriminate | ].
    destruct (seats_total s t <? 0)%Z; [ discriminate | ].
    destruct (Qlt_le_dec (demand_index s) 0); [ discriminate | ].
    destruct (Qlt_le_dec (hours_until_departure s) 0); intros E;
      inversion E; subst fare; clear E.
    + split; [ now apply cap_above_floor | apply Qle_refl ].
    + split; [ apply Q.le_max_r | ].
      apply Q.max_lub; [ apply Q.le_min_r | now apply cap_above_floor ].
  - intros Ha Ht Hd.
    destruct (seats_available s t <? 0)%Z eqn:Ea; [ apply Z.ltb_lt in Ea; lia | ].
    destruct (seats_total s t <? 0)%Z eqn:Et; [ apply Z.ltb_lt in Et; lia | ].
    destruct (Qlt_le_dec (demand_index s) 0); [ lra | ].
    destruct (Qlt_le_dec (hours_until_departure s) 0); eexists; reflexivity.
Qed.

(** Scenario S1 with one choice of curves: a fare is produced and lies
    between 5000 and 50000. *)
Lemma C5_witness :
  exists fare,
    PricingEngine Samples.f_inv Samples.f_time Samples.f_demand
      Samples.s1 Economy = inr fare
    /\ (5000 <= fare)%Q /\ (fare <= 10 * 5000)%Q.
Proof.
  destruct (C5_fare_between_floor_and_cap Samples.f_inv Samples.f_time
              Samples.f_demand Samples.s1 Economy 5000%Q eq_refl eq_refl)
    as [Hbounds Hruns].
  destruct (Hruns ltac:(simpl; lia) ltac:(simpl; lia) ltac:(discriminate))
    as [fare Hfare].
  exists fare. split; [ exact Hfare | ]. now apply Hbounds.
Defined.

End PricingTheorems.

(* ===================================================================== *)
(** * Properties of the cabin-class lists                                 *)
(* ===================================================================== *)

Module TierTheorems.
Import Spec.

(** C8 (as amended): every class option of the flight-results page is a
    tier the home search form offers; the form offers exactly one tier
    more, ECONOMY_FLEX, which has no class option on the results page. *)
Theorem C8_result_classes_are_offered_tiers_but_economy_flex :
  incl resultTiers FlightSearchForm.offeredTiers
  /\ (forall t : string,
        In t FlightSearchForm.offeredTiers
        <-> In t resultTiers \/ t = "ECONOMY_FLEX"%string).
Proof.
  split.
  - intros t Ht. cbn in Ht |- *. tauto.
  - intros t. cbn. split; intros Ht; intuition congruence.
Qed.

(** C8, as stated, fails: the search form offers ECONOMY_FLEX and the
    results page has no class option for it. *)
Lemma C8_counterexample :
  In "ECONOMY_FLEX"%string FlightSearchForm.offeredTiers
  /\ ~ In "ECONOMY_FLEX"%string resultTiers.
Proof.
  split; [ cbn; tauto | ].
  cbn. intros [E|[E|[E|[]]]]; discriminate.
Qed.

End TierTheorems.

(* ===================================================================== *)
(** * Properties of cancelling on the bookings page                       *)
(* ===================================================================== *)

Module CancelTheorems.
Import JS MyBookingsPage.

Lemma markCancelled_lookup (p : option string) (prev : list Booking) (i : nat) :
  markCancelled p prev !! i
  = (fun b => if bool_decide (pnr b = p) then withCancelled b else b)
      <$> prev !! i.
Proof. unfold markCancelled. apply list_lookup_fmap. Qed.

(** C7: a cancellation the user confirmed and the server accepted sets
    the status of the booking with that PNR to Cancelled and keeps its
    PNR, paid amount, total fare, tickets, reference and creation time; a
    booking with another PNR is left as it was, in its place; the other
    state cells of the page are as before.  Declined at the prompt, or
    refused by the server, it changes no booking. *)
Theorem C7_cancel_sets_status_and_nothing_else
    (st : State) (p : option string) :
  (let st' := after (handleCancelBooking st p true (ApiOk tt)) in
   length (bookings st') = length (bookings st)
   /\ (forall i b,
         bookings st !! i = Some b ->
         (pnr b = p ->
          exists b',
            bookings st' !! i = Some b'
            /\ status b' = Some "Cancelled"%string
            /\ pnr b' = pnr b
            /\ paid_amount b' = paid_amount b
            /\ total_fare b' = total_fare b
            /\ tickets b' = tickets b
            /\ booking_reference b' = booking_reference b
            /\ created_at b' = created_at b)
         /\ (pnr b <> p -> bookings st' !! i = Some b))
   /\ loading st' = loading st /\ error st' = error st
   /\ filter st' = filter st /\ downloadingId st' = downloadingId st
   /\ cancellingId st' = None)
  /\ (forall r, bookings (after (handleCancelBooking st p false r)) = bookings st)
  /\ (forall d,
        bookings (after (handleCancelBooking st p true (ApiErr d)))
        = bookings st).
Proof.
  split; [ | split; [ reflexivity | reflexivity ] ].
  simpl. split; [ unfold markCancelled; apply length_map | ].
  split; [ | repeat split ].
  intros i b Hb. rewrite markCancelled_lookup, Hb. simpl. split.
  - intros E. exists (withCancelled b).
    rewrite bool_decide_eq_true_2 by exact E. repeat split.
  - intros N. now rewrite bool_decide_eq_false_2 by exact N.
Qed.

(** Cancelling PNR K7M2QX among two bookings. *)
Example cancel_one_of_two :
  map status
    (bookings
       (after
          (handleCancelBooking
             (mkState
                [ mkBooking (Some "K7M2QX") (Some "Confirmed") None None
                    (Some 5000%float) (Some 5000%float) None;
                  mkBooking (Some "P4RT9Z") (Some "Confirmed") None None
                    (Some 7000%float) (Some 7000%float) None ]
                false "" "all" None None)
             (Some "K7M2QX") true (ApiOk tt))))
  = [ Some "Cancelled"; Some "Confirmed" ]%string.
Proof. reflexivity. Qed.

End CancelTheorems.

(* ===================================================================== *)
(** * Properties of the ordering of search results                        *)
(* ===================================================================== *)

Module SortTheorems.
Import JS FlightsPage.

Lemma before_split {A} (a b : A) (l : list A) :
  Spec.before a b l <-> exists l1 l2 l3, l = l1 ++ a :: l2 ++ b :: l3.
Proof.
  split.
  - induction 1 as [l Hin|x l _ IH].
    + apply in_split in Hin. destruct Hin as (l2 & l3 & ->).
      now exists [], l2, l3.
    + destruct IH as (l1 & l2 & l3 & ->). now exists (x :: l1), l2, l3.
  - intros (l1 & l2 & l3 & ->). induction l1 as [|x l1 IH]; simpl.
    + constructor. apply in_or_app. right. now left.
    + now constructor.
Qed.

(** A Number that is not NaN is negative, zero or positive, and only one
    of the three. *)
Lemma float_sign (v : float) :
  isNaN v = false ->
  (PrimFloat.ltb v 0 = true /\ PrimFloat.eqb v 0 = false /\ PrimFloat.ltb 0 v = false)
  \/ (PrimFloat.ltb v 0 = false /\ PrimFloat.eqb v 0 = true /\ PrimFloat.ltb 0 v = false)
  \/ (PrimFloat.ltb v 0 = false /\ PrimFloat.eqb v 0 = false /\ PrimFloat.ltb 0 v = true).
Proof.
  unfold isNaN. rewrite !FloatAxioms.eqb_spec, !FloatAxioms.ltb_spec.
  change (FloatOps.Prim2SF 0%float) with (SpecFloat.S754_zero false).
  destruct (FloatOps.Prim2SF v) as [sg|sg| |sg m e];
    try destruct sg; cbn; intros Hn; try discriminate; tauto.
Qed.

Section Sort.
Context {A : Type} (comparefn : A -> A -> float).

Lemma insert_In (x y : A) (l : list A) :
  In y (insert comparefn x l) <-> y = x \/ In y l.
Proof.
  induction l as [|z l IH]; simpl.
  - intuition congruence.
  - destruct (PrimFloat.ltb _ _); simpl; [ rewrite IH | ]; intuition congruence.
Qed.

Lemma sort_In (y : A) (l : list A) : In y (stableSort comparefn l) <-> In y l.
Proof.
  induction l as [|x l IH]; simpl; [ tauto | ].
  rewrite insert_In, IH. intuition congruence.
Qed.

Lemma insert_Permutation (x : A) (l : list A) :
  insert comparefn x l ≡ₚ x :: l.
Proof.
  induction l as [|z l IH]; simpl; [ reflexivity | ].
  destruct (PrimFloat.ltb _ _); [ | reflexivity ].
  rewrite IH. apply Permutation_swap.
Qed.

(** The sorted array holds the same elements. *)
Lemma sort_Permutation (l : list A) : stableSort comparefn l ≡ₚ l.
Proof.
  induction l as [|x l IH]; simpl; [ reflexivity | ].
  now rewrite insert_Permutation, IH.
Qed.

(** Inserting an element does not reorder the others. *)
Lemma insert_keeps_before (x a b : A) (l : list A) :
  Spec.before a b l -> Spec.before a b (insert comparefn x l).
Proof.
  induction 1 as [l Hin|z l Hb IH]; simpl.
  - destruct (PrimFloat.ltb _ _).
    + constructor. apply insert_In. now right.
    + constructor 2. now constructor.
  - destruct (PrimFloat.ltb _ _).
    + now constructor 2.
    + constructor 2. now constructor 2.
Qed.

(** An inserted element stops in front of the first element it is not
    greater than. *)
Lemma insert_stops_before (x b : A) (l : list A) :
  In b l -> PrimFloat.ltb 0%float (comparefn x b) = false ->
  Spec.before x b (insert comparefn x l).
Proof.
  intros Hin Hle. induction l as [|z l IH]; simpl; [ destruct Hin | ].
  destruct (PrimFloat.ltb 0%float (comparefn x z)) eqn:E.
  - constructor 2. apply IH. destruct Hin as [->|Hin]; [ congruence | exact Hin ].
  - now constructor.
Qed.

(** Stability: an element that comes first in the array and is not
    greater than a later one still comes before it after sorting. *)
Lemma sort_stable (a b : A) (l : list A) :
  Spec.before a b l -> PrimFloat.ltb 0%float (comparefn a b) = false ->
  Spec.before a b (stableSort comparefn l).
Proof.
  intros Hb Hle. induction Hb as [l Hin|x l _ IH]; simpl.
  - apply insert_stops_before; [ now apply sort_In | exact Hle ].
  - now apply insert_keeps_before.
Qed.

(** For a comparison function that is consistent on the elements of a
    list [S], no element of [S] is greater than one it is not greater
    than in turn, and not-greater-than is transitive on [S]. *)
Section Consistent.
Variable S : list A.
Hypothesis Hc : consistent comparefn S = true.

Lemma consistent_facts (a b c : A) :
  In a S -> In b S -> In c S ->
  PrimFloat.eqb (comparefn a a) 0 = true
  /\ isNaN (comparefn a b) = false
  /\ (PrimFloat.eqb (comparefn a b) 0 = true -> PrimFloat.eqb (comparefn b a) 0 = true)
  /\ (PrimFloat.eqb (comparefn a b) 0 = true -> PrimFloat.eqb (comparefn b c) 0 = true ->
      PrimFloat.eqb (comparefn a c) 0 = true)
  /\ (PrimFloat.ltb (comparefn a b) 0 = true -> PrimFloat.ltb (comparefn b c) 0 = true ->
      PrimFloat.ltb (comparefn a c) 0 = true)
  /\ (PrimFloat.ltb 0 (comparefn a b) = true -> PrimFloat.ltb 0 (comparefn b c) = true ->
      PrimFloat.ltb 0 (comparefn a c) = true).
Proof using Hc.
  intros Ha Hb Hc'. unfold consistent in Hc.
  rewrite List.forallb_forall in Hc. specialize (Hc a Ha).
  apply andb_true_iff in Hc. destruct Hc as [Hr Hc2].
  rewrite List.forallb_forall in Hc2. specialize (Hc2 b Hb).
  apply andb_true_iff in Hc2. destruct Hc2 as [Hc2 Hc3].
  apply andb_true_iff in Hc2. destruct Hc2 as [Hn Hs].
  rewrite List.forallb_forall in Hc3. specialize (Hc3 c Hc').
  apply andb_true_iff in Hc3. destruct Hc3 as [Hc3 Hg].
  apply andb_true_iff in Hc3. destruct Hc3 as [He Hl].
  apply negb_true_iff in Hn.
  repeat split; try assumption.
  - intros E. now rewrite E in Hs.
  - intros E1 E2. now rewrite E1, E2 in He.
  - intros E1 E2. now rewrite E1, E2 in Hl.
  - intros E1 E2. now rewrite E1, E2 in Hg.
Qed.

Lemma consistent_flip (a b : A) :
  In a S -> In b S ->
  PrimFloat.ltb 0 (comparefn a b) = true -> PrimFloat.ltb (comparefn b a) 0 = true.
Proof using Hc.
  intros Ha Hb Hgt.
  destruct (consistent_facts a b a Ha Hb Ha) as (Hr & Hn & _ & _ & _ & Hg).
  destruct (consistent_facts b a b Hb Ha Hb) as (_ & Hn' & Hs' & _).
  destruct (float_sign _ Hn') as [(L & _)|[(_ & E & _)|(_ & _ & G)]].
  - exact L.
  - apply Hs' in E. destruct (float_sign _ Hn) as [T|[T|T]]; destruct T as (? & ? & ?); congruence.
  - specialize (Hg Hgt G).
    destruct (consistent_facts a a a Ha Ha Ha) as (_ & Hn2 & _).
    destruct (float_sign _ Hn2) as [T|[T|T]]; destruct T as (? & ? & ?); congruence.
Qed.

Lemma consistent_antisym (a b : A) :
  In a S -> In b S ->
  PrimFloat.ltb 0 (comparefn a b) = true -> PrimFloat.ltb 0 (comparefn b a) = false.
Proof using Hc.
  intros Ha Hb Hgt. pose proof (consistent_flip a b Ha Hb Hgt) as L.
  destruct (consistent_facts b a b Hb Ha Hb) as (_ & Hn & _).
  destruct (float_sign _ Hn) as [T|[T|T]]; destruct T as (? & ? & ?); congruence.
Qed.

Lemma consistent_le_trans (a b c : A) :
  In a S -> In b S -> In c S ->
  PrimFloat.ltb 0 (comparefn a b) = false ->
  PrimFloat.ltb 0 (comparefn b c) = false ->
  PrimFloat.ltb 0 (comparefn a c) = false.
Proof using Hc.
  intros Ha Hb Hc' Hab Hbc.
  destruct (PrimFloat.ltb 0 (comparefn a c)) eqn:Hac; [ exfalso | reflexivity ].
  pose proof (consistent_flip a c Ha Hc' Hac) as Lca.
  destruct (consistent_facts a b c Ha Hb Hc') as (_ & Nab & Sab & Eabc & Labc & _).
  destruct (consistent_facts b c a Hb Hc' Ha) as (_ & Nbc & Sbc & _ & Lbca & _).
  destruct (consistent_facts c a b Hc' Ha Hb) as (_ & _ & _ & _ & Lcab & _).
  destruct (consistent_facts a c a Ha Hc' Ha) as (_ & Nac & _).
  destruct (consistent_facts c b c Hc' Hb Hc') as (_ & Ncb & _).
  destruct (consistent_facts b a b Hb Ha Hb) as (_ & Nba & _).
  destruct (float_sign _ Nab) as [(Lab & _)|[(_ & Eab & _)|(_ & _ & G)]];
    [ | | congruence ];
    (destruct (float_sign _ Nbc) as [(Lbc & _)|[(_ & Ebc & _)|(_ & _ & G)]];
     [ | | congruence ]).
  - specialize (Labc Lab Lbc).
    destruct (float_sign _ Nac) as [T|[T|T]]; destruct T as (? & ? & ?); congruence.
  - specialize (Lcab Lca Lab). apply Sbc in Ebc.
    destruct (float_sign _ Ncb) as [T|[T|T]]; destruct T as (? & ? & ?); congruence.
  - specialize (Lbca Lbc Lca). apply Sab in Eab.
    destruct (float_sign _ Nba) as [T|[T|T]]; destruct T as (? & ? & ?); congruence.
  - specialize (Eabc Eab Ebc).
    destruct (float_sign _ Nac) as [T|[T|T]]; destruct T as (? & ? & ?); congruence.
Qed.


Lemma insert_sorted (x : A) (l : list A) :
  In x S -> (forall y, In y l -> In y S) ->
  StronglySorted (fun u v => PrimFloat.ltb 0%float (comparefn u v) = false) l ->
  StronglySorted (fun u v => PrimFloat.ltb 0%float (comparefn u v) = false)
    (insert comparefn x l).
Proof using Hc.
  intros Hx Hl Hs. induction Hs as [|y ys Hs IH Hy]; simpl.
  - constructor; constructor.
  - assert (Hyin : In y S) by (apply Hl; now left).
    assert (Hys : forall z, In z ys -> In z S) by (intros z Hz; apply Hl; now right).
    destruct (PrimFloat.ltb 0%float (comparefn x y)) eqn:E.
    + constructor; [ now apply IH | ].
      apply Forall_forall. intros z Hz. apply list_elem_of_In, insert_In in Hz.
      destruct Hz as [->|Hz]; [ now apply consistent_antisym | ].
      rewrite Forall_forall in Hy. apply Hy. now apply list_elem_of_In.
    + constructor; [ now constructor | ].
      constructor; [ exact E | ].
      apply Forall_forall. intros z Hz. rewrite Forall_forall in Hy.
      apply (consistent_le_trans x y z); auto.
      apply Hys. now apply list_elem_of_In.
Qed.

End Consistent.

End Sort.

(** For a consistent comparison function the reference array is in
    order: no element is greater than one that follows it.  With
    [sort_stable] and [sort_Permutation] this makes it the array
    ECMAScript prescribes. *)
Lemma sort_sorted {A} (comparefn : A -> A -> float) (l : list A) :
  consistent comparefn l = true ->
  StronglySorted (fun u v => PrimFloat.ltb 0%float (comparefn u v) = false)
    (stableSort comparefn l).
Proof.
  intros Hc.
  assert (Hsub : forall k, (forall y, In y k -> In y l) ->
            StronglySorted (fun u v => PrimFloat.ltb 0%float (comparefn u v) = false)
              (stableSort comparefn k)).
  { induction k as [|x k IH]; intros Hk; simpl; [ constructor | ].
    apply (insert_sorted comparefn l Hc).
    - apply Hk. now left.
    - intros y Hy. apply Hk. right.
      clear -Hy. induction k as [|z k IHk]; simpl in *; [ exact Hy | ].
      apply insert_In in Hy. destruct Hy as [->|Hy]; [ now left | right; now apply IHk ].
    - apply IH. intros y Hy. apply Hk. now right. }
  apply Hsub. auto.
Qed.

(** A comparator result equal to zero is not greater than zero. *)
Lemma zero_not_positive (x : float) :
  PrimFloat.eqb x 0%float = true -> PrimFloat.ltb 0%float x = false.
Proof.
  rewrite FloatAxioms.eqb_spec, FloatAxioms.ltb_spec.
  change (FloatOps.Prim2SF 0%float) with (SpecFloat.S754_zero false).
  destruct (FloatOps.Prim2SF x) as [sg|sg| |sg m e];
    try destruct sg; cbn; congruence.
Qed.

(** C6 (as amended): on every engine, when the comparator is a
    consistent comparison function for the fetched, airline-filtered
    flights (no difference of keys is NaN), two flights whose comparator
    result is zero (equal on the chosen key: price, duration or
    departure) appear in the sorted results in the order they have in
    that list; the flight id is not consulted. *)
Theorem C6_equal_keys_keep_fetched_order
    `{Engine} (st : State) (a b : Flight) :
  consistent (comparator st)
    (base.filter (fun f => passesFilter st f = true) (flights st)) = true ->
  Spec.before a b (base.filter (fun f => passesFilter st f = true) (flights st)) ->
  PrimFloat.eqb (comparator st a b) 0%float = true ->
  Spec.before a b (filteredFlights st).
Proof.
  intros Hc Hb Heq. unfold filteredFlights.
  rewrite (sort_consistent _ _ _ Hc).
  apply sort_stable; [ exact Hb | now apply zero_not_positive ].
Qed.

(** Two flights at the same price, fetched as 2 then 1, are listed as 2
    then 1. *)
Lemma C6_witness :
  Spec.before (Samples.flightNo 2) (Samples.flightNo 1)
    (filteredFlights (H := insertionEngine) (Samples.tied "price")).
Proof.
  apply (C6_equal_keys_keep_fetched_order (H := insertionEngine)
           (Samples.tied "price") (Samples.flightNo 2) (Samples.flightNo 1)).
  - vm_compute. reflexivity.
  - vm_compute. constructor. now left.
  - vm_compute. reflexivity.
Defined.

(** C6, as stated, fails on every engine: two flights equal on price,
    duration and departure, fetched with id 2 before id 1, stay in that
    order under each of the three sort keys. *)
Lemma C6_counterexample :
  PrimFloat.eqb
    (comparator (Samples.tied "price") (Samples.flightNo 2)
       (Samples.flightNo 1)) 0%float = true
  /\ forall E : Engine,
       map id (filteredFlights (H := E) (Samples.tied "price")) = [2; 1]%Z
       /\ map id (filteredFlights (H := E) (Samples.tied "duration")) = [2; 1]%Z
       /\ map id (filteredFlights (H := E) (Samples.tied "departure")) = [2; 1]%Z
       /\ ~ (forall a b : Flight,
               Spec.before a b (filteredFlights (H := E) (Samples.tied "price")) ->
               PrimFloat.eqb (comparator (Samples.tied "price") a b) 0%float
               = true ->
               (id a <= id b)%Z).
Proof.
  split; [ vm_compute; reflexivity | ].
  intros E.
  assert (Hk : forall k,
             In k ["price"; "duration"; "departure"]%string ->
             filteredFlights (H := E) (Samples.tied k)
             = [Samples.flightNo 2; Samples.flightNo 1]).
  { intros k Hk. unfold filteredFlights.
    rewrite sort_consistent;
      simpl in Hk; destruct Hk as [<-|[<-|[<-|[]]]]; vm_compute; reflexivity. }
  rewrite !Hk by (simpl; tauto).
  split; [ reflexivity | ]. split; [ reflexivity | ].
  split; [ reflexivity | ].
  intros Hall.
  specialize (Hall (Samples.flightNo 2) (Samples.flightNo 1)).
  assert (Hle : (2 <= 1)%Z); [ | lia ].
  apply Hall; [ | vm_compute; reflexivity ].
  constructor. now left.
Qed.

End SortTheorems.

(* ===================================================================== *)
(** * Properties of the PNR-status lookup                                 *)
(* ===================================================================== *)

Module PnrTheorems.
Import JS Navbar Spec.

Lemma isWhiteSpace_upperChar (c : ascii) :
  isWhiteSpace (upperChar c) = isWhiteSpace c.
Proof. destruct c as [[] [] [] [] [] [] [] []]; reflexivity. Qed.

Lemma upperChar_idem (c : ascii) : upperChar (upperChar c) = upperChar c.
Proof. destruct c as [[] [] [] [] [] [] [] []]; reflexivity. Qed.

Lemma toUpperCase_idem (s : string) :
  toUpperCase (toUpperCase s) = toUpperCase s.
Proof.
  induction s as [|c s IH]; simpl; [ reflexivity | ].
  now rewrite upperChar_idem, IH.
Qed.

Lemma isEmpty_toUpperCase (s : string) :
  isEmpty (toUpperCase s) = isEmpty s.
Proof. now destruct s. Qed.

Lemma trimStart_toUpperCase (s : string) :
  trimStart (toUpperCase s) = toUpperCase (trimStart s).
Proof.
  induction s as [|c s IH]; simpl; [ reflexivity | ].
  rewrite isWhiteSpace_upperChar. now destruct (isWhiteSpace c).
Qed.

Lemma trimEnd_toUpperCase (s : string) :
  trimEnd (toUpperCase s) = toUpperCase (trimEnd s).
Proof.
  induction s as [|c s IH]; simpl; [ reflexivity | ].
  rewrite IH, isWhiteSpace_upperChar.
  destruct (trimEnd s); simpl; [ now destruct (isWhiteSpace c) | reflexivity ].
Qed.

Lemma trim_toUpperCase (s : string) :
  trim (toUpperCase s) = toUpperCase (trim s).
Proof. unfold trim. now rewrite trimStart_toUpperCase, trimEnd_toUpperCase. Qed.

Lemma trimEnd_idem (s : string) : trimEnd (trimEnd s) = trimEnd s.
Proof.
  induction s as [|c s IH]; simpl; [ reflexivity | ].
  destruct (trimEnd s) as [|c' s'] eqn:E.
  - destruct (isWhiteSpace c) eqn:Ec; simpl; [ reflexivity | now rewrite Ec ].
  - simpl in *. now rewrite IH.
Qed.

(** A string that does not start with white space keeps its first
    character when its end is trimmed. *)
Lemma trimStart_trimEnd (s : string) :
  trimStart s = s -> trimStart (trimEnd s) = trimEnd s.
Proof.
  destruct s as [|c s]; simpl; [ reflexivity | ].
  destruct (isWhiteSpace c) eqn:Ec.
  - intros E. exfalso.
    assert (Hl : (String.length (trimStart s) <= String.length s)%nat).
    { clear. induction s as [|d s IH]; simpl; [ lia | ].
      destruct (isWhiteSpace d); simpl; lia. }
    rewrite E in Hl. simpl in Hl. lia.
  - intros _. destruct (trimEnd s); simpl; now rewrite Ec.
Qed.

Lemma trimStart_idem (s : string) : trimStart (trimStart s) = trimStart s.
Proof.
  induction s as [|c s IH]; simpl; [ reflexivity | ].
  destruct (isWhiteSpace c) eqn:Ec; [ exact IH | simpl; now rewrite Ec ].
Qed.

Lemma trim_idem (s : string) : trim (trim s) = trim s.
Proof.
  unfold trim.
  rewrite (trimStart_trimEnd (trimStart s)) by apply trimStart_idem.
  apply trimEnd_idem.
Qed.

(** Normalising a PNR twice is normalising it once. *)
Lemma normalise_idem (s : string) :
  toUpperCase (trim (toUpperCase (trim s))) = toUpperCase (trim s).
Proof. now rewrite trim_toUpperCase, trim_idem, toUpperCase_idem. Qed.

Lemma handlePnrCheck_result {P} (server : string -> ApiResult P)
    (st : State P) (s1 s2 : string) :
  toUpperCase (trim s1) = toUpperCase (trim s2) ->
  result (handlePnrCheck server (withInput st s1))
  = result (handlePnrCheck server (withInput st s2)).
Proof.
  intros E. unfold handlePnrCheck, pnrStatusPath, result. simpl.
  rewrite <- (isEmpty_toUpperCase (trim s1)), <- (isEmpty_toUpperCase (trim s2)).
  rewrite E. destruct (isEmpty _); simpl; [ reflexivity | ].
  now destruct (server _).
Qed.

(** C10: the lookup for an entered text is the lookup for that text
    trimmed and uppercased: the same request is sent (the path ends in the
    normalised text; none is sent when it is empty) and the same status or
    error results; so two texts that differ only in surrounding white
    space and letter case give the same lookup. *)
Theorem C10_pnr_lookup_is_normalised
    {P} (server : string -> ApiResult P) (st : State P) (s : string) :
  result (handlePnrCheck server (withInput st s))
  = result (handlePnrCheck server (withInput st (toUpperCase (trim s))))
  /\ got (handlePnrCheck server (withInput st s))
     = (if isEmpty (toUpperCase (trim s)) then []
        else [ "/bookings/pnr-status/" +:+ toUpperCase (trim s) ])
  /\ (forall s' : string,
        toUpperCase (trim s') = toUpperCase (trim s) ->
        result (handlePnrCheck server (withInput st s'))
        = result (handlePnrCheck server (withInput st s))).
Proof.
  split; [ | split ].
  - apply handlePnrCheck_result. symmetry. apply normalise_idem.
  - unfold handlePnrCheck, pnrStatusPath. simpl.
    rewrite isEmpty_toUpperCase.
    destruct (isEmpty (trim s)); simpl; [ reflexivity | ].
    now destruct (server _).
  - intros s'. apply handlePnrCheck_result.
Qed.

(** The text [  k7m2qx ] is looked up as K7M2QX. *)
Example pnr_lookup_path :
  got (handlePnrCheck (PnrStatus := unit) (fun _ => ApiErr None)
         (mkState true "  k7m2qx " None false ""))
  = [ "/bookings/pnr-status/K7M2QX"%string ].
Proof. reflexivity. Qed.

End PnrTheorems.

(* ===================================================================== *)
(** * Properties of the card form                                         *)
(* ===================================================================== *)

Module CardFormTheorems.
Import JS BookingPage BookingForms.

Lemma length_append (s t : string) :
  String.length (s +:+ t) = (String.length s + String.length t)%nat.
Proof. induction s as [|c s IH]; simpl; [ reflexivity | now rewrite IH ]. Qed.

Lemma length_substring0 (n : nat) (s : string) :
  String.length (substring 0 n s) = Nat.min n (String.length s).
Proof.
  revert s. induction n as [|n IH]; intros [|c s]; simpl; try reflexivity.
  now rewrite IH.
Qed.

Lemma substring0_all (n : nat) (s : string) :
  (String.length s <= n)%nat -> substring 0 n s = s.
Proof.
  revert s. induction n as [|n IH]; intros [|c s]; simpl; intros Hl;
    try reflexivity; [ lia | ].
  rewrite IH by lia. reflexivity.
Qed.

Lemma digit_not_space (c : ascii) : isDigit c = true -> isWhiteSpace c = false.
Proof. destruct c as [[] [] [] [] [] [] [] []]; vm_compute; congruence. Qed.

Lemma keepDigits_allDigits (s : string) : allDigits (keepDigits s) = true.
Proof.
  induction s as [|c s IH]; simpl; [ reflexivity | ].
  destruct (isDigit c) eqn:E; simpl; [ now rewrite E | exact IH ].
Qed.

Lemma keepDigits_id (d : string) : allDigits d = true -> keepDigits d = d.
Proof.
  induction d as [|c d IH]; simpl; [ reflexivity | ].
  intros H. apply andb_true_iff in H. destruct H as [Hc Hd].
  now rewrite Hc, IH.
Qed.

Lemma removeWhiteSpace_id (d : string) :
  allDigits d = true -> removeWhiteSpace d = d.
Proof.
  induction d as [|c d IH]; simpl; [ reflexivity | ].
  intros H. apply andb_true_iff in H. destruct H as [Hc Hd].
  now rewrite (digit_not_space c Hc), IH.
Qed.

Lemma keepDigits_removeWhiteSpace (s : string) :
  keepDigits (removeWhiteSpace s) = keepDigits s.
Proof.
  induction s as [|c s IH]; simpl; [ reflexivity | ].
  destruct (isWhiteSpace c) eqn:Ew; simpl.
  - destruct (isDigit c) eqn:Ed; [ | exact IH ].
    apply digit_not_space in Ed. congruence.
  - now rewrite IH.
Qed.

Lemma digitRun_id (d : string) : allDigits d = true -> digitRun d = d.
Proof.
  induction d as [|c d IH]; simpl; [ reflexivity | ].
  intros H. apply andb_true_iff in H. destruct H as [Hc Hd].
  now rewrite Hc, IH.
Qed.

Lemma allDigits_substring0 (n : nat) (d : string) :
  allDigits d = true -> allDigits (substring 0 n d) = true.
Proof.
  revert d. induction n as [|n IH]; intros [|c d]; simpl; try reflexivity.
  intros H. apply andb_true_iff in H. destruct H as [Hc Hd].
  now rewrite Hc, IH.
Qed.

Lemma firstMatch_short (d : string) :
  allDigits d = true -> (String.length d < 4)%nat -> firstMatch d = None.
Proof.
  induction d as [|c d IH]; intros Hd Hl; [ reflexivity | ].
  cbn [firstMatch]. rewrite (digitRun_id _ Hd).
  destruct (4 <=? String.length (String c d))%nat eqn:E;
    [ apply Nat.leb_le in E; lia | ].
  simpl in Hd, Hl. apply andb_true_iff in Hd. apply IH; [ tauto | lia ].
Qed.

Lemma firstMatch_long (d : string) :
  allDigits d = true -> (4 <= String.length d)%nat ->
  firstMatch d = Some (substring 0 16 d).
Proof.
  intros Hd Hl. destruct d as [|c d]; [ simpl in Hl; lia | ].
  cbn [firstMatch]. rewrite (digitRun_id _ Hd).
  destruct (4 <=? String.length (String c d))%nat eqn:E; [ reflexivity | ].
  apply Nat.leb_gt in E. lia.
Qed.

(** Induction over a string four characters at a time. *)
Lemma by_fours (P : string -> Prop) :
  P EmptyString ->
  (forall m, (1 <= String.length m <= 3)%nat -> P m) ->
  (forall a b c d r, P r -> P (String a (String b (String c (String d r))))) ->
  forall m, P m.
Proof.
  intros H0 H3 H4 m.
  assert (Hn : forall n m, (String.length m <= n)%nat -> P m).
  { induction n as [|n IH]; intros [|a [|b [|c [|d r]]]] Hl; simpl in Hl;
      try exact H0; try lia; try (apply H3; simpl; lia).
    apply H4. apply IH. lia. }
  apply (Hn (String.length m)). lia.
Qed.

Lemma parts_nil (m : string) : parts m = [] <-> m = EmptyString.
Proof.
  destruct m as [|a [|b [|c [|d r]]]]; simpl; split; congruence.
Qed.

Lemma concat_parts_step (a b c d : ascii) (r : string) :
  r <> EmptyString ->
  String.concat " " (parts (String a (String b (String c (String d r)))))
  = String a (String b (String c (String d
      (String " " (String.concat " " (parts r)))))).
Proof.
  intros Hr. cbn [parts String.concat].
  destruct (parts r) eqn:E; [ apply parts_nil in E; congruence | reflexivity ].
Qed.

Lemma concat_parts_short (m : string) :
  (String.length m <= 4)%nat -> String.concat " " (parts m) = m.
Proof.
  destruct m as [|a [|b [|c [|d [|e r]]]]]; simpl; intros; try reflexivity; lia.
Qed.

(** Dropping the spaces of the grouped digits gives the digits back. *)
Lemma removeWhiteSpace_concat_parts (m : string) :
  allDigits m = true -> removeWhiteSpace (String.concat " " (parts m)) = m.
Proof.
  revert m. apply (by_fours (fun m => allDigits m = true -> _)).
  - reflexivity.
  - intros m Hl Hd. rewrite concat_parts_short by lia.
    now apply removeWhiteSpace_id.
  - intros a b c d r IH Hd. destruct r as [|e r].
    + rewrite concat_parts_short by (simpl; lia). now apply removeWhiteSpace_id.
    + rewrite concat_parts_step by discriminate.
      cbn [allDigits] in Hd. repeat (apply andb_true_iff in Hd; destruct Hd as [? Hd]).
      assert (Hr : allDigits (String e r) = true).
      { cbn [allDigits]. apply andb_true_iff. now split. }
      cbn [removeWhiteSpace].
      rewrite !digit_not_space by assumption.
      change (isWhiteSpace " ") with true. cbv iota.
      now rewrite (IH Hr).
Qed.

Lemma length_concat_parts (m : string) :
  m <> EmptyString ->
  (4 * String.length (String.concat " " (parts m)) + 4
   <= 5 * String.length m + 3)%nat.
Proof.
  revert m. apply (by_fours (fun m => m <> EmptyString -> _)).
  - congruence.
  - intros m Hl _. rewrite concat_parts_short by lia. lia.
  - intros a b c d r IH _. destruct r as [|e r].
    + rewrite concat_parts_short by (simpl; lia). simpl. lia.
    + rewrite concat_parts_step by discriminate.
      specialize (IH ltac:(discriminate)).
      cbn [String.length] in *. lia.
Qed.

(** What [formatCardNumber] gives, by the number of digits typed. *)
Lemma formatCardNumber_cases (value : string) :
  let v := keepDigits value in
  formatCardNumber value
  = if (4 <=? String.length v)%nat
    then String.concat " " (parts (substring 0 16 v))
    else v.
Proof.
  cbv zeta. unfold formatCardNumber. rewrite keepDigits_removeWhiteSpace.
  pose proof (keepDigits_allDigits value) as Hd.
  destruct (4 <=? String.length (keepDigits value))%nat eqn:E.
  - apply Nat.leb_le in E. rewrite (firstMatch_long _ Hd E). simpl default.
    destruct (parts _) eqn:Ep; [ | reflexivity ].
    apply parts_nil in Ep.
    pose proof (length_substring0 16 (keepDigits value)) as Hl.
    rewrite Ep in Hl. cbn [String.length] in Hl. lia.
  - apply Nat.leb_gt in E. now rewrite (firstMatch_short _ Hd E).
Qed.

(** Without its spaces, a formatted card number is the first sixteen
    digits of the text. *)
Lemma formatCardNumber_digits (value : string) :
  removeWhiteSpace (formatCardNumber value)
  = substring 0 16 (keepDigits value).
Proof.
  rewrite formatCardNumber_cases.
  pose proof (keepDigits_allDigits value) as Hd.
  destruct (4 <=? String.length (keepDigits value))%nat eqn:E4.
  - apply removeWhiteSpace_concat_parts. now apply allDigits_substring0.
  - apply Nat.leb_gt in E4. rewrite substring0_all by lia.
    now apply removeWhiteSpace_id.
Qed.

Lemma formatCardNumber_sixteen (value : string) :
  (String.length (removeWhiteSpace (formatCardNumber value)) =? 16)%nat
  = (16 <=? String.length (keepDigits value))%nat.
Proof.
  rewrite formatCardNumber_digits, length_substring0.
  destruct (16 <=? String.length (keepDigits value))%nat eqn:E16.
  - apply Nat.leb_le in E16. apply Nat.eqb_eq. lia.
  - apply Nat.leb_gt in E16. apply Nat.eqb_neq. lia.
Qed.

(** X1: whatever is typed into the card-number input, the value the
    input takes holds exactly the first sixteen digits typed, in order,
    once its spaces are dropped; so it passes the 16-digit check of the
    payment step exactly when at least sixteen digits were typed. *)
Theorem card_number_keeps_first_sixteen_digits (value : string) :
  removeWhiteSpace (formatCardNumber value)
  = substring 0 16 (keepDigits value)
  /\ ((String.length (removeWhiteSpace (formatCardNumber value)) =? 16)%nat
      = (16 <=? String.length (keepDigits value))%nat).
Proof.
  pose proof (formatCardNumber_digits value) as E.
  split; [ exact E | ].
  rewrite E, length_substring0.
  destruct (16 <=? String.length (keepDigits value))%nat eqn:E16.
  - apply Nat.leb_le in E16. apply Nat.eqb_eq. lia.
  - apply Nat.leb_gt in E16. apply Nat.eqb_neq. lia.
Qed.

(** X2: formatting a card number is idempotent (the value the input
    shows is left alone when it is formatted again), and the value never
    has more than 19 characters. *)
Theorem card_number_format_is_stable_and_short (value : string) :
  formatCardNumber (formatCardNumber value) = formatCardNumber value
  /\ (String.length (formatCardNumber value) <= 19)%nat.
Proof.
  pose proof (keepDigits_allDigits value) as Hd.
  pose proof (formatCardNumber_digits value) as Hrw.
  pose proof (length_substring0 16 (keepDigits value)) as Hl16.
  split.
  - rewrite (formatCardNumber_cases (formatCardNumber value)). cbv zeta.
    rewrite <- keepDigits_removeWhiteSpace, Hrw.
    rewrite (keepDigits_id (substring 0 16 (keepDigits value)))
      by now apply allDigits_substring0.
    rewrite Hl16, (formatCardNumber_cases value). cbv zeta.
    destruct (4 <=? String.length (keepDigits value))%nat eqn:E4.
    + apply Nat.leb_le in E4.
      replace (4 <=? Nat.min 16 (String.length (keepDigits value)))%nat
        with true by (symmetry; apply Nat.leb_le; lia).
      rewrite (substring0_all 16 (substring 0 16 (keepDigits value)))
        by (rewrite Hl16; lia).
      reflexivity.
    + apply Nat.leb_gt in E4.
      replace (4 <=? Nat.min 16 (String.length (keepDigits value)))%nat
        with false by (symmetry; apply Nat.leb_gt; lia).
      apply substring0_all. lia.
  - rewrite formatCardNumber_cases. cbv zeta.
    destruct (4 <=? String.length (keepDigits value))%nat eqn:E4.
    + apply Nat.leb_le in E4.
      assert (Hne : substring 0 16 (keepDigits value) <> EmptyString).
      { intros E0. rewrite E0 in Hl16. cbn [String.length] in Hl16. lia. }
      pose proof (length_concat_parts _ Hne). lia.
    + apply Nat.leb_gt in E4. lia.
Qed.

Lemma substring_0_0 (s : string) : substring 0 0 s = EmptyString.
Proof. now destruct s. Qed.

Lemma formatExpiry_digits (value : string) :
  keepDigits (formatExpiry value) = substring 0 4 (keepDigits value)
  /\ isExpiry (formatExpiry value) = (4 <=? String.length (keepDigits value))%nat
  /\ (String.length (formatExpiry value) <= 5)%nat.
Proof.
  unfold formatExpiry. pose proof (keepDigits_allDigits value) as Hd.
  destruct (keepDigits value) as [|a [|b [|c [|d r]]]]; cbn [allDigits] in Hd;
    repeat (apply andb_true_iff in Hd; destruct Hd as [? Hd]);
    simpl; rewrite ?substring_0_0; simpl;
    repeat match goal with
           | E : isDigit _ = true |- _ => rewrite E; clear E
           end;
    simpl; repeat split; try reflexivity; lia.
Qed.

(** X3: the expiry input keeps the first four digits typed, puts a slash
    after the second, is left alone when formatted again, and passes the
    MM/YY check of the payment step exactly when at least four digits
    were typed. *)
Theorem expiry_keeps_four_digits_and_is_stable (value : string) :
  keepDigits (formatExpiry value) = substring 0 4 (keepDigits value)
  /\ formatExpiry (formatExpiry value) = formatExpiry value
  /\ isExpiry (formatExpiry value)
     = (4 <=? String.length (keepDigits value))%nat.
Proof.
  destruct (formatExpiry_digits value) as (Hk & He & _).
  split; [ exact Hk | ]. split; [ | exact He ].
  unfold formatExpiry at 1. rewrite Hk.
  unfold formatExpiry. pose proof (keepDigits_allDigits value) as Hd.
  destruct (keepDigits value) as [|a [|b [|c [|d r]]]];
    simpl; rewrite ?substring_0_0; reflexivity.
Qed.

Lemma formatCvv_length (value : string) :
  String.length (formatCvv value)
  = Nat.min 4 (String.length (keepDigits value)).
Proof. apply length_substring0. Qed.

Lemma isEmpty_length (s : string) :
  isEmpty s = (String.length s =? 0)%nat.
Proof. now destruct s. Qed.

(** X4: a card form whose four inputs received any texts passes the
    payment step's validation exactly when at least sixteen digits were
    typed as the number, the holder's name has a character that is not
    white space, at least four digits were typed as the expiry and at
    least three as the CVV. *)
Theorem typed_card_is_valid_iff (st : State) (num nm ex cv : string) :
  paymentMethod st = "card"%string ->
  validatePayment (fillCard st num nm ex cv) = None
  <-> (16 <= String.length (keepDigits num))%nat
      /\ isEmpty (trim nm) = false
      /\ (4 <= String.length (keepDigits ex))%nat
      /\ (3 <= String.length (keepDigits cv))%nat.
Proof.
  intros Hm. unfold validatePayment, fillCard, changeCvv, changeExpiry,
    changeCardName, changeCardNumber. simpl. rewrite Hm. simpl.
  pose proof (formatCardNumber_digits num) as Hn1.
  pose proof (formatCardNumber_sixteen num) as Hn2.
  destruct (formatExpiry_digits ex) as (_ & He & _).
  rewrite Hn2, He, PnrTheorems.trim_toUpperCase, PnrTheorems.isEmpty_toUpperCase.
  rewrite !isEmpty_length, formatCvv_length.
  assert (Hnum : String.length (removeWhiteSpace (formatCardNumber num))
                 = Nat.min 16 (String.length (keepDigits num))).
  { rewrite Hn1. apply length_substring0. }
  assert (Hle : (String.length (removeWhiteSpace (formatCardNumber num))
                 <= String.length (formatCardNumber num))%nat).
  { generalize (formatCardNumber num). intros s.
    induction s as [|c s IH]; simpl; [ lia | ].
    destruct (isWhiteSpace c); simpl; lia. }
  assert (Hex : isExpiry (formatExpiry ex) = true ->
                (String.length (formatExpiry ex) =? 0)%nat = false).
  { destruct (formatExpiry ex); [ discriminate | reflexivity ]. }
  rewrite He in Hex.
  destruct (16 <=? String.length (keepDigits num))%nat eqn:E16;
    [ apply Nat.leb_le in E16 | apply Nat.leb_gt in E16 ]; cbn [negb].
  2: { rewrite orb_true_r. split; [ discriminate | lia ]. }
  replace (String.length (formatCardNumber num) =? 0)%nat with false
    by (symmetry; apply Nat.eqb_neq; lia).
  cbn [orb].
  destruct (String.length (trim nm) =? 0)%nat eqn:En;
    [ split; [ discriminate | intros (_ & ? & _); discriminate ] | ].
  destruct (4 <=? String.length (keepDigits ex))%nat eqn:E4;
    [ apply Nat.leb_le in E4 | apply Nat.leb_gt in E4 ]; cbn [negb].
  2: { rewrite orb_true_r. split; [ discriminate | lia ]. }
  rewrite (Hex eq_refl). cbn [orb].
  destruct (Nat.min 4 (String.length (keepDigits cv)) =? 0)%nat eqn:E0;
    [ apply Nat.eqb_eq in E0 | apply Nat.eqb_neq in E0 ]; cbn [orb].
  - split; [ discriminate | lia ].
  - destruct (Nat.min 4 (String.length (keepDigits cv)) <? 3)%nat eqn:E3;
      [ apply Nat.ltb_lt in E3 | apply Nat.ltb_ge in E3 ].
    + split; [ discriminate | lia ].
    + split; [ intros _; repeat split; lia | reflexivity ].
Qed.

(** A card typed with separators and stray characters is accepted. *)
Lemma typed_card_is_valid_iff_witness :
  validatePayment
    (fillCard (initialState Samples.quoted) "4111-1111 1111 1111"
       "asha rao" "12/30" "123x")
  = None.
Proof.
  apply (typed_card_is_valid_iff (initialState Samples.quoted)).
  - reflexivity.
  - repeat split; try reflexivity; simpl; lia.
Defined.

End CardFormTheorems.

(* ===================================================================== *)
(** * More properties of the booking flow                                 *)
(* ===================================================================== *)

Module BookingFlowTheorems.
Import JS BookingPage BookingForms Spec BookingFacts.

Lemma length_delete_ge {A} (l : list A) (i : nat) :
  (length l - 1 <= length (delete i l))%nat.
Proof.
  revert i. induction l as [|x l IH]; intros [|i]; simpl; try lia.
  specialize (IH i). lia.
Qed.

Section WithHost.
Context `{Host}.

Lemma step_currentStep (p : Props) (st : State) (e : Event) :
  (1 <= currentStep st <= 4)%Z -> (1 <= currentStep (step p st e) <= 4)%Z.
Proof.
  intros Hs. destruct e; simpl; try exact Hs.
  - unfold fetchFlight. destruct (isFalsyStr _); [ exact Hs | ].
    destruct r; [ | exact Hs ]. now destruct (PrimFloat.eqb _ _).
  - now destruct (prefillUser_frame p st) as (-> & _).
  - unfold addPassenger. now destruct (9 <=? _)%nat.
  - unfold removePassenger. now destruct (_ <=? 1)%nat.
  - unfold handleNext. destruct (validateStep st); simpl; lia.
  - unfold handleBack. simpl. lia.
  - now destruct (handleSubmit_after p st hold pay) as (-> & _).
Qed.

(** X5: the step indicator never leaves 1..4, whatever is clicked and
    however often. *)
Theorem current_step_stays_between_1_and_4 (p : Props) (st : State) :
  reachable p st -> (1 <= currentStep st <= 4)%Z.
Proof.
  induction 1 as [|st e _ IH _]; [ simpl; lia | now apply step_currentStep ].
Qed.

Lemma step_at_least_one (p : Props) (st : State) (e : Event) :
  (1 <= length (passengers st))%nat ->
  (1 <= length (passengers (step p st e)))%nat.
Proof.
  intros H1. destruct e; simpl; try exact H1.
  - unfold fetchFlight. destruct (isFalsyStr _); [ exact H1 | ].
    destruct r; [ | exact H1 ]. now destruct (PrimFloat.eqb _ _).
  - destruct (prefillUser_frame p st) as (_ & E & _). simpl in E. lia.
  - unfold addPassenger. destruct (9 <=? _)%nat; simpl; [ exact H1 | ].
    rewrite length_app. simpl. lia.
  - unfold removePassenger. destruct (_ <=? 1)%nat eqn:E; simpl; [ exact H1 | ].
    apply Nat.leb_gt in E.
    pose proof (length_delete_ge (passengers st) index). lia.
  - unfold handlePassengerChange. simpl. now rewrite length_alter.
  - unfold handleNext. now destruct (validateStep st).
  - destruct (handleSubmit_after p st hold pay) as (_ & _ & E & _).
    now rewrite E.
Qed.

(** X6: opened for one to nine passengers, the page always has between
    one and nine passengers: the last one cannot be removed and a tenth
    cannot be added. *)
Theorem passenger_count_stays_between_1_and_9 (p : Props) (st : State) :
  (1 <= toLength (passengersCount p) <= 9)%Z ->
  reachable p st ->
  (1 <= length (passengers st) <= 9)%nat.
Proof.
  intros [Hlo Hhi] Hr. split.
  - induction Hr as [|st e _ IH _]; [ | now apply step_at_least_one ].
    simpl. unfold arrayFrom. rewrite length_replicate. lia.
  - eapply BookingTheorems.passengers_bounded_from_bounded_start; eauto.
Qed.

Lemma enabled_formRendered (p : Props) (st : State) (e : Event) :
  isEffect e = false -> enabled p st e = true -> formRendered p st = true.
Proof.
  destruct e; simpl; try discriminate; intros _;
    destruct (formRendered p st); simpl; congruence.
Qed.

Lemma step_flight (p : Props) (st : State) (e : Event) :
  isEffect e = false -> flight (step p st e) = flight st.
Proof.
  destruct e; simpl; try discriminate; intros _; try reflexivity.
  - unfold addPassenger. now destruct (9 <=? _)%nat.
  - unfold removePassenger. now destruct (_ <=? 1)%nat.
  - unfold handleNext. now destruct (validateStep st).
  - unfold handleSubmit, caught. destruct (validateStep st); simpl; [ reflexivity | ].
    destruct (flight st) eqn:Ef, (user p); simpl; rewrite ?Ef; try reflexivity.
    destruct (isoDate _); simpl; rewrite ?Ef; [ | reflexivity ].
    destruct hold; simpl; rewrite ?Ef; [ | reflexivity ].
    destruct pay; simpl; now rewrite ?Ef.
Qed.

(** Once loading is over there is a flight or an error message. *)
Lemma loaded_or_failed (p : Props) (st : State) :
  reachable p st ->
  loading st = false -> is_Some (flight st) \/ isEmpty (error st) = false.
Proof.
  induction 1 as [|st e Hr IH He]; [ discriminate | ].
  destruct (isEffect e) eqn:Eeff.
  - destruct e; try discriminate; simpl.
    + unfold fetchFlight. destruct (isFalsyStr _); simpl; [ now right | ].
      destruct r; simpl; [ | now right ].
      destruct (PrimFloat.eqb _ _); simpl; left; eauto.
    + unfold prefillUser. destruct (user p); [ | exact IH ].
      destruct (passengers st); [ exact IH | ].
      destruct (String.eqb _ _); exact IH.
  - intros _. left. rewrite (step_flight p st e Eeff).
    pose proof (enabled_formRendered p st e Eeff He) as Hf.
    unfold formRendered in Hf. apply andb_true_iff in Hf. destruct Hf as [Hl Hf].
    apply negb_true_iff, orb_false_iff in Hl. destruct Hl as [_ Hl].
    destruct (IH Hl) as [Hs|Hn]; [ exact Hs | ].
    rewrite Hn in Hf. simpl in Hf. apply negb_true_iff, negb_false_iff in Hf.
    now apply bool_decide_eq_true in Hf.
Qed.

(** X7: the booking form is only ever shown with a flight loaded: in
    every state in which the form is rendered, [flight] is set, so no
    handler of the form reads a missing flight. *)
Theorem form_is_rendered_only_with_a_flight (p : Props) (st : State) :
  reachable p st -> formRendered p st = true -> is_Some (flight st).
Proof.
  intros Hr Hf. unfold formRendered in Hf.
  apply andb_true_iff in Hf. destruct Hf as [Hl Hf].
  apply negb_true_iff, orb_false_iff in Hl. destruct Hl as [_ Hl].
  destruct (loaded_or_failed p st Hr Hl) as [Hs|Hn]; [ exact Hs | ].
  rewrite Hn in Hf. simpl in Hf. apply negb_true_iff, negb_false_iff in Hf.
  now apply bool_decide_eq_true in Hf.
Qed.

Lemma validatePassengers_ok (i : nat) (ps : list Passenger) :
  validatePassengers i ps = None <-> forallb passengerOk ps = true.
Proof.
  revert i. induction ps as [|q ps IH]; intros i; simpl; [ tauto | ].
  unfold passengerOk at 1.
  destruct (isEmpty (trim (passenger_name q))); simpl;
    [ split; discriminate | ].
  destruct (isEmpty (age q) || PrimFloat.ltb (toNumber (age q)) 1
            || PrimFloat.ltb 120 (toNumber (age q))); simpl;
    [ split; discriminate | ].
  destruct (isEmpty (gender q)); simpl; [ split; discriminate | apply IH ].
Qed.

Lemma validatePassengers_first (i : nat) (ps : list Passenger) (e : string) :
  validatePassengers i ps = Some e ->
  exists k q,
    ps !! k = Some q /\ passengerOk q = false
    /\ (forall j r, (j < k)%nat -> ps !! j = Some r -> passengerOk r = true)
    /\ In e (passengerMessages (i + k + 1)).
Proof.
  revert i. induction ps as [|q ps IH]; intros i; simpl; [ discriminate | ].
  assert (Hhere : forall msg,
             passengerOk q = false -> In msg (passengerMessages (i + 1)) ->
             Some msg = Some e ->
             exists k q0,
               (q :: ps) !! k = Some q0 /\ passengerOk q0 = false
               /\ (forall j r, (j < k)%nat -> (q :: ps) !! j = Some r ->
                               passengerOk r = true)
               /\ In e (passengerMessages (i + k + 1))).
  { intros msg Hq Hin Hv. inversion Hv; subst msg.
    exists 0%nat, q. split; [ reflexivity | ]. split; [ exact Hq | ].
    split; [ intros j r Hj; lia | ].
    now replace (i + 0 + 1)%nat with (i + 1)%nat by lia. }
  unfold passengerOk in Hhere |- *. unfold passengerMessages in Hhere.
  destruct (isEmpty (trim (passenger_name q))) eqn:En.
  { apply Hhere; [ reflexivity | simpl; tauto ]. }
  destruct (isEmpty (age q) || PrimFloat.ltb (toNumber (age q)) 1
            || PrimFloat.ltb 120 (toNumber (age q))) eqn:Ea.
  { apply Hhere; [ reflexivity | simpl; tauto ]. }
  destruct (isEmpty (gender q)) eqn:Eg.
  { apply Hhere; [ reflexivity | simpl; tauto ]. }
  clear Hhere. intros Hv.
  destruct (IH _ Hv) as (k & r & Hk & Hr & Hbefore & Hin).
  exists (S k), r. split; [ exact Hk | ]. split; [ exact Hr | ]. split.
  - intros [|j] r' Hj Hl; simpl in Hl.
    + inversion Hl; subst r'. now rewrite En, Ea, Eg.
    + apply (Hbefore j); [ lia | exact Hl ].
  - now replace (i + S k + 1)%nat with (S i + k + 1)%nat by lia.
Qed.

(** X8: on step 1, Continue moves on to seat selection exactly when every
    passenger has a name that is not blank, a non-empty age that is
    neither below 1 nor above 120, and a gender; otherwise the page stays
    on step 1 and the message shown names the first passenger, in list
    order, that fails. *)
Theorem continue_from_passengers_iff_all_valid (st : State) :
  currentStep st = 1%Z ->
  (currentStep (handleNext st) = 2%Z
   <-> forallb passengerOk (passengers st) = true)
  /\ (forallb passengerOk (passengers st) = false ->
      currentStep (handleNext st) = 1%Z
      /\ exists k q,
           passengers st !! k = Some q /\ passengerOk q = false
           /\ (forall j r, (j < k)%nat -> passengers st !! j = Some r ->
                           passengerOk r = true)
           /\ In (error (handleNext st)) (passengerMessages (k + 1))).
Proof.
  intros H1. unfold handleNext, validateStep. rewrite H1. simpl.
  destruct (validatePassengers 0 (passengers st)) as [e|] eqn:Ev; simpl.
  - assert (Hno : forallb passengerOk (passengers st) <> true).
    { intros Hok. apply (validatePassengers_ok 0) in Hok. congruence. }
    split; [ split; [ rewrite H1; lia | intros Hok; now destruct Hno ] | ].
    intros _. split; [ exact H1 | ].
    destruct (validatePassengers_first 0 _ e Ev) as (k & q & ? & ? & ? & ?).
    now exists k, q.
  - apply (validatePassengers_ok 0) in Ev. rewrite H1, Ev. simpl.
    split; [ tauto | discriminate ].
Qed.


Lemma orStr_not_empty (d : option string) (dflt : string) :
  isEmpty dflt = false -> isEmpty (orStr d dflt) = false.
Proof. intros Hd. destruct d as [[|c s]|]; simpl; auto. Qed.

(** X9: what a click on Pay sends.  If validation fails nothing is sent
    and only the message changes.  A payment request is sent only after
    the booking request, and only when the hold succeeded; the page
    navigates to the confirmation only when both requests succeeded, with
    the PNR of the payment response and no error left; whenever
    validation passed, the submitting flag is off again at the end and a
    submit that did not navigate leaves a message. *)
Theorem submit_sends_hold_then_payment (p : Props) (st : State)
    (hold pay : ApiResult Booking.t) :
  (forall e, validateStep st = Some e ->
     requests (handleSubmit p st hold pay) = []
     /\ navigated (handleSubmit p st hold pay) = None
     /\ after (handleSubmit p st hold pay) = setError st e)
  /\ (forall body,
        In (PostPayments body) (requests (handleSubmit p st hold pay)) ->
        exists booking first,
          hold = ApiOk booking
          /\ requests (handleSubmit p st hold pay)
             = [ PostBookings first; PostPayments body ])
  /\ (forall path,
        navigated (handleSubmit p st hold pay) = Some path ->
        exists booking confirmedBooking,
          hold = ApiOk booking /\ pay = ApiOk confirmedBooking
          /\ path = "/booking/confirmation/" +:+ Booking.pnr confirmedBooking
          /\ error (after (handleSubmit p st hold pay)) = ""%string)
  /\ (validateStep st = None ->
      submitting (after (handleSubmit p st hold pay)) = false
      /\ (navigated (handleSubmit p st hold pay) = None ->
          isEmpty (error (after (handleSubmit p st hold pay))) = false)).
Proof.
  assert (Hfb : isEmpty failedBooking = false) by reflexivity.
  unfold handleSubmit, caught.
  destruct (validateStep st) as [e0|]; simpl.
  { split; [ intros e E; inversion E; now subst | ].
    split; [ intros body [] | ]. split; [ discriminate | discriminate ]. }
  split; [ discriminate | ].
  destruct (flight st) as [f|], (user p) as [u|]; simpl;
    try (split; [ intros body [] | ]; split; [ discriminate | ];
         intros _; split; [ reflexivity | intros _; exact Hfb ]).
  destruct (isoDate _) as [d|]; simpl;
    try (split; [ intros body [] | ]; split; [ discriminate | ];
         intros _; split; [ reflexivity | intros _; exact Hfb ]).
  destruct hold as [booking|dh]; simpl.
  - destruct pay as [cb|dp]; simpl.
    + split.
      { intros body [E|[E|[]]]; [ discriminate | ]. inversion E; subst body.
        eexists _, _. split; reflexivity. }
      split.
      { intros path E. inversion E; subst path. eexists _, _.
        repeat split; reflexivity. }
      intros _. split; [ reflexivity | discriminate ].
    + split.
      { intros body [E|[E|[]]]; [ discriminate | ]. inversion E; subst body.
        eexists _, _. split; reflexivity. }
      split; [ discriminate | ].
      intros _. split; [ reflexivity | intros _; now apply orStr_not_empty ].
  - split; [ intros body [E|[]]; discriminate | ].
    split; [ discriminate | ].
    intros _. split; [ reflexivity | intros _; now apply orStr_not_empty ].
Qed.

(** X10: Back undoes Continue.  From steps 1 to 3, when Continue is
    accepted, Continue followed by Back gives the state back with only
    the error message cleared: every passenger, seat and price cell is as
    it was. *)
Theorem back_undoes_continue (st : State) :
  validateStep st = None ->
  (1 <= currentStep st <= 3)%Z ->
  handleBack (handleNext st) = setError st "".
Proof.
  intros Hv Hs. unfold handleBack, handleNext. rewrite Hv.
  destruct st as [cs fl ld sb er lp ps ss sc pm cd up bk]. simpl in *.
  unfold setCurrentStep, setError. simpl. f_equal. lia.
Qed.

Lemma append_space_not_empty (a b : string) :
  String.eqb (a +:+ " " +:+ b) "" = false.
Proof. now destruct a. Qed.

(** X11: the effect that pre-fills the first passenger with the user's
    name never overwrites a name that is already there, changes nothing
    but the first passenger's name, and gives the same state when it runs
    again. *)
Theorem prefill_only_fills_an_empty_first_name (p : Props) (st : State) :
  prefillUser p (prefillUser p st) = prefillUser p st
  /\ (forall q rest,
        passengers st = q :: rest -> passenger_name q <> ""%string ->
        prefillUser p st = st)
  /\ (forall i, (0 < i)%nat ->
        passengers (prefillUser p st) !! i = passengers st !! i)
  /\ (forall q q',
        passengers st !! 0%nat = Some q ->
        passengers (prefillUser p st) !! 0%nat = Some q' ->
        age q' = age q /\ gender q' = gender q)
  /\ selectedSeats (prefillUser p st) = selectedSeats st
  /\ lockedPrice (prefillUser p st) = lockedPrice st.
Proof.
  assert (Hshape :
    prefillUser p st = st
    \/ exists u q rest, user p = Some u /\ passengers st = q :: rest
         /\ passenger_name q = ""%string
         /\ prefillUser p st
            = setPassengers st
                (mkPassenger (User.first_name u +:+ " " +:+ User.last_name u)
                   (age q) (gender q) :: rest)).
  { unfold prefillUser. destruct (user p) as [u|]; [ | now left ].
    destruct (passengers st) as [|q rest] eqn:Ep; [ now left | ].
    destruct (String.eqb (passenger_name q) "") eqn:En; [ | now left ].
    right. exists u, q, rest. apply String.eqb_eq in En.
    repeat split; auto. }
  destruct Hshape as [E|(u & q & rest & Eu & Ep & En & E)].
  - rewrite !E. split; [ reflexivity | ]. split; [ reflexivity | ].
    split; [ reflexivity | ]. split; [ | now split ].
    intros q1 q' Hq Hq'. rewrite Hq in Hq'. inversion Hq'. now split.
  - rewrite E. split.
    { unfold prefillUser. rewrite Eu. simpl.
      now rewrite append_space_not_empty. }
    split.
    { intros q1 rest1 E1 Hne. rewrite Ep in E1. inversion E1; subst. congruence. }
    simpl. rewrite Ep.
    split; [ intros [|i] Hi; [ lia | reflexivity ] | ].
    split; [ | now split ].
    intros q1 q' Hq Hq'. simpl in Hq, Hq'. inversion Hq; inversion Hq'; subst.
    now split.
Qed.

(** X12: typing into one field of one passenger card changes that field
    of that passenger and nothing else: the other passengers, the other
    two fields, the number of passengers, the seats and the total stay as
    they are. *)
Theorem passenger_edit_touches_one_field (st : State) (index : nat)
    (field : Field) (value : string) :
  length (passengers (handlePassengerChange st index field value))
  = length (passengers st)
  /\ (forall j, j <> index ->
        passengers (handlePassengerChange st index field value) !! j
        = passengers st !! j)
  /\ (forall q,
        passengers st !! index = Some q ->
        passengers (handlePassengerChange st index field value) !! index
        = Some (updateField field value q))
  /\ (forall q,
        match field with
        | f_passenger_name =>
            age (updateField field value q) = age q
            /\ gender (updateField field value q) = gender q
        | f_age =>
            passenger_name (updateField field value q) = passenger_name q
            /\ gender (updateField field value q) = gender q
        | f_gender =>
            passenger_name (updateField field value q) = passenger_name q
            /\ age (updateField field value q) = age q
        end)
  /\ selectedSeats (handlePassengerChange st index field value)
     = selectedSeats st
  /\ totalPrice (handlePassengerChange st index field value) = totalPrice st.
Proof.
  unfold handlePassengerChange. simpl.
  split; [ apply length_alter | ].
  split; [ intros j Hj; now apply list_lookup_alter_ne | ].
  split; [ intros q Hq; now rewrite list_lookup_alter_eq, Hq | ].
  split; [ intros q; destruct field; now split | ].
  split; [ reflexivity | ].
  unfold totalPrice, baseTotalPrice, tierPrice. simpl.
  now rewrite length_alter.
Qed.

End WithHost.

Lemma truthy_not_nan (x : float) : truthy x = true -> isNaN x = false.
Proof.
  unfold truthy. intros Ht. apply negb_true_iff, orb_false_iff in Ht. tauto.
Qed.

Lemma orNum_zero_clean (a : option float) :
  isNaN (orNum a 0%float) = false
  /\ (orNum a 0%float = 0%float \/ truthy (orNum a 0%float) = true).
Proof.
  unfold orNum. destruct a as [x|]; [ | split; [ reflexivity | now left ] ].
  destruct (truthy x) eqn:Et; [ | split; [ reflexivity | now left ] ].
  split; [ now apply truthy_not_nan | now right ].
Qed.

(** X13: the prices the pages work with are never NaN: the base price
    the booking page takes from a loaded flight, and the price the
    results page shows for a flight and a class, are a non-zero number
    sent by the server or else exactly 0, whatever mix of missing, zero
    or NaN price fields the response carries. *)
Theorem page_prices_are_never_nan :
  (forall data : Flight.t,
      isNaN (basePrice data) = false
      /\ (basePrice data = 0%float \/ truthy (basePrice data) = true))
  /\ (forall (f : FlightsPage.Flight) (tier : string),
        isNaN (FlightsPage.getFlightPrice f tier) = false
        /\ (FlightsPage.getFlightPrice f tier = 0%float
            \/ truthy (FlightsPage.getFlightPrice f tier) = true)).
Proof.
  split.
  - intros data. apply orNum_zero_clean.
  - intros f tier. unfold FlightsPage.getFlightPrice.
    destruct (FlightsPage.price_map f) as [pm|]; [ | apply orNum_zero_clean ].
    destruct (pm !! tier) as [x|]; [ | apply orNum_zero_clean ].
    destruct (truthy x) eqn:Et; [ | apply orNum_zero_clean ].
    split; [ now apply truthy_not_nan | now right ].
Qed.

(** The payment step of the sample booking is a state of the page, its
    step is 4, it has two passengers and its form is rendered with the
    flight loaded. *)
Lemma current_step_stays_between_1_and_4_witness :
  (1 <= currentStep Samples.paymentState <= 4)%Z.
Proof.
  apply (current_step_stays_between_1_and_4 (H := Samples.host) Samples.quoted).
  apply (run_reachable (H := Samples.host) Samples.quoted Samples.toPayment
           (initialState Samples.quoted));
    [ constructor | vm_compute; reflexivity ].
Defined.

Lemma passenger_count_stays_between_1_and_9_witness :
  (1 <= length (passengers Samples.paymentState) <= 9)%nat.
Proof.
  apply (passenger_count_stays_between_1_and_9 (H := Samples.host)
           Samples.quoted).
  - vm_compute. split; discriminate.
  - apply (run_reachable (H := Samples.host) Samples.quoted Samples.toPayment
             (initialState Samples.quoted));
      [ constructor | vm_compute; reflexivity ].
Defined.

Lemma form_is_rendered_only_with_a_flight_witness :
  is_Some (flight Samples.paymentState).
Proof.
  apply (form_is_rendered_only_with_a_flight (H := Samples.host) Samples.quoted).
  - apply (run_reachable (H := Samples.host) Samples.quoted Samples.toPayment
             (initialState Samples.quoted));
      [ constructor | vm_compute; reflexivity ].
  - vm_compute. reflexivity.
Defined.

(** A page on step 1 with one complete passenger and one without a
    gender: Continue is refused. *)
Lemma continue_from_passengers_iff_all_valid_witness :
  currentStep
    (handleNext (H := Samples.host)
       (setPassengers (initialState Samples.quoted)
          [ mkPassenger "Asha Rao" "30" "F"; mkPassenger "Ravi Rao" "31" "" ]))
  = 2%Z
  <-> forallb (passengerOk (H := Samples.host))
        [ mkPassenger "Asha Rao" "30" "F"; mkPassenger "Ravi Rao" "31" "" ]
      = true.
Proof.
  apply (continue_from_passengers_iff_all_valid (H := Samples.host)
           (setPassengers (initialState Samples.quoted)
              [ mkPassenger "Asha Rao" "30" "F";
                mkPassenger "Ravi Rao" "31" "" ])).
  reflexivity.
Defined.

Lemma back_undoes_continue_witness :
  handleBack (handleNext (H := Samples.host) Samples.reviewState)
  = setError Samples.reviewState "".
Proof.
  apply (back_undoes_continue (H := Samples.host) Samples.reviewState).
  - vm_compute. reflexivity.
  - vm_compute. split; discriminate.
Defined.

End BookingFlowTheorems.

(* ===================================================================== *)
(** * More properties of the flight results                               *)
(* ===================================================================== *)

Module FlightsTheorems.
Import JS FlightsPage FlightsSearch.

Section WithEngine.
Context `{Engine}.

(** Sorting loses and repeats nothing, on every engine. *)
Lemma filteredFlights_Permutation (st : State) :
  filteredFlights st
  ≡ₚ base.filter (fun f => passesFilter st f = true) (flights st).
Proof. apply sort_permutation. Qed.

(** X14: the list shown holds exactly the fetched flights that pass the
    airline filter, each as often as it was fetched: sorting loses and
    repeats nothing, and with the filter on [all] every fetched flight is
    shown. *)
Theorem shown_flights_are_the_filtered_flights (st : State) :
  filteredFlights st
  ≡ₚ base.filter (fun f => passesFilter st f = true) (flights st)
  /\ (forall f,
        In f (filteredFlights st)
        <-> In f (flights st) /\ passesFilter st f = true)
  /\ (filterAirline st = "all"%string -> filteredFlights st ≡ₚ flights st).
Proof.
  pose proof (filteredFlights_Permutation st) as Hp.
  split; [ exact Hp | ]. split.
  - intros f. rewrite <- !list_elem_of_In, Hp, list_elem_of_filter. tauto.
  - intros Hall. rewrite Hp. clear Hp.
    induction (flights st) as [|f l IH]; [ reflexivity | ].
    rewrite filter_cons.
    destruct (decide (passesFilter st f = true)) as [_|N];
      [ now rewrite IH | ].
    exfalso. apply N. unfold passesFilter. now rewrite Hall.
Qed.

Lemma handleClassSelect_tier (st : State) (i : Z) (t : string) (f : Flight) :
  t <> EmptyString ->
  selectedTier (handleClassSelect st i t) f
  = if decide (id f = i) then t else selectedTier st f.
Proof.
  intros Ht. unfold selectedTier, handleClassSelect. simpl.
  destruct (decide (id f = i)) as [->|N].
  - rewrite lookup_insert_eq. destruct t; [ congruence | reflexivity ].
  - now rewrite lookup_insert_ne by congruence.
Qed.

(** X15: choosing a class on one flight card selects that class for the
    flights with that id and leaves the selection of every other flight
    alone; it may reorder the list but never changes which flights are
    shown. *)
Theorem class_choice_is_per_flight (st : State) (i : Z) (t : string) :
  t <> EmptyString ->
  (forall f, id f = i -> selectedTier (handleClassSelect st i t) f = t)
  /\ (forall f, id f <> i ->
        selectedTier (handleClassSelect st i t) f = selectedTier st f)
  /\ filteredFlights (handleClassSelect st i t) ≡ₚ filteredFlights st.
Proof.
  intros Ht. split; [ | split ].
  - intros f Hf. rewrite handleClassSelect_tier by exact Ht.
    now destruct (decide (id f = i)).
  - intros f Hf. rewrite handleClassSelect_tier by exact Ht.
    now destruct (decide (id f = i)).
  - now rewrite !filteredFlights_Permutation.
Qed.

End WithEngine.

(** Business is chosen on flight 2 of the two sample flights. *)
Lemma class_choice_is_per_flight_witness :
  selectedTier (handleClassSelect (Samples.tied "price") 2 "BUSINESS")
    (Samples.flightNo 2) = "BUSINESS"%string
  /\ selectedTier (handleClassSelect (Samples.tied "price") 2 "BUSINESS")
       (Samples.flightNo 1) = "ECONOMY"%string.
Proof.
  destruct (class_choice_is_per_flight (H := insertionEngine)
              (Samples.tied "price") 2 "BUSINESS"
              ltac:(discriminate)) as (Hsame & Hother & _).
  split; [ now apply Hsame | ].
  rewrite Hother by (simpl; lia). reflexivity.
Defined.

Lemma initialClasses_lookup (data : list Flight) (m : gmap Z string) (i : Z) :
  foldl (fun m f => <[id f := "ECONOMY"%string]> m) m data !! i
  = if bool_decide (i ∈ map id data) then Some "ECONOMY"%string else m !! i.
Proof.
  revert m. induction data as [|f data IH]; intros m; cbn [foldl map].
  - rewrite bool_decide_eq_false_2; [ reflexivity | ]. apply not_elem_of_nil.
  - rewrite IH. destruct (bool_decide (i ∈ map id data)) eqn:E.
    + apply bool_decide_eq_true in E.
      rewrite bool_decide_eq_true_2; [ reflexivity | ]. now right.
    + apply bool_decide_eq_false in E.
      destruct (decide (i = id f)) as [->|N].
      * rewrite lookup_insert_eq.
        rewrite bool_decide_eq_true_2; [ reflexivity | ]. now left.
      * rewrite lookup_insert_ne by congruence.
        rewrite bool_decide_eq_false_2; [ reflexivity | ].
        intros Hin. apply elem_of_cons in Hin. tauto.
Qed.

(** X16: a search.  Without an origin or a destination no request is
    sent and the results stay as they are.  Otherwise exactly one request
    is sent, asking for all tiers, with the date only when one is set.
    When it succeeds the fetched flights replace the old ones and every
    one of them has ECONOMY selected, whatever was selected before; when
    it fails the list is emptied and a message is left.  Either way the
    loading flag is off. *)
Theorem search_resets_results_and_classes `{Engine} (pg : Page)
    (r : ApiResult (list Flight)) :
  (isEmpty (origin pg) || isEmpty (destination pg) = true ->
   requested (handleSearch pg r) = []
   /\ navigated (handleSearch pg r) = []
   /\ results (after (handleSearch pg r)) = results pg
   /\ loading (after (handleSearch pg r)) = loading pg)
  /\ (isEmpty (origin pg) || isEmpty (destination pg) = false ->
      requested (handleSearch pg r) = [ searchParams pg ]
      /\ In ("tier", "all")%string (searchParams pg)
      /\ (In "date"%string (map fst (searchParams pg))
          <-> date pg <> EmptyString)
      /\ loading (after (handleSearch pg r)) = false
      /\ (forall data, r = ApiOk data ->
            flights (results (after (handleSearch pg r))) = data
            /\ (forall f, In f data ->
                  selectedTier (results (after (handleSearch pg r))) f
                  = "ECONOMY"%string)
            /\ error (after (handleSearch pg r)) = ""%string
            /\ navigated (handleSearch pg r) = [ searchParams pg ])
      /\ (forall d, r = ApiErr d ->
            filteredFlights (results (after (handleSearch pg r))) = []
            /\ isEmpty (error (after (handleSearch pg r))) = false
            /\ navigated (handleSearch pg r) = [])).
Proof.
  unfold handleSearch.
  destruct (isEmpty (origin pg) || isEmpty (destination pg)) eqn:E.
  - split; [ intros _; repeat split | discriminate ].
  - split; [ discriminate | intros _ ].
    split; [ now destruct r | ].
    split.
    { unfold searchParams. apply in_or_app. right. apply in_or_app. right.
      simpl. tauto. }
    split.
    { unfold searchParams. destruct (date pg) eqn:Ed; simpl.
      - split; [ | congruence ].
        intros [Hd|[Hd|[Hd|[Hd|[]]]]]; discriminate.
      - split; [ congruence | tauto ]. }
    split; [ now destruct r | ].
    split.
    + intros data ->. simpl. split; [ reflexivity | ].
      split; [ | now split ].
      intros f Hf. unfold selectedTier. simpl.
      unfold initialClasses. rewrite initialClasses_lookup.
      rewrite bool_decide_eq_true_2; [ reflexivity | ].
      apply list_elem_of_In, in_map, Hf.
    + intros d ->. simpl. split; [ apply Permutation_nil_r, sort_permutation | ].
      split; [ | reflexivity ].
      destruct d as [[|c s]|]; reflexivity.
Qed.

End FlightsTheorems.

(* ===================================================================== *)
(** * More properties of the bookings list                                *)
(* ===================================================================== *)

Module BookingsListTheorems.
Import JS MyBookingsPage MyBookingsView.

Lemma markCancelled_In (p : option string) (prev : list Booking) (b : Booking) :
  In b (markCancelled p prev) ->
  (exists b0, In b0 prev /\ pnr b0 = p /\ b = withCancelled b0)
  \/ (In b prev /\ pnr b <> p).
Proof.
  unfold markCancelled. rewrite in_map_iff. intros (b0 & E & Hin).
  destruct (bool_decide (pnr b0 = p)) eqn:Ep.
  - apply bool_decide_eq_true in Ep. left. now exists b0.
  - apply bool_decide_eq_false in Ep. right. now subst b.
Qed.

(** X17: after a cancellation that the user confirmed and the server
    accepted, every listed booking with that PNR shows neither the Cancel
    nor the Download button, is listed under the filter [cancelled] and
    under [all], and is not listed under [confirmed] or [pending]. *)
Theorem cancelled_booking_loses_its_buttons (st : State) (p : option string)
    (b : Booking) :
  In b (bookings (after (handleCancelBooking st p true (ApiOk tt)))) ->
  pnr b = p ->
  offersCancel b = false /\ offersDownload b = false
  /\ (forall f,
        In b (filteredBookings
                (setFilter (after (handleCancelBooking st p true (ApiOk tt))) f))
        <-> f = "all"%string \/ f = "cancelled"%string).
Proof.
  simpl. intros Hin Hp.
  assert (Hs : status b = Some "Cancelled"%string).
  { destruct (markCancelled_In _ _ _ Hin) as [(b0 & _ & _ & ->)|[_ N]];
      [ reflexivity | congruence ]. }
  unfold offersCancel, offersDownload, statusIs. rewrite Hs.
  split; [ reflexivity | ]. split; [ reflexivity | ].
  intros f. unfold filteredBookings. simpl. rewrite filter_In.
  unfold statusIs. rewrite Hs.
  change (toLowerCase "Cancelled") with "cancelled"%string.
  destruct (String.eqb f "all") eqn:Ea.
  - apply String.eqb_eq in Ea. tauto.
  - apply String.eqb_neq in Ea. rewrite String.eqb_sym.
    destruct (String.eqb f "cancelled") eqn:Ec.
    + apply String.eqb_eq in Ec. tauto.
    + apply String.eqb_neq in Ec. split; [ intros [_ ?]; discriminate | tauto ].
Qed.

(** Cancelling K7M2QX in a list of two confirmed bookings. *)
Lemma cancelled_booking_loses_its_buttons_witness :
  offersCancel
    (mkBooking (Some "K7M2QX") (Some "Cancelled") None None
       (Some 5000%float) (Some 5000%float) None) = false.
Proof.
  apply (cancelled_booking_loses_its_buttons
           (mkState
              [ mkBooking (Some "K7M2QX") (Some "Confirmed") None None
                  (Some 5000%float) (Some 5000%float) None;
                mkBooking (Some "P4RT9Z") (Some "Confirmed") None None
                  (Some 7000%float) (Some 7000%float) None ]
              false "" "all" None None)
           (Some "K7M2QX")).
  - simpl. left. reflexivity.
  - reflexivity.
Defined.

Lemma withCancelled_idem (b : Booking) :
  withCancelled (withCancelled b) = withCancelled b.
Proof. reflexivity. Qed.

(** X18: cancelling is idempotent and order-free on the list: cancelling
    the same PNR a second time changes nothing more, and cancelling two
    PNRs gives the same list in either order. *)
Theorem cancelling_twice_or_in_either_order (st : State)
    (p q : option string) :
  bookings
    (after (handleCancelBooking
              (after (handleCancelBooking st p true (ApiOk tt)))
              p true (ApiOk tt)))
  = bookings (after (handleCancelBooking st p true (ApiOk tt)))
  /\ bookings
       (after (handleCancelBooking
                 (after (handleCancelBooking st p true (ApiOk tt)))
                 q true (ApiOk tt)))
     = bookings
         (after (handleCancelBooking
                   (after (handleCancelBooking st q true (ApiOk tt)))
                   p true (ApiOk tt))).
Proof.
  simpl. unfold markCancelled. rewrite !map_map. split.
  - apply map_ext. intros b.
    destruct (bool_decide (pnr b = p)) eqn:E; simpl; rewrite E; reflexivity.
  - apply map_ext. intros b.
    destruct (bool_decide (pnr b = p)) eqn:Ep,
             (bool_decide (pnr b = q)) eqn:Eq; simpl;
      rewrite ?Ep, ?Eq; reflexivity.
Qed.

End BookingsListTheorems.

(* ===================================================================== *)
(** * More properties of the PNR modal                                    *)
(* ===================================================================== *)

Module PnrModalTheorems.
Import JS Navbar NavbarModal.

(** X19: the outcome of a PNR check.  With a blank input nothing is
    requested, the message asks for a PNR and the status shown before is
    left in place.  Otherwise exactly one request is made, the loading
    flag is off afterwards, and either a status is shown with no error,
    or an error is shown with no status: a stale status is never left
    beside the error of a later lookup. *)
Theorem pnr_check_shows_status_or_error
    {P} (server : string -> ApiResult P) (st : State P) :
  (isEmpty (trim (pnrInput st)) = true ->
   got (handlePnrCheck server st) = []
   /\ pnrError (after (handlePnrCheck server st)) = "Please enter a PNR number"%string
   /\ pnrStatus (after (handlePnrCheck server st)) = pnrStatus st
   /\ pnrLoading (after (handlePnrCheck server st)) = pnrLoading st)
  /\ (isEmpty (trim (pnrInput st)) = false ->
      got (handlePnrCheck server st) = [ pnrStatusPath (pnrInput st) ]
      /\ pnrLoading (after (handlePnrCheck server st)) = false
      /\ ((exists data,
             pnrStatus (after (handlePnrCheck server st)) = Some data
             /\ pnrError (after (handlePnrCheck server st)) = ""%string)
          \/ (pnrStatus (after (handlePnrCheck server st)) = None
              /\ isEmpty (pnrError (after (handlePnrCheck server st))) = false)))
  /\ pnrInput (after (handlePnrCheck server st)) = pnrInput st
  /\ isPnrModalOpen (after (handlePnrCheck server st)) = isPnrModalOpen st.
Proof.
  unfold handlePnrCheck.
  destruct (isEmpty (trim (pnrInput st))) eqn:E; simpl.
  - split; [ intros _; repeat split | ]. split; [ discriminate | now split ].
  - split; [ discriminate | ].
    destruct (server (pnrStatusPath (pnrInput st))) as [data|d]; simpl.
    + split; [ | now split ]. intros _. split; [ reflexivity | ].
      split; [ reflexivity | ]. left. now exists data.
    + split; [ | now split ]. intros _. split; [ reflexivity | ].
      split; [ reflexivity | ]. right. split; [ reflexivity | ].
      destruct d as [[|c s]|]; reflexivity.
Qed.

(** X20: what is typed into the PNR box is shown in upper case, and the
    lookup asks for exactly the text shown, trimmed; closing the modal
    clears the box, the status and the error, so a check right after it
    asks for nothing. *)
Theorem typed_pnr_is_looked_up_as_shown
    {P} (server : string -> ApiResult P) (st : State P) (value : string) :
  pnrInput (changePnrInput st value) = toUpperCase value
  /\ got (handlePnrCheck server (changePnrInput st value))
     = (if isEmpty (trim value) then []
        else [ "/bookings/pnr-status/"
               +:+ trim (pnrInput (changePnrInput st value)) ])
  /\ got (handlePnrCheck server (closePnrModal (changePnrInput st value))) = []
  /\ pnrStatus (closePnrModal st) = None
  /\ pnrError (closePnrModal st) = ""%string.
Proof.
  split; [ reflexivity | ]. split; [ | now repeat split ].
  unfold handlePnrCheck, pnrStatusPath, changePnrInput. simpl.
  rewrite !PnrTheorems.trim_toUpperCase, PnrTheorems.isEmpty_toUpperCase,
    PnrTheorems.toUpperCase_idem.
  destruct (isEmpty (trim value)); simpl; [ reflexivity | ].
  now destruct (server _).
Qed.

End PnrModalTheorems.

(* ===================================================================== *)
(** * Properties of the auth context and the API client                   *)
(* ===================================================================== *)

Module AuthTheorems.
Import JS Auth.

(** X21: the role checks.  Nobody logged in has no role; a user is staff
    exactly when admin, airline staff or airport authority; and no user
    is two of these at once. *)
Theorem staff_is_one_of_three_roles (st : State) :
  isStaff st = isAdmin st || isAirlineStaff st || isAirportAuthority st
  /\ (isAdmin st && isAirlineStaff st = false)
  /\ (isAdmin st && isAirportAuthority st = false)
  /\ (isAirlineStaff st && isAirportAuthority st = false)
  /\ (user st = None -> forall roles, hasRole st roles = false).
Proof.
  unfold isStaff, isAdmin, isAirlineStaff, isAirportAuthority, hasRole.
  destruct (user st) as [u|]; [ | repeat split ].
  split; [ | split; [ | split; [ | split; [ | discriminate ] ] ] ].
  - destruct (String.eqb (role u) "admin") eqn:E1;
      [ apply String.eqb_eq in E1; rewrite E1; reflexivity | ].
    destruct (String.eqb (role u) "airline_staff") eqn:E2;
      [ apply String.eqb_eq in E2; rewrite E2; reflexivity | ].
    destruct (String.eqb (role u) "airport_authority") eqn:E3;
      [ apply String.eqb_eq in E3; rewrite E3; reflexivity | ].
    apply String.eqb_neq in E1, E2, E3. simpl.
    apply bool_decide_eq_false_2. intros Hin.
    repeat (apply elem_of_cons in Hin; destruct Hin as [Hin|Hin];
            [ congruence | ]).
    now apply elem_of_nil in Hin.
  - destruct (String.eqb (role u) "admin") eqn:E1; [ | reflexivity ].
    apply String.eqb_eq in E1. now rewrite E1.
  - destruct (String.eqb (role u) "admin") eqn:E1; [ | reflexivity ].
    apply String.eqb_eq in E1. now rewrite E1.
  - destruct (String.eqb (role u) "airline_staff") eqn:E1; [ | reflexivity ].
    apply String.eqb_eq in E1. now rewrite E1.
Qed.





(** X23: logging in and out.  A failed login leaves the provider as it
    is and reports the server's message or [Login failed]; the stored
    token is left as it is too, unless the response has status 401 (and
    is neither a timeout nor a network error): then the response
    interceptor removes it.  A successful login with a non-empty token
    leaves the user authenticated and the token stored.  A logout,
    whatever the server answers, leaves nobody authenticated, no role, no
    stored token and no [Authorization] header added to later requests. *)
Theorem login_and_logout_round_trip (w : World) :
  (forall e,
      ctx (fst (login w (Rejected e))) = ctx w
      /\ (status e <> Some 401%Z ->
          stored (fst (login w (Rejected e))) = stored w)
      /\ (status e = Some 401%Z ->
          code e <> Some "ECONNABORTED"%string ->
          code e <> Some "ERR_NETWORK"%string ->
          stored (fst (login w (Rejected e))) = None)
      /\ (code e = Some "ECONNABORTED"%string
          \/ code e = Some "ERR_NETWORK"%string ->
          stored (fst (login w (Rejected e))) = stored w)
      /\ exists m,
           snd (login w (Rejected e)) = LoginFailed m /\ isEmpty m = false)
  /\ (forall t u,
        isEmpty t = false ->
        isAuthenticated (ctx (fst (login w (Fulfilled (t, u))))) = true
        /\ stored (fst (login w (Fulfilled (t, u)))) = Some t
        /\ user (ctx (fst (login w (Fulfilled (t, u))))) = Some u
        /\ requestAuthorization (stored (fst (login w (Fulfilled (t, u))))) None
           = Some ("Bearer " +:+ t))
  /\ (forall r,
        isAuthenticated (ctx (logout w r)) = false
        /\ (forall roles, hasRole (ctx (logout w r)) roles = false)
        /\ stored (logout w r) = None
        /\ requestAuthorization (stored (logout w r)) None = None
        /\ forall t u r',
             logout (fst (login w (Fulfilled (t, u)))) r' = logout w r).
Proof.
  split; [ | split ].
  - intros e. simpl. unfold onResponseError.
    split; [ reflexivity | ]. split; [ | split; [ | split ] ].
    + intros Hs. repeat (destruct (bool_decide _); [ reflexivity | ]).
      now rewrite bool_decide_eq_false_2 by assumption.
    + intros Hs H1 H2. rewrite !bool_decide_eq_false_2 by assumption.
      now rewrite bool_decide_eq_true_2 by assumption.
    + intros [Hc|Hc]; rewrite Hc.
      * reflexivity.
      * now rewrite bool_decide_eq_false_2 by discriminate.
    + eexists. split; [ reflexivity | ].
      destruct (detail e) as [[|c s]|]; reflexivity.
  - intros t u Ht. simpl. unfold isAuthenticated, requestAuthorization. simpl.
    rewrite Ht. destruct t; [ discriminate | ]. repeat split.
  - intros r. repeat split.
Qed.

(** X24: restoring a session on start-up.  Afterwards the provider is no
    longer loading.  With no stored token (or an empty one) nothing is
    asked and nobody is authenticated; with one, the user is
    authenticated exactly when the server accepted the token, and a
    rejected token is removed from storage. *)
Theorem session_restore (s : option string) (r : ApiResult User) :
  loading (ctx (initAuth (initial s) r)) = false
  /\ (BookingPage.isFalsyStr s = true ->
      isAuthenticated (ctx (initAuth (initial s) r)) = false
      /\ stored (initAuth (initial s) r) = s)
  /\ (BookingPage.isFalsyStr s = false ->
      (forall u, r = ApiOk u ->
         isAuthenticated (ctx (initAuth (initial s) r)) = true
         /\ user (ctx (initAuth (initial s) r)) = Some u
         /\ stored (initAuth (initial s) r) = s)
      /\ (forall d, r = ApiErr d ->
            isAuthenticated (ctx (initAuth (initial s) r)) = false
            /\ stored (initAuth (initial s) r) = None
            /\ token (ctx (initAuth (initial s) r)) = None)).
Proof.
  unfold initAuth, initial, isAuthenticated. simpl.
  destruct (BookingPage.isFalsyStr s) eqn:Es; simpl.
  - split; [ reflexivity | ]. split; [ | discriminate ]. intros _. now split.
  - split; [ now destruct r | ]. split; [ discriminate | ]. intros _. split.
    + intros u ->. simpl. now rewrite Es.
    + intros d ->. simpl. now repeat split.
Qed.

(** X25: a response rejected with status 401 removes the stored token,
    so the client adds no [Authorization] header of its own to the next
    request, while the provider's own cells are left as they are; a
    timeout or a network error removes nothing. *)
Theorem unauthorized_response_clears_stored_token (w : World)
    (code : option string) :
  (code <> Some "ECONNABORTED"%string -> code <> Some "ERR_NETWORK"%string ->
   stored (step w (ResponseError code (Some 401%Z))) = None
   /\ (forall caller,
         requestAuthorization (stored (step w (ResponseError code (Some 401%Z))))
           caller = caller)
   /\ ctx (step w (ResponseError code (Some 401%Z))) = ctx w)
  /\ (forall status,
        stored (step w (ResponseError (Some "ECONNABORTED"%string) status))
        = stored w
        /\ stored (step w (ResponseError (Some "ERR_NETWORK"%string) status))
           = stored w)
  /\ (forall status, status <> Some 401%Z ->
        stored (step w (ResponseError code status)) = stored w).
Proof.
  simpl. unfold onResponseError. split; [ | split ].
  - intros H1 H2. rewrite !bool_decide_eq_false_2 by assumption.
    rewrite bool_decide_eq_true_2 by reflexivity. now repeat split.
  - intros status. split; [ reflexivity | ].
    now rewrite bool_decide_eq_false_2 by discriminate.
  - intros status Hs.
    destruct (bool_decide (code = Some "ECONNABORTED"%string)); [ reflexivity | ].
    destruct (bool_decide (code = Some "ERR_NETWORK"%string)); [ reflexivity | ].
    now rewrite bool_decide_eq_false_2 by assumption.
Qed.

End AuthTheorems.

(* ===================================================================== *)
(** * From the home form to the results page to the booking page          *)
(* ===================================================================== *)

Module NavigationTheorems.
Import JS.

Lemma parseInt_pretty_1_to_9 (n : Z) :
  (1 <= n <= 9)%Z -> parseInt (pretty n) = Some n.
Proof.
  intros Hn.
  assert (Hc : (n = 1 \/ n = 2 \/ n = 3 \/ n = 4 \/ n = 5 \/ n = 6 \/ n = 7
               \/ n = 8 \/ n = 9)%Z) by lia.
  repeat (destruct Hc as [->|Hc]; [ vm_compute; reflexivity | ]).
  subst n. vm_compute. reflexivity.
Qed.

(** X26: a search from the home form.  The results page opens with the
    origin, destination and date of the form and, for 1 to 9 passengers,
    with that number of passengers; it searches by itself exactly when
    origin and destination are both set; the class chosen on the form
    makes no difference to the page that opens; and swapping origin and
    destination twice gives the form back. *)
Theorem home_search_opens_results_page (f : HomeForm.FormData) :
  FlightsSearch.origin (FlightsUrl.fromUrl (HomeForm.submitParams f))
  = HomeForm.origin f
  /\ FlightsSearch.destination (FlightsUrl.fromUrl (HomeForm.submitParams f))
     = HomeForm.destination f
  /\ FlightsSearch.date (FlightsUrl.fromUrl (HomeForm.submitParams f))
     = HomeForm.date f
  /\ (forall n : Z,
        (1 <= n <= 9)%Z -> HomeForm.passengers f = pretty n ->
        FlightsSearch.passengers (FlightsUrl.fromUrl (HomeForm.submitParams f))
        = n)
  /\ FlightsUrl.autoSearches (HomeForm.submitParams f)
     = negb (isEmpty (HomeForm.origin f) || isEmpty (HomeForm.destination f))
  /\ (forall c,
        FlightsUrl.fromUrl
          (HomeForm.submitParams
             (HomeForm.handleChange f HomeForm.n_travelClass c))
        = FlightsUrl.fromUrl (HomeForm.submitParams f))
  /\ HomeForm.swapLocations (HomeForm.swapLocations f) = f.
Proof.
  destruct f as [o d dt ps tt tc]. unfold FlightsUrl.fromUrl. simpl.
  split; [ now destruct o | ]. split; [ now destruct d | ].
  split; [ now destruct dt | ]. split.
  - intros n Hn ->. unfold FlightsUrl.passengersOf. simpl.
    rewrite parseInt_pretty_1_to_9 by exact Hn.
    destruct (n =? 0)%Z eqn:E; [ apply Z.eqb_eq in E; lia | reflexivity ].
  - split; [ | now split ].
    unfold FlightsUrl.autoSearches. simpl. now destruct o, d.
Qed.

Lemma orStr_orStr (a : option string) (d : string) :
  isEmpty d = false -> orStr (Some (orStr a d)) d = orStr a d.
Proof.
  intros Hd. destruct a as [[|c s]|]; simpl; try reflexivity;
    now destruct d.
Qed.

(** X27: the price on the flight card is the price of the booking.  When
    the Book button of a flight card is pressed whose selected class is
    one of [SEAT_CLASSES] and whose price for it is a non-zero Number
    below 1e21 in magnitude, the booking page opens; its per-passenger
    price is the card's price in every state of the page, the tier of
    the booking is the class selected on the card, and for 1 to 9
    passengers the page starts with that many passenger forms. *)
Theorem booking_from_card_locks_the_card_price
    `{Host} (pg : FlightsSearch.Page) (f : FlightsPage.Flight)
    (user : option BookingPage.User.t) (authLoading : bool) :
  In (FlightsPage.selectedTier (FlightsSearch.results pg) f)
     (map FlightsPage.value FlightsPage.SEAT_CLASSES) ->
  truthy (FlightsPage.getFlightPrice f
            (FlightsPage.selectedTier (FlightsSearch.results pg) f)) = true ->
  PrimFloat.ltb
    (PrimFloat.abs
       (FlightsPage.getFlightPrice f
          (FlightsPage.selectedTier (FlightsSearch.results pg) f)))
    1e21%float = true ->
  (Z.abs (FlightsPage.id f) < 10 ^ 21)%Z ->
  (Z.abs (FlightsSearch.passengers pg) < 10 ^ 21)%Z ->
  exists p : BookingPage.Props,
    FlightsUrl.bookingProps pg f user authLoading = Some p
    /\ BookingPage.seatTier p
       = FlightsPage.selectedTier (FlightsSearch.results pg) f
    /\ ((1 <= FlightsSearch.passengers pg <= 9)%Z ->
        length (BookingPage.passengers (BookingPage.initialState p))
        = Z.to_nat (FlightsSearch.passengers pg))
    /\ forall st : BookingPage.State,
         BookingPage.reachable p st ->
         BookingPage.lockedPrice st
         = FlightsPage.getFlightPrice f
             (FlightsPage.selectedTier (FlightsSearch.results pg) f).
Proof.
  intros Hin Ht Hb Hid Hn. unfold FlightsUrl.bookingProps.
  set (tier := FlightsPage.selectedTier (FlightsSearch.results pg) f) in *.
  set (price := FlightsPage.getFlightPrice f tier) in *.
  assert (Hq : PrimFloat.eqb price 0%float = false).
  { unfold truthy in Ht. apply negb_true_iff, orb_false_iff in Ht.
    exact (proj1 Ht). }
  assert (E1 : FlightsUrl.intText (FlightsPage.id f)
               = Some (pretty (FlightsPage.id f))).
  { unfold FlightsUrl.intText.
    destruct (Z.ltb_spec (Z.abs (FlightsPage.id f)) (10 ^ 21)); [ reflexivity | lia ]. }
  assert (E2 : FlightsUrl.intText (FlightsSearch.passengers pg)
               = Some (pretty (FlightsSearch.passengers pg))).
  { unfold FlightsUrl.intText.
    destruct (Z.ltb_spec (Z.abs (FlightsSearch.passengers pg)) (10 ^ 21));
      [ reflexivity | lia ]. }
  assert (E3 : FlightsUrl.plainText tier = Some tier).
  { simpl in Hin. destruct Hin as [<-|[<-|[<-|[]]]]; reflexivity. }
  assert (E4 : FlightsUrl.priceRead price = Some price).
  { unfold FlightsUrl.priceRead. now rewrite Hq, Hb. }
  rewrite E1, E2, E3, E4. cbn [mbind option_bind].
  eexists. split; [ reflexivity | ]. split; [ | split ].
  - unfold BookingPage.seatTier. cbn [BookingPage.tierParam].
    apply orStr_orStr. reflexivity.
  - intros H19. unfold BookingPage.initialState, BookingPage.passengersCount.
    cbn [BookingPage.passengers BookingPage.passengersParam].
    clear E2 Hn. generalize dependent (FlightsSearch.passengers pg). intros n Hn.
    assert (Hc : (n = 1 \/ n = 2 \/ n = 3 \/ n = 4 \/ n = 5 \/ n = 6
                  \/ n = 7 \/ n = 8 \/ n = 9)%Z) by lia.
    repeat (destruct Hc as [->|Hc]; [ vm_compute; reflexivity | ]).
    subst n. vm_compute. reflexivity.
  - intros st Hr.
    apply (BookingFacts.lockedPrice_frozen _ st) in Hr; [ exact Hr | exact Hq ].
Qed.

(** The card of flight 2 of the sample results, at 5000, for two
    passengers. *)
Lemma booking_from_card_locks_the_card_price_witness :
  exists p : BookingPage.Props,
    FlightsUrl.bookingProps
      (FlightsSearch.mkPage "DEL" "BOM" "" 2 false "" true
         (Samples.tied "price"))
      (Samples.flightNo 2) (Some Samples.traveller) false = Some p
    /\ BookingPage.seatTier p = "ECONOMY"%string
    /\ ((1 <= 2 <= 9)%Z ->
        length (BookingPage.passengers (BookingPage.initialState p))
        = 2%nat)
    /\ forall st : BookingPage.State,
         BookingPage.reachable (H := Samples.host) p st ->
         BookingPage.lockedPrice st = 5000%float.
Proof.
  apply (booking_from_card_locks_the_card_price (H := Samples.host)
           (FlightsSearch.mkPage "DEL" "BOM" "" 2 false "" true
              (Samples.tied "price"))
           (Samples.flightNo 2) (Some Samples.traveller) false).
  - vm_compute. tauto.
  - vm_compute. reflexivity.
  - vm_compute. reflexivity.
  - vm_compute. reflexivity.
  - vm_compute. reflexivity.
Defined.

End NavigationTheorems.
